(** * Competitive-analysis crew: orchestration pipeline

    A shallow embedding of the analysis pipeline of the repository
    (src/crew/crew.py, src/crew/main.py, the four agents under
    src/agents/, src/database/models.py, src/database/supabase_client.py
    and the three send operations of src/utils/gmail_client.py), followed
    by the properties of the specification that were checked against it.

    Conventions.
    - Python dictionaries with a documented key set are records; a key
      that may be missing is an [option] field and [d.get(k, default)]
      is [with_default default field].
    - Values that come out of [json.loads] on a completion-service
      answer are untyped in the source; they are [pyval]s here and every
      dynamic operation the source performs on them ([.get], slicing,
      [float], iteration, enum lookup) is written out with the exception
      it raises.
    - A Python [float] is modelled by its exact rational value (or one
      of the three non finite values).  Only comparisons are performed
      on scores, and these are exact.  A float literal of the source is
      the double it denotes: [0.9] is 8106479329266893 / 2^53, which
      lies just above 9/10, and [0.7] is 3152519739159347 / 2^52, which
      lies just below 7/10.  A threshold that is handed to the store in
      a query is compared there with a NUMERIC column and is the decimal
      as written.
    - A character of a Python [str] is one [ascii] of a [string]; [len]
      is [String.length].
    - Calendar dates are day numbers ([Z]) counted from 1970-01-01.
    - Stateful code is written in a state-and-exception monad over the
      [World]; the services outside the repository (completion, search,
      store faults, SMTP) are fields of [Ext]. *)

From Stdlib Require Import String Ascii List ZArith QArith Bool Lia Arith.
Import ListNotations.
Local Close Scope Q_scope.
Local Open Scope nat_scope.
Local Open Scope string_scope.
Local Open Scope list_scope.

Set Implicit Arguments.
Set Warnings "-register-all".

(* ===================================================================== *)
(** ** Python values, exceptions and the dynamic operations of the source *)
(* ===================================================================== *)

Module Py.

(** The exception classes that the modelled code can meet.  All of them
    derive from [Exception], so every [except Exception] catches them. *)
Inductive exn : Type :=
| AttributeError
| TypeError
| ValueError
| KeyError
| ValidationError
| JSONDecodeError
| OverflowError
| ServiceError (msg : string).

Inductive result (A : Type) : Type :=
| Ok (a : A)
| Raise (e : exn).
Arguments Ok {A} a.
Arguments Raise {A} e.

Definition rbind {A B} (r : result A) (k : A -> result B) : result B :=
  match r with
  | Ok a => k a
  | Raise e => Raise e
  end.

(** A Python float: a finite value or one of inf, -inf, nan. *)
Inductive pyfloat : Type :=
| FFin (q : Q)
| FPosInf
| FNegInf
| FNaN.

(** [a >= b] and [a <= b] on floats, with IEEE behaviour on nan. *)
Definition float_ge (a b : pyfloat) : bool :=
  match a, b with
  | FNaN, _ | _, FNaN => false
  | FPosInf, _ => true
  | _, FNegInf => true
  | FNegInf, _ => false
  | _, FPosInf => false
  | FFin x, FFin y => Qle_bool y x
  end.

Definition float_le (a b : pyfloat) : bool := float_ge b a.

(** The doubles that the literals [0.9] and [0.7] denote. *)
Definition float_0_9 : Q := 8106479329266893 # 9007199254740992.
Definition float_0_7 : Q := 3152519739159347 # 4503599627370496.

(** [date.min] and [date.max], the first day of year 1 and the last day
    of year 9999. *)
Definition date_min : Z := (-719162)%Z.
Definition date_max : Z := 2932896%Z.

(** [(datetime.now() - timedelta(days=days)).date()]: [timedelta]
    refuses more than 999999999 days and the subtraction refuses a
    result outside the years 1 to 9999, both with [OverflowError]. *)
Definition days_before (today days : Z) : result Z :=
  if (Z.abs days <=? 999999999)%Z
     && (date_min <=? today - days)%Z && (today - days <=? date_max)%Z
  then Ok (today - days)%Z
  else Raise OverflowError.

(** What [json.loads] produces. *)
Inductive pyval : Type :=
| PNone
| PBool (b : bool)
| PInt (z : Z)
| PFloat (f : pyfloat)
| PStr (s : string)
| PList (l : list pyval)
| PDict (d : list (string * pyval)).

Fixpoint assoc {V} (k : string) (d : list (string * V)) : option V :=
  match d with
  | [] => None
  | (k', v) :: d' => if String.eqb k k' then Some v else assoc k d'
  end.

(** [d[k] = v] on an insertion-ordered dictionary. *)
Fixpoint dict_set {V} (k : string) (v : V) (d : list (string * V))
  : list (string * V) :=
  match d with
  | [] => [(k, v)]
  | (k', v') :: d' =>
      if String.eqb k k' then (k, v) :: d' else (k', v') :: dict_set k v d'
  end.

Definition with_default {A} (default : A) (o : option A) : A :=
  match o with
  | Some a => a
  | None => default
  end.

(** [x.get(k, default)]: only dictionaries have [get]. *)
Definition get (x : pyval) (k : string) (default : pyval) : result pyval :=
  match x with
  | PDict d => Ok (with_default default (assoc k d))
  | _ => Raise AttributeError
  end.

Fixpoint str_take (n : nat) (s : string) : string :=
  match n, s with
  | S n', String c s' => String c (str_take n' s')
  | _, _ => EmptyString
  end.

(** [x[:n]]: defined on sequences; on anything else the subscript
    raises (a [TypeError] for [None], numbers and booleans). *)
Definition slice_to (n : nat) (x : pyval) : result pyval :=
  match x with
  | PStr s => Ok (PStr (str_take n s))
  | PList l => Ok (PList (firstn n l))
  | _ => Raise TypeError
  end.

Fixpoint chars (s : string) : list pyval :=
  match s with
  | EmptyString => []
  | String c s' => PStr (String c EmptyString) :: chars s'
  end.

(** [for item in x]: lists give their items, strings their characters,
    dictionaries their keys; the rest is not iterable. *)
Definition iter (x : pyval) : result (list pyval) :=
  match x with
  | PList l => Ok l
  | PStr s => Ok (chars s)
  | PDict d => Ok (map (fun kv => PStr (fst kv)) d)
  | _ => Raise TypeError
  end.

(** [float(x)].  The parse of a string is a primitive of the language,
    not of the repository: it is passed in as [float_of_str]. *)
Definition to_float (float_of_str : string -> option pyfloat) (x : pyval)
  : result pyfloat :=
  match x with
  | PFloat f => Ok f
  | PInt z => Ok (FFin (inject_Z z))
  | PBool b => Ok (FFin (if b then 1%Q else 0%Q))
  | PStr s =>
      match float_of_str s with
      | Some f => Ok f
      | None => Raise ValueError
      end
  | _ => Raise TypeError
  end.

Definition is_space (c : ascii) : bool :=
  let n := nat_of_ascii c in
  (Nat.leb 9 n && Nat.leb n 13) || (Nat.leb 28 n && Nat.leb n 32)
  || Nat.eqb n 133 || Nat.eqb n 160.

Fixpoint lstrip (s : string) : string :=
  match s with
  | String c s' => if is_space c then lstrip s' else s
  | EmptyString => EmptyString
  end.

Fixpoint rstrip (s : string) : string :=
  match s with
  | EmptyString => EmptyString
  | String c s' =>
      match rstrip s' with
      | EmptyString => if is_space c then EmptyString else String c EmptyString
      | r => String c r
      end
  end.

(** [s.strip()] *)
Definition strip (s : string) : string := rstrip (lstrip s).

Definition lower_ascii (c : ascii) : ascii :=
  let n := nat_of_ascii c in
  if Nat.leb 65 n && Nat.leb n 90 then ascii_of_nat (n + 32) else c.

(** [s.lower()] on the ASCII letters. *)
Fixpoint lower (s : string) : string :=
  match s with
  | EmptyString => EmptyString
  | String c s' => String (lower_ascii c) (lower s')
  end.

(** [" ".join(l)] *)
Fixpoint join_space (l : list string) : string :=
  match l with
  | [] => ""
  | [s] => s
  | s :: l' => s ++ " " ++ join_space l'
  end.

(** [x in l] for strings. *)
Definition str_in (x : string) (l : list string) : bool :=
  existsb (String.eqb x) l.

End Py.
Export Py.

(* ===================================================================== *)
(** ** Data model (src/database/models.py)                                *)
(* ===================================================================== *)

(** Primitives of the language and of the validation library whose
    behaviour is not fixed by the repository: the parse performed by
    [float] on a string, the text [str] gives for a value, and the
    coercions the validation library may or may not apply to a value of
    the wrong type (they differ between its major versions). *)
Record Lang : Type := {
  float_of_str : string -> option pyfloat;
  str_of : pyval -> string;
  coerce_scalar_to_str : pyval -> option string;
  coerce_to_dict : pyval -> option (list (string * pyval))
}.

Module Models.

Inductive Priority : Type := LOW | MEDIUM | HIGH | CRITICAL.

Definition Priority_value (p : Priority) : string :=
  match p with
  | LOW => "low"
  | MEDIUM => "medium"
  | HIGH => "high"
  | CRITICAL => "critical"
  end.

Definition all_priorities : list Priority := [LOW; MEDIUM; HIGH; CRITICAL].

Inductive Category : Type :=
| AI_RESEARCH | PRODUCT_LAUNCH | FUNDING | ACQUISITION
| PARTNERSHIP | REGULATION | TECHNOLOGY | MARKET_TREND.

Definition Category_value (c : Category) : string :=
  match c with
  | AI_RESEARCH => "ai_research"
  | PRODUCT_LAUNCH => "product_launch"
  | FUNDING => "funding"
  | ACQUISITION => "acquisition"
  | PARTNERSHIP => "partnership"
  | REGULATION => "regulation"
  | TECHNOLOGY => "technology"
  | MARKET_TREND => "market_trend"
  end.

Definition all_categories : list Category :=
  [AI_RESEARCH; PRODUCT_LAUNCH; FUNDING; ACQUISITION;
   PARTNERSHIP; REGULATION; TECHNOLOGY; MARKET_TREND].

(** [Enum(value)]: the member with that value, or [ValueError]. *)
Definition enum_of {E} (members : list E) (value_of : E -> string)
  (x : pyval) : result E :=
  match x with
  | PStr s =>
      match find (fun m => String.eqb (value_of m) s) members with
      | Some m => Ok m
      | None => Raise ValueError
      end
  | _ => Raise ValueError
  end.

Definition Priority_of : pyval -> result Priority :=
  enum_of all_priorities Priority_value.

Definition Category_of : pyval -> result Category :=
  enum_of all_categories Category_value.

Record MarketFinding : Type := {
  mf_id : option nat;
  mf_date : Z;
  mf_category : Category;
  mf_title : string;
  mf_summary : string;
  mf_content : string;
  mf_relevance_score : Q;
  mf_source_url : option string;
  mf_created_at : option nat
}.

Record CompetitorUpdate : Type := {
  cu_id : option nat;
  cu_company_name : string;
  cu_update_type : Category;
  cu_description : string;
  cu_impact_level : Priority;
  cu_source_url : option string;
  cu_detected_date : Z;
  cu_created_at : option nat
}.

Record Opportunity : Type := {
  op_id : option nat;
  op_title : string;
  op_description : string;
  op_market_gap : string;
  op_score : Q;
  op_priority : Priority;
  op_potential_revenue : option string;
  op_implementation_complexity : option string;
  op_time_to_market : option string;
  op_created_at : option nat
}.

Record Trend : Type := {
  tr_id : option nat;
  tr_trend_name : string;
  tr_category : Category;
  tr_momentum_score : Q;
  tr_evidence : list (string * pyval);
  tr_first_detected : Z;
  tr_prediction : option string;
  tr_created_at : option nat
}.

Record AnalysisRun : Type := {
  ar_id : option nat;
  ar_run_date : Z;
  ar_findings_count : nat;
  ar_opportunities_identified : nat;
  ar_key_insights : option string;
  ar_recommendations : list (string * pyval);
  ar_execution_time_seconds : option Q;
  ar_status : string;
  ar_created_at : option nat
}.

(** *** Field validators *)

(** A [str] field. *)
Definition v_str (L : Lang) (x : pyval) : result string :=
  match x with
  | PStr s => Ok s
  | PInt _ | PFloat _ | PBool _ =>
      match coerce_scalar_to_str L x with
      | Some s => Ok s
      | None => Raise ValidationError
      end
  | _ => Raise ValidationError
  end.

(** [Field(max_length=n)] *)
Definition v_max_length (n : nat) (s : string) : result string :=
  if Nat.leb (String.length s) n then Ok s else Raise ValidationError.

(** [Optional[str] = None] *)
Definition v_opt_str (L : Lang) (x : pyval) : result (option string) :=
  match x with
  | PNone => Ok None
  | _ => rbind (v_str L x) (fun s => Ok (Some s))
  end.

(** [float = Field(ge=0.0, le=1.0)]: the value is kept as it is when it
    lies in the range and refused otherwise. *)
Definition v_unit_interval (f : pyfloat) : result Q :=
  if float_ge f (FFin 0%Q) && float_le f (FFin 1%Q) then
    match f with
    | FFin q => Ok q
    | _ => Raise ValidationError
    end
  else Raise ValidationError.

(** [Dict[str, Any]] *)
Definition v_dict (L : Lang) (x : pyval) : result (list (string * pyval)) :=
  match x with
  | PDict d => Ok d
  | _ =>
      match coerce_to_dict L x with
      | Some d => Ok d
      | None => Raise ValidationError
      end
  end.

(** *** Constructors: [Model(field=..., ...)] validates every field

    [MarketFinding] is the class its field declarations describe.  In
    the source the annotation of its field [date] (models.py:28) is
    written with the name the same statement binds to the field, which
    the validation library refuses when it creates the class; the
    constructor below is that of the class with the annotation read as
    the type [date], as [Trend.first_detected] and
    [CompetitorUpdate.detected_date] have it. *)

Definition new_MarketFinding (L : Lang) (date : Z) (category : Category)
  (title summary content : pyval) (relevance_score : pyfloat)
  (source_url : pyval) : result MarketFinding :=
  rbind (rbind (v_str L title) (v_max_length 500)) (fun title' =>
  rbind (rbind (v_str L summary) (v_max_length 2000)) (fun summary' =>
  rbind (v_str L content) (fun content' =>
  rbind (v_unit_interval relevance_score) (fun score' =>
  rbind (v_opt_str L source_url) (fun url' =>
  Ok {| mf_id := None; mf_date := date; mf_category := category;
        mf_title := title'; mf_summary := summary'; mf_content := content';
        mf_relevance_score := score'; mf_source_url := url';
        mf_created_at := None |}))))).

Definition new_CompetitorUpdate (L : Lang) (company_name : string)
  (update_type : Category) (description : pyval) (impact_level : Priority)
  (source_url : pyval) (detected_date : Z) : result CompetitorUpdate :=
  rbind (v_max_length 255 company_name) (fun name' =>
  rbind (v_str L description) (fun description' =>
  rbind (v_opt_str L source_url) (fun url' =>
  Ok {| cu_id := None; cu_company_name := name';
        cu_update_type := update_type; cu_description := description';
        cu_impact_level := impact_level; cu_source_url := url';
        cu_detected_date := detected_date; cu_created_at := None |}))).

Definition new_Opportunity (L : Lang) (title description market_gap : pyval)
  (score : pyfloat) (priority : Priority)
  (potential_revenue implementation_complexity time_to_market : pyval)
  : result Opportunity :=
  rbind (rbind (v_str L title) (v_max_length 255)) (fun title' =>
  rbind (v_str L description) (fun description' =>
  rbind (v_str L market_gap) (fun gap' =>
  rbind (v_unit_interval score) (fun score' =>
  rbind (v_opt_str L potential_revenue) (fun revenue' =>
  rbind (v_opt_str L implementation_complexity) (fun complexity' =>
  rbind (v_opt_str L time_to_market) (fun ttm' =>
  Ok {| op_id := None; op_title := title'; op_description := description';
        op_market_gap := gap'; op_score := score'; op_priority := priority;
        op_potential_revenue := revenue';
        op_implementation_complexity := complexity';
        op_time_to_market := ttm'; op_created_at := None |}))))))).

Definition new_Trend (L : Lang) (trend_name : pyval) (category : Category)
  (momentum_score : pyfloat) (evidence : pyval) (first_detected : Z)
  (prediction : pyval) : result Trend :=
  rbind (rbind (v_str L trend_name) (v_max_length 255)) (fun name' =>
  rbind (v_unit_interval momentum_score) (fun score' =>
  rbind (v_dict L evidence) (fun evidence' =>
  rbind (v_opt_str L prediction) (fun prediction' =>
  Ok {| tr_id := None; tr_trend_name := name'; tr_category := category;
        tr_momentum_score := score'; tr_evidence := evidence';
        tr_first_detected := first_detected; tr_prediction := prediction';
        tr_created_at := None |})))).

Definition new_AnalysisRun (L : Lang) (run_date : Z)
  (findings_count opportunities_identified : nat) (key_insights : string)
  (recommendations : pyval) (execution_time_seconds : Q) (status : string)
  : result AnalysisRun :=
  rbind (v_dict L recommendations) (fun recommendations' =>
  Ok {| ar_id := None; ar_run_date := run_date;
        ar_findings_count := findings_count;
        ar_opportunities_identified := opportunities_identified;
        ar_key_insights := Some key_insights;
        ar_recommendations := recommendations';
        ar_execution_time_seconds := Some execution_time_seconds;
        ar_status := status; ar_created_at := None |}).

End Models.
Export Models.

(* ===================================================================== *)
(** ** Result dictionaries exchanged between the components               *)
(* ===================================================================== *)

Module Reports.

(** Returned by [gather_market_intelligence]. *)
Record MarketResult : Type := {
  mr_agent : string;
  mr_timestamp : string;
  mr_error : option exn;
  mr_executive_summary : option pyval;
  mr_findings_count : nat;
  mr_key_insights : option pyval;
  mr_recommended_actions : option pyval;
  mr_findings : option (list MarketFinding)
}.

(** An entry of ["critical_threats"]. *)
Record Threat : Type := {
  th_company : string;
  th_threat : string;
  th_impact : Priority;
  th_date : Z
}.

(** Returned by [monitor_competitors]. *)
Record CompetitorResult : Type := {
  cr_agent : string;
  cr_timestamp : string;
  cr_error : option exn;
  cr_competitors_monitored : option nat;
  cr_updates_found : nat;
  cr_landscape_analysis : option pyval;
  cr_competitor_analyses : option (list (string * pyval));
  cr_critical_threats : option (list Threat);
  cr_strategic_recommendations : option pyval
}.

(** Returned by [analyze_market_trends]. *)
Record TrendResult : Type := {
  tres_agent : string;
  tres_timestamp : string;
  tres_error : option exn;
  tres_trends_identified : nat;
  tres_analysis_summary : option pyval;
  tres_key_trends : option (list Trend);
  tres_market_predictions : option pyval;
  tres_opportunity_indicators : option pyval;
  tres_risk_factors : option pyval
}.

(** Returned by [generate_strategic_analysis]. *)
Record SynthesisResult : Type := {
  sr_agent : string;
  sr_timestamp : string;
  sr_error : option exn;
  sr_executive_summary : option pyval;
  sr_strategic_insights : option pyval;
  sr_new_opportunities : nat;
  sr_top_opportunities : option (list Opportunity);
  sr_strategic_recommendations : option pyval;
  sr_competitive_positioning : option pyval;
  sr_risk_assessment : option pyval;
  sr_action_plan : option pyval
}.

Record Summary : Type := {
  sm_findings_count : nat;
  sm_competitor_updates : nat;
  sm_trends_identified : nat;
  sm_opportunities_count : nat
}.

(** Returned by [run_daily_analysis]: [analysis_results] with every
    key, or [error_results] with the first four only. *)
Record Results : Type := {
  rs_analysis_date : Z;
  rs_execution_time : Q;
  rs_status : string;
  rs_error : option exn;
  rs_market_intelligence : option MarketResult;
  rs_competitor_intelligence : option CompetitorResult;
  rs_trend_analysis : option TrendResult;
  rs_strategic_synthesis : option SynthesisResult;
  rs_summary : option Summary
}.

Record Alert : Type := {
  al_title : string;
  al_description : string;
  al_impact_level : string;
  al_source : string;
  al_recommended_action : string
}.

(** [report_data] of [_send_daily_notifications]. *)
Record ReportData : Type := {
  rd_executive_summary : pyval;
  rd_findings_count : nat;
  rd_opportunities_count : nat;
  rd_competitor_updates : nat;
  rd_trends_identified : nat;
  rd_top_opportunities : list Opportunity;
  rd_key_insights : pyval;
  rd_recommendations : pyval;
  rd_critical_alerts : option (list Alert)
}.

(** Returned by [get_analysis_summary]. *)
Record AnalysisSummary : Type := {
  as_period_days : Z;
  as_error : option exn;
  as_start_date : option Z;
  as_market_findings : option nat;
  as_opportunities : option nat;
  as_trends : option nat;
  as_competitor_updates : option nat;
  as_high_value_opportunities : option nat;
  as_high_momentum_trends : option nat;
  as_critical_competitor_updates : option nat;
  as_category_breakdown : option (list (string * nat));
  as_last_updated : string
}.

(** Returned by [generate_executive_briefing]. *)
Record Briefing : Type := {
  br_briefing_type : string;
  br_error : option exn;
  br_briefing_content : option string;
  br_data_sources : option (nat * nat * nat);
  br_timestamp : string
}.

(** Returned by [assess_opportunity_portfolio]. *)
Record Portfolio : Type := {
  pf_analysis_type : string;
  pf_error : option exn;
  pf_portfolio_size : option nat;
  pf_portfolio_analysis : option string;
  pf_timestamp : string
}.

(** Returned by [run_weekly_summary]: [summary_data], or a dictionary
    with the single key ["error"]. *)
Inductive WeeklyResult : Type :=
| WeeklySummary (period : string) (summary : AnalysisSummary)
    (executive_briefing : Briefing) (portfolio_assessment : Portfolio)
    (timestamp : string)
| WeeklyError (error : exn).

(** Returned by [analyze_specific_topic]. *)
Record TopicAnalysis : Type := {
  ta_topic : string;
  ta_error : option exn;
  ta_analysis : option string;
  ta_timestamp : string
}.

(** Returned by [analyze_trend_convergence]. *)
Record Convergence : Type := {
  cv_analysis_type : string;
  cv_error : option exn;
  cv_convergence_analysis : option string;
  cv_timestamp : string
}.

(** Returned by [run_quick_analysis]. *)
Inductive QuickResult : Type :=
| QuickAnalysis (topic : string) (market_analysis : TopicAnalysis)
    (trend_convergence : Convergence) (timestamp : string)
| QuickError (topic : string) (error : exn).

End Reports.
Export Reports.

(* ===================================================================== *)
(** ** The world: Result Store, outbox and the services outside the code  *)
(* ===================================================================== *)

Module Env.

(** The five tables, each in insertion order. *)
Record Store : Type := {
  market_findings : list MarketFinding;
  competitor_updates : list CompetitorUpdate;
  opportunities : list Opportunity;
  trends : list Trend;
  analysis_runs : list AnalysisRun
}.

Definition empty_store : Store :=
  {| market_findings := []; competitor_updates := []; opportunities := [];
     trends := []; analysis_runs := [] |}.

Inductive Row : Type :=
| RowFinding (r : MarketFinding)
| RowUpdate (r : CompetitorUpdate)
| RowOpportunity (r : Opportunity)
| RowTrend (r : Trend)
| RowRun (r : AnalysisRun).

Inductive DbRequest : Type :=
| DbSelect (table : string)
| DbInsert (row : Row).

Inductive EmailBody : Type :=
| DailyReportBody (report_data : ReportData)
| CriticalAlertBody (alert_data : Alert)
| WeeklySummaryBody (summary_data : WeeklyResult).

(** A message handed to the SMTP server. *)
Record Email : Type := {
  em_to : string;
  em_type : string;
  em_body : EmailBody
}.

(** What is interpolated into each prompt sent to the completion
    service (the fixed wording and the company context are left out). *)
Inductive Prompt : Type :=
| MarketPrompt (ai_news emerging_tech funding_news : string)
| CompetitorPrompt (competitor_name search_results : string)
| LandscapePrompt (competitor_analyses : list (string * pyval))
| TrendPrompt (historical_findings : list MarketFinding)
    (historical_opportunities : list Opportunity)
    (current_trends : list (string * string))
| SynthesisPrompt (market_findings : list MarketFinding)
    (competitor_updates : list CompetitorUpdate) (trends : list Trend)
    (existing_opportunities : list Opportunity)
| OpportunityPrompt (strategic_analysis : pyval)
| BriefingPrompt (analysis_summary : AnalysisSummary)
    (top_opportunities : list Opportunity) (critical_trends : list Trend)
    (recent_threats : list CompetitorUpdate)
| PortfolioPrompt (all_opportunities : list Opportunity)
| TopicPrompt (topic search_results context : string)
| ConvergencePrompt (recent_trends : list Trend).

(** Outcome of [llm.invoke(prompt)]: an exception, or a response whose
    [content] is given together with what [json.loads] makes of it
    ([None] when it is not JSON). *)
Inductive LlmReply : Type :=
| LlmRaises (e : exn)
| LlmContent (content : string) (parsed : option pyval).

(** Everything the pipeline depends on and does not define.  The
    completion service, the store and the SMTP server may answer
    differently each time they are called: their answer is a function
    of the number of earlier calls as well as of the request.

    - [today] is the date the clock shows; the fixed numbers of days
      the code subtracts from it (7, 30, 180) are taken to give a date,
      as they do on every day after the first months of the year 1.
    - [store_ok] tells whether the store carries the request out, and
      [store_replies] whether its answer to an [insert] it carried out
      reaches the client with the row in it: a row can be written and
      the reply be empty or lost.
    - [numeric_3_2] and [numeric_8_2] give the float that is read back
      from a [DECIMAL(3,2)] and a [DECIMAL(8,2)] column for the float
      that was written to it.
    - [smtp_ok] tells whether [sendmail] hands the message over, and
      [smtp_quit_ok] whether the [quit] that follows it succeeds. *)
Record Ext : Type := {
  lang : Lang;
  today : Z;
  now_iso : string;
  elapsed : Q;
  competitors : list string;
  search : string -> nat -> string -> string -> string;
  llm : nat -> Prompt -> LlmReply;
  store_ok : nat -> DbRequest -> bool;
  store_replies : nat -> DbRequest -> bool;
  numeric_3_2 : Q -> Q;
  numeric_8_2 : Q -> Q;
  gmail_enabled : bool;
  notification_recipients : list string;
  renders : EmailBody -> bool;
  smtp_ok : nat -> Email -> bool;
  smtp_quit_ok : nat -> Email -> bool
}.

Record World : Type := {
  store : Store;
  outbox : list Email;
  db_ops : nat;
  llm_calls : nat;
  smtp_ops : nat
}.

Definition initial_world (s : Store) : World :=
  {| store := s; outbox := []; db_ops := 0; llm_calls := 0; smtp_ops := 0 |}.

End Env.
Export Env.

(* ===================================================================== *)
(** ** Programs: state over the world, with exceptions                    *)
(* ===================================================================== *)

Module Prog.

Definition M (A : Type) : Type := World -> result A * World.

Definition ret {A} (a : A) : M A := fun w => (Ok a, w).

Definition raise {A} (e : exn) : M A := fun w => (Raise e, w).

Definition bind {A B} (m : M A) (k : A -> M B) : M B :=
  fun w =>
    match m w with
    | (Ok a, w') => k a w'
    | (Raise e, w') => (Raise e, w')
    end.

(** A pure computation that may raise. *)
Definition lift {A} (r : result A) : M A := fun w => (r, w).

(** [try: body  except Exception as e: handler(e)].  What the body
    wrote before it raised stays written. *)
Definition try_except {A} (body : M A) (handler : exn -> M A) : M A :=
  fun w =>
    match body w with
    | (Ok a, w') => (Ok a, w')
    | (Raise e, w') => handler e w'
    end.

Definition gets {A} (f : World -> A) : M A := fun w => (Ok (f w), w).

Definition modify (f : World -> World) : M unit := fun w => (Ok tt, f w).

(** [for x in l: body(acc, x)] with an accumulator. *)
Fixpoint for_each {A B} (l : list A) (acc : B) (body : B -> A -> M B) : M B :=
  match l with
  | [] => ret acc
  | x :: l' => bind (body acc x) (fun acc' => for_each l' acc' body)
  end.

(** [await asyncio.gather(a, b, c)] for coroutines that never suspend
    before they finish, which is the case of the three stages: every
    [await] inside them is on a coroutine of this code base whose body
    makes blocking calls only.  The event loop then runs the three tasks
    one after the other in the order given; a task that raises does not
    cancel the ones after it, and the first exception is delivered to
    the caller once all three have run. *)
Definition gather3 {A B C} (a : M A) (b : M B) (c : M C) : M (A * B * C) :=
  fun w =>
    let (ra, w1) := a w in
    let (rb, w2) := b w1 in
    let (rc, w3) := c w2 in
    match ra, rb, rc with
    | Ok x, Ok y, Ok z => (Ok (x, y, z), w3)
    | Raise e, _, _ => (Raise e, w3)
    | _, Raise e, _ => (Raise e, w3)
    | _, _, Raise e => (Raise e, w3)
    end.

End Prog.
Export Prog.

Declare Scope prog_scope.
Delimit Scope prog_scope with prog.
Notation "x <- m ;; k" := (bind m (fun x => k))
  (at level 61, m at next level, right associativity) : prog_scope.
Notation "m ;;; k" := (bind m (fun _ => k))
  (at level 61, right associativity) : prog_scope.

Local Open Scope prog_scope.

(** [x > y] on exact values. *)
Definition Qgt_bool (x y : Q) : bool := negb (Qle_bool x y).

Section Sorting.
Variable A : Type.
Variable before : A -> A -> bool.

Fixpoint insert_by (x : A) (l : list A) : list A :=
  match l with
  | [] => [x]
  | y :: l' => if before x y then x :: l else y :: insert_by x l'
  end.

(** [ORDER BY]: a stable sort. *)
Definition sort_by (l : list A) : list A := fold_right insert_by [] l.
End Sorting.

(* ===================================================================== *)
(** ** Result Store client (src/database/supabase_client.py)               *)
(* ===================================================================== *)

Module Db.

Definition set_store (s : Store) (w : World) : World :=
  {| store := s; outbox := outbox w; db_ops := db_ops w;
     llm_calls := llm_calls w; smtp_ops := smtp_ops w |}.

Definition add_finding (r : MarketFinding) (s : Store) : Store :=
  {| market_findings := market_findings s ++ [r];
     competitor_updates := competitor_updates s;
     opportunities := opportunities s; trends := trends s;
     analysis_runs := analysis_runs s |}.

Definition add_update (r : CompetitorUpdate) (s : Store) : Store :=
  {| market_findings := market_findings s;
     competitor_updates := competitor_updates s ++ [r];
     opportunities := opportunities s; trends := trends s;
     analysis_runs := analysis_runs s |}.

Definition add_opportunity (r : Opportunity) (s : Store) : Store :=
  {| market_findings := market_findings s;
     competitor_updates := competitor_updates s;
     opportunities := opportunities s ++ [r]; trends := trends s;
     analysis_runs := analysis_runs s |}.

Definition add_trend (r : Trend) (s : Store) : Store :=
  {| market_findings := market_findings s;
     competitor_updates := competitor_updates s;
     opportunities := opportunities s; trends := trends s ++ [r];
     analysis_runs := analysis_runs s |}.

Definition add_run (r : AnalysisRun) (s : Store) : Store :=
  {| market_findings := market_findings s;
     competitor_updates := competitor_updates s;
     opportunities := opportunities s; trends := trends s;
     analysis_runs := analysis_runs s ++ [r] |}.

(** Every request to the store takes the next request number. *)
Definition next_db_op : M nat :=
  fun w =>
    (Ok (db_ops w),
     {| store := store w; outbox := outbox w; db_ops := S (db_ops w);
        llm_calls := llm_calls w; smtp_ops := smtp_ops w |}).

Definition newest_first {A} (created_at : A -> option nat) (x y : A) : bool :=
  Nat.leb (with_default 0 (created_at y)) (with_default 0 (created_at x)).

Definition highest_first {A} (score : A -> Q) (x y : A) : bool :=
  Qle_bool (score y) (score x).

Section Client.
Variable E : Ext.

(** The row as the store returns it: the columns [id] and [created_at]
    are filled in by the store, and a score is what its [DECIMAL(3,2)]
    column gives back. *)
Definition stored_finding (n : nat) (r : MarketFinding) : MarketFinding :=
  {| mf_id := Some n; mf_date := mf_date r; mf_category := mf_category r;
     mf_title := mf_title r; mf_summary := mf_summary r;
     mf_content := mf_content r;
     mf_relevance_score := numeric_3_2 E (mf_relevance_score r);
     mf_source_url := mf_source_url r; mf_created_at := Some n |}.

Definition stored_update (n : nat) (r : CompetitorUpdate) : CompetitorUpdate :=
  {| cu_id := Some n; cu_company_name := cu_company_name r;
     cu_update_type := cu_update_type r; cu_description := cu_description r;
     cu_impact_level := cu_impact_level r; cu_source_url := cu_source_url r;
     cu_detected_date := cu_detected_date r; cu_created_at := Some n |}.

Definition stored_opportunity (n : nat) (r : Opportunity) : Opportunity :=
  {| op_id := Some n; op_title := op_title r;
     op_description := op_description r; op_market_gap := op_market_gap r;
     op_score := numeric_3_2 E (op_score r); op_priority := op_priority r;
     op_potential_revenue := op_potential_revenue r;
     op_implementation_complexity := op_implementation_complexity r;
     op_time_to_market := op_time_to_market r; op_created_at := Some n |}.

Definition stored_trend (n : nat) (r : Trend) : Trend :=
  {| tr_id := Some n; tr_trend_name := tr_trend_name r;
     tr_category := tr_category r;
     tr_momentum_score := numeric_3_2 E (tr_momentum_score r);
     tr_evidence := tr_evidence r; tr_first_detected := tr_first_detected r;
     tr_prediction := tr_prediction r; tr_created_at := Some n |}.

(** The execution time goes to a [DECIMAL(8,2)] column. *)
Definition stored_run (n : nat) (r : AnalysisRun) : AnalysisRun :=
  {| ar_id := Some n; ar_run_date := ar_run_date r;
     ar_findings_count := ar_findings_count r;
     ar_opportunities_identified := ar_opportunities_identified r;
     ar_key_insights := ar_key_insights r;
     ar_recommendations := ar_recommendations r;
     ar_execution_time_seconds :=
       option_map (numeric_8_2 E) (ar_execution_time_seconds r);
     ar_status := ar_status r; ar_created_at := Some n |}.

(** [insert_*]: the row in the reply of the store, or [None] when the
    reply holds no row or the request raises (the exception is caught
    inside the client).  The row is written when the store carries the
    request out, whether its reply arrives or not. *)
Definition insert_market_finding (finding : MarketFinding)
  : M (option MarketFinding) :=
  n <- next_db_op ;;
  if store_ok E n (DbInsert (RowFinding finding)) then
    modify (fun w => set_store (add_finding (stored_finding n finding) (store w)) w) ;;;
    if store_replies E n (DbInsert (RowFinding finding)) then
      ret (Some (stored_finding n finding))
    else ret None
  else ret None.

Definition insert_competitor_update (update : CompetitorUpdate)
  : M (option CompetitorUpdate) :=
  n <- next_db_op ;;
  if store_ok E n (DbInsert (RowUpdate update)) then
    modify (fun w => set_store (add_update (stored_update n update) (store w)) w) ;;;
    if store_replies E n (DbInsert (RowUpdate update)) then
      ret (Some (stored_update n update))
    else ret None
  else ret None.

Definition insert_opportunity (opportunity : Opportunity)
  : M (option Opportunity) :=
  n <- next_db_op ;;
  if store_ok E n (DbInsert (RowOpportunity opportunity)) then
    modify (fun w => set_store (add_opportunity (stored_opportunity n opportunity) (store w)) w) ;;;
    if store_replies E n (DbInsert (RowOpportunity opportunity)) then
      ret (Some (stored_opportunity n opportunity))
    else ret None
  else ret None.

Definition insert_trend (trend : Trend) : M (option Trend) :=
  n <- next_db_op ;;
  if store_ok E n (DbInsert (RowTrend trend)) then
    modify (fun w => set_store (add_trend (stored_trend n trend) (store w)) w) ;;;
    if store_replies E n (DbInsert (RowTrend trend)) then
      ret (Some (stored_trend n trend))
    else ret None
  else ret None.

Definition insert_analysis_run (run_data : AnalysisRun)
  : M (option AnalysisRun) :=
  n <- next_db_op ;;
  if store_ok E n (DbInsert (RowRun run_data)) then
    modify (fun w => set_store (add_run (stored_run n run_data) (store w)) w) ;;;
    if store_replies E n (DbInsert (RowRun run_data)) then
      ret (Some (stored_run n run_data))
    else ret None
  else ret None.

(** [get_*]: the rows that match, or [[]] on any failure. *)
Definition get_market_findings (limit : nat) (category : option string)
  (start_date : option Z) : M (list MarketFinding) :=
  n <- next_db_op ;;
  if store_ok E n (DbSelect "market_findings") then
    rows <- gets (fun w => market_findings (store w)) ;;
    let rows1 :=
      match category with
      | Some c =>
          if String.eqb c "" then rows
          else filter (fun r => String.eqb (Category_value (mf_category r)) c) rows
      | None => rows
      end in
    let rows2 :=
      match start_date with
      | Some d => filter (fun r => Z.leb d (mf_date r)) rows1
      | None => rows1
      end in
    ret (firstn limit (sort_by (newest_first mf_created_at) rows2))
  else ret [].

Definition get_competitor_updates (company_name : option string)
  (limit : nat) : M (list CompetitorUpdate) :=
  n <- next_db_op ;;
  if store_ok E n (DbSelect "competitor_updates") then
    rows <- gets (fun w => competitor_updates (store w)) ;;
    let rows1 :=
      match company_name with
      | Some c =>
          if String.eqb c "" then rows
          else filter (fun r => String.eqb (cu_company_name r) c) rows
      | None => rows
      end in
    ret (firstn limit (sort_by (newest_first cu_created_at) rows1))
  else ret [].

Definition get_opportunities (min_score : option Q) (limit : nat)
  : M (list Opportunity) :=
  n <- next_db_op ;;
  if store_ok E n (DbSelect "opportunities") then
    rows <- gets (fun w => opportunities (store w)) ;;
    let rows1 :=
      match min_score with
      | Some m =>
          if Qeq_bool m 0 then rows
          else filter (fun r => Qle_bool m (op_score r)) rows
      | None => rows
      end in
    ret (firstn limit (sort_by (highest_first op_score) rows1))
  else ret [].

Definition get_trends (category : option string) (min_momentum : option Q)
  (limit : nat) : M (list Trend) :=
  n <- next_db_op ;;
  if store_ok E n (DbSelect "trends") then
    rows <- gets (fun w => trends (store w)) ;;
    let rows1 :=
      match category with
      | Some c =>
          if String.eqb c "" then rows
          else filter (fun r => String.eqb (Category_value (tr_category r)) c) rows
      | None => rows
      end in
    let rows2 :=
      match min_momentum with
      | Some m =>
          if Qeq_bool m 0 then rows1
          else filter (fun r => Qle_bool m (tr_momentum_score r)) rows1
      | None => rows1
      end in
    ret (firstn limit (sort_by (highest_first tr_momentum_score) rows2))
  else ret [].

(** [category_counts[c] = category_counts.get(c, 0) + 1] for each row *)
Definition count_categories (findings : list MarketFinding)
  : list (string * nat) :=
  fold_left
    (fun counts finding =>
       let c := Category_value (mf_category finding) in
       dict_set c (with_default 0 (assoc c counts) + 1) counts)
    findings [].

Definition get_latest_findings_by_category : M (list (string * nat)) :=
  try_except
    (findings <- get_market_findings 1000 None (Some (today E - 7)%Z) ;;
     ret (count_categories findings))
    (fun _ => ret []).

Definition get_analysis_summary (days : Z) : M AnalysisSummary :=
  try_except
    (start_date <- lift (days_before (today E) days) ;;
     findings <- get_market_findings 1000 None (Some start_date) ;;
     opps <- get_opportunities None 1000 ;;
     trs <- get_trends None None 1000 ;;
     updates <- get_competitor_updates None 1000 ;;
     let high_value_opportunities :=
       length (filter (fun o => Qgt_bool (op_score o) float_0_7) opps) in
     let high_momentum_trends :=
       length (filter (fun t => Qgt_bool (tr_momentum_score t) float_0_7) trs) in
     let critical_updates :=
       length (filter (fun u => str_in (Priority_value (cu_impact_level u))
                                  ["high"; "critical"]) updates) in
     breakdown <- get_latest_findings_by_category ;;
     ret {| as_period_days := days; as_error := None;
            as_start_date := Some start_date;
            as_market_findings := Some (length findings);
            as_opportunities := Some (length opps);
            as_trends := Some (length trs);
            as_competitor_updates := Some (length updates);
            as_high_value_opportunities := Some high_value_opportunities;
            as_high_momentum_trends := Some high_momentum_trends;
            as_critical_competitor_updates := Some critical_updates;
            as_category_breakdown := Some breakdown;
            as_last_updated := now_iso E |})
    (fun e =>
       ret {| as_period_days := days; as_error := Some e;
              as_start_date := None; as_market_findings := None;
              as_opportunities := None; as_trends := None;
              as_competitor_updates := None;
              as_high_value_opportunities := None;
              as_high_momentum_trends := None;
              as_critical_competitor_updates := None;
              as_category_breakdown := None;
              as_last_updated := now_iso E |}).

End Client.
End Db.
Export Db.

(* ===================================================================== *)
(** ** Collaborators: completion service, search, notifier                *)
(* ===================================================================== *)

Module Services.

Definition dquote : string := String (ascii_of_nat 34) EmptyString.

Section Services.
Variable E : Ext.

(** [self.llm.invoke(prompt)]: the content of the response and its
    reading as JSON, or the exception of the service. *)
Definition llm_invoke (p : Prompt) : M (string * option pyval) :=
  fun w =>
    let w' := {| store := store w; outbox := outbox w; db_ops := db_ops w;
                 llm_calls := S (llm_calls w); smtp_ops := smtp_ops w |} in
    match llm E (llm_calls w) p with
    | LlmRaises e => (Raise e, w')
    | LlmContent content parsed => (Ok (content, parsed), w')
    end.

(** [json.loads(response.content)] *)
Definition json_loads (response : string * option pyval) : result pyval :=
  match snd response with
  | Some v => Ok v
  | None => Raise JSONDecodeError
  end.

(** [serper_tool._run]: it catches every exception and always returns
    a text. *)
Definition serper_run (query : string) (num_results : nat)
  (time_range search_type : string) : string :=
  search E query (Nat.min num_results 100) time_range search_type.

Definition search_ai_news (days_back : nat) : string :=
  let time_range :=
    if Nat.leb days_back 1 then "d"
    else if Nat.leb days_back 7 then "w" else "m" in
  serper_run
    "artificial intelligence AI news technology breakthrough startup funding"
    20 time_range "news".

Definition search_competitor_updates (company_name : string)
  (days_back : nat) : string :=
  let time_range := if Nat.leb days_back 7 then "w" else "m" in
  serper_run
    (dquote ++ company_name ++ dquote ++
     " AI artificial intelligence update news announcement product launch")
    15 time_range "news".

(** [_send_email]: [sendmail] then [quit] inside one [try]; [True] when
    neither raised.  The message is with the server as soon as
    [sendmail] has returned. *)
Definition send_email (to_email email_type : string) (body : EmailBody)
  : M bool :=
  fun w =>
    let msg := {| em_to := to_email; em_type := email_type; em_body := body |} in
    let handed_over := smtp_ok E (smtp_ops w) msg in
    (Ok (handed_over && smtp_quit_ok E (smtp_ops w) msg),
     {| store := store w;
        outbox := if handed_over then outbox w ++ [msg] else outbox w;
        db_ops := db_ops w; llm_calls := llm_calls w;
        smtp_ops := S (smtp_ops w) |}).

(** The common body of [send_daily_report], [send_critical_alert] and
    [send_weekly_summary].  The subject and the HTML are computed from
    the body; when that computation raises, nothing is sent. *)
Definition send_to_recipients (email_type : string) (body : EmailBody)
  : M bool :=
  if negb (gmail_enabled E) || Nat.eqb (length (notification_recipients E)) 0
  then ret false
  else
    try_except
      (if renders E body then
         success_count <-
           for_each (notification_recipients E) 0
             (fun count recipient =>
                if String.eqb (strip recipient) "" then ret count
                else
                  sent <- send_email (strip recipient) email_type body ;;
                  ret (if sent : bool then S count else count)) ;;
         ret (Nat.ltb 0 success_count)
       else raise ValueError)
      (fun _ => ret false).

Definition send_daily_report (report_data : ReportData) : M bool :=
  send_to_recipients "daily_report" (DailyReportBody report_data).

Definition send_critical_alert (alert_data : Alert) : M bool :=
  send_to_recipients "critical_alert" (CriticalAlertBody alert_data).

Definition send_weekly_summary (summary_data : WeeklyResult) : M bool :=
  send_to_recipients "weekly_summary" (WeeklySummaryBody summary_data).

End Services.
End Services.
Export Services.

(* ===================================================================== *)
(** ** Market Intelligence stage (src/agents/market_intelligence.py)      *)
(* ===================================================================== *)

Module Market.
Section Market.
Variable E : Ext.

(** The body of the inner [try] of the loop: build the model from one
    item of ["findings"] and insert it. *)
Definition build_market_finding (finding : pyval) : result MarketFinding :=
  rbind (get finding "category" (PStr "market_trend")) (fun category_v =>
  rbind (Category_of category_v) (fun category =>
  rbind (get finding "title" (PStr "")) (fun title_v =>
  rbind (slice_to 500 title_v) (fun title =>
  rbind (get finding "summary" (PStr "")) (fun summary_v =>
  rbind (slice_to 2000 summary_v) (fun summary =>
  rbind (get finding "content" (PStr "")) (fun content =>
  rbind (get finding "relevance_score" (PFloat (FFin 0%Q))) (fun score_v =>
  rbind (to_float (float_of_str (lang E)) score_v) (fun score =>
  rbind (get finding "source_url" PNone) (fun source_url =>
  new_MarketFinding (lang E) (today E) category title summary content
    score source_url)))))))))).

Definition store_finding (stored_findings : list MarketFinding)
  (finding : pyval) : M (list MarketFinding) :=
  try_except
    (market_finding <- lift (build_market_finding finding) ;;
     stored_finding <- insert_market_finding E market_finding ;;
     ret (match stored_finding with
          | Some row => stored_findings ++ [row]
          | None => stored_findings
          end))
    (fun _ => ret stored_findings).

Definition gather_market_intelligence : M MarketResult :=
  try_except
    (let ai_news := search_ai_news E 7 in
     let emerging_tech :=
       serper_run E "emerging AI technologies 2024 breakthrough innovation"
         15 "m" "news" in
     let funding_news :=
       serper_run E "AI startup funding venture capital investment 2024"
         10 "w" "news" in
     response <- llm_invoke E (MarketPrompt ai_news emerging_tech funding_news) ;;
     analysis <- lift (json_loads response) ;;
     findings_v <- lift (get analysis "findings" (PList [])) ;;
     findings <- lift (iter findings_v) ;;
     stored_findings <- for_each findings [] store_finding ;;
     executive_summary <- lift (get analysis "executive_summary" (PStr "")) ;;
     key_insights <- lift (get analysis "key_insights" (PList [])) ;;
     recommended_actions <- lift (get analysis "recommended_actions" (PList [])) ;;
     ret {| mr_agent := "market_intelligence";
            mr_timestamp := now_iso E;
            mr_error := None;
            mr_executive_summary := Some executive_summary;
            mr_findings_count := length stored_findings;
            mr_key_insights := Some key_insights;
            mr_recommended_actions := Some recommended_actions;
            mr_findings := Some stored_findings |})
    (fun e =>
       ret {| mr_agent := "market_intelligence";
              mr_timestamp := now_iso E;
              mr_error := Some e;
              mr_executive_summary := None;
              mr_findings_count := 0;
              mr_key_insights := None;
              mr_recommended_actions := None;
              mr_findings := None |}).

Definition analyze_specific_topic (topic context : string) : M TopicAnalysis :=
  try_except
    (let search_results :=
       serper_run E (topic ++ " AI artificial intelligence market analysis 2024")
         20 "m" "search" in
     response <- llm_invoke E (TopicPrompt topic search_results context) ;;
     ret {| ta_topic := topic; ta_error := None;
            ta_analysis := Some (fst response);
            ta_timestamp := now_iso E |})
    (fun e =>
       ret {| ta_topic := topic; ta_error := Some e; ta_analysis := None;
              ta_timestamp := now_iso E |}).

End Market.
End Market.
Export Market.

(* ===================================================================== *)
(** ** Competitor Intelligence stage (src/agents/competitor_intelligence.py) *)
(* ===================================================================== *)

Module Competitor.
Section Competitor.
Variable E : Ext.

Definition analyze_competitor_updates (competitor_name search_results : string)
  : M pyval :=
  try_except
    (response <- llm_invoke E (CompetitorPrompt competitor_name search_results) ;;
     lift (json_loads response))
    (fun _ =>
       ret (PDict [("competitor_summary",
                    PStr ("Error analyzing " ++ competitor_name));
                   ("updates", PList []);
                   ("competitive_threat_level", PStr "unknown")])).

Definition analyze_competitive_landscape
  (competitor_analyses : list (string * pyval)) : M pyval :=
  try_except
    (response <- llm_invoke E (LandscapePrompt competitor_analyses) ;;
     lift (json_loads response))
    (fun _ =>
       ret (PDict [("landscape_summary", PStr "Error in landscape analysis");
                   ("recommendations", PList [])])).

Definition identify_critical_threats (updates : list CompetitorUpdate)
  : list Threat :=
  map (fun update =>
         {| th_company := cu_company_name update;
            th_threat := cu_description update;
            th_impact := cu_impact_level update;
            th_date := cu_detected_date update |})
      (filter (fun update =>
                 str_in (Priority_value (cu_impact_level update))
                   ["high"; "critical"])
              updates).

Definition build_competitor_update (competitor_name : string) (update : pyval)
  : result CompetitorUpdate :=
  rbind (get update "update_type" (PStr "market_trend")) (fun type_v =>
  rbind (Category_of type_v) (fun update_type =>
  rbind (get update "description" (PStr "")) (fun description =>
  rbind (get update "impact_level" (PStr "medium")) (fun impact_v =>
  rbind (Priority_of impact_v) (fun impact_level =>
  rbind (get update "source_url" PNone) (fun source_url =>
  new_CompetitorUpdate (lang E) competitor_name update_type description
    impact_level source_url (today E))))))).

Definition store_update (competitor_name : string)
  (all_updates : list CompetitorUpdate) (update : pyval)
  : M (list CompetitorUpdate) :=
  try_except
    (competitor_update <- lift (build_competitor_update competitor_name update) ;;
     stored_update <- insert_competitor_update E competitor_update ;;
     ret (match stored_update with
          | Some row => all_updates ++ [row]
          | None => all_updates
          end))
    (fun _ => ret all_updates).

(** One turn of the loop over the competitors; the state of the loop
    is [(all_updates, competitor_analyses)]. *)
Definition monitor_one
  (acc : list CompetitorUpdate * list (string * pyval)) (competitor : string)
  : M (list CompetitorUpdate * list (string * pyval)) :=
  let competitor_name := strip competitor in
  if String.eqb competitor_name "" then ret acc
  else
    let updates := search_competitor_updates E competitor_name 30 in
    analysis <- analyze_competitor_updates competitor_name updates ;;
    let competitor_analyses := dict_set competitor_name analysis (snd acc) in
    updates_v <- lift (get analysis "updates" (PList [])) ;;
    items <- lift (iter updates_v) ;;
    all_updates <- for_each items (fst acc) (store_update competitor_name) ;;
    ret (all_updates, competitor_analyses).

Definition monitor_competitors : M CompetitorResult :=
  try_except
    (acc <- for_each (competitors E) ([], []) monitor_one ;;
     let all_updates := fst acc in
     let competitor_analyses := snd acc in
     landscape_analysis <- analyze_competitive_landscape competitor_analyses ;;
     recommendations <- lift (get landscape_analysis "recommendations" (PList [])) ;;
     ret {| cr_agent := "competitor_intelligence";
            cr_timestamp := now_iso E;
            cr_error := None;
            cr_competitors_monitored := Some (length (competitors E));
            cr_updates_found := length all_updates;
            cr_landscape_analysis := Some landscape_analysis;
            cr_competitor_analyses := Some competitor_analyses;
            cr_critical_threats := Some (identify_critical_threats all_updates);
            cr_strategic_recommendations := Some recommendations |})
    (fun e =>
       ret {| cr_agent := "competitor_intelligence";
              cr_timestamp := now_iso E;
              cr_error := Some e;
              cr_competitors_monitored := None;
              cr_updates_found := 0;
              cr_landscape_analysis := None;
              cr_competitor_analyses := None;
              cr_critical_threats := None;
              cr_strategic_recommendations := None |}).

End Competitor.
End Competitor.
Export Competitor.

(* ===================================================================== *)
(** ** Trend Analysis stage (src/agents/trend_analysis.py)                *)
(* ===================================================================== *)

Module TrendAgent.
Section TrendAgent.
Variable E : Ext.

Definition search_current_trends : list (string * string) :=
  [("ai_technology",
    serper_run E "AI technology trends 2024 emerging artificial intelligence"
      15 "m" "news");
   ("enterprise_adoption",
    serper_run E "enterprise AI adoption trends business automation 2024"
      12 "m" "search");
   ("investment_trends",
    serper_run E "AI investment trends venture capital funding 2024"
      10 "m" "news");
   ("regulatory_trends",
    serper_run E "AI regulation policy trends government artificial intelligence"
      10 "m" "search")].

Definition analyze_trend_patterns (historical_findings : list MarketFinding)
  (historical_opportunities : list Opportunity)
  (current_trends : list (string * string)) : M pyval :=
  let prompt :=
    TrendPrompt (firstn 20 historical_findings)
      (firstn 10 historical_opportunities) current_trends in
  try_except
    (response <- llm_invoke E prompt ;;
     lift (json_loads response))
    (fun _ =>
       ret (PDict [("summary", PStr "Error in trend analysis");
                   ("trends", PList []);
                   ("predictions", PList [])])).

Definition build_trend (trend : pyval) : result Trend :=
  rbind (get trend "trend_name" (PStr "")) (fun name_v =>
  rbind (slice_to 255 name_v) (fun trend_name =>
  rbind (get trend "category" (PStr "market_trend")) (fun category_v =>
  rbind (Category_of category_v) (fun category =>
  rbind (get trend "momentum_score" (PFloat (FFin 0%Q))) (fun score_v =>
  rbind (to_float (float_of_str (lang E)) score_v) (fun momentum_score =>
  rbind (get trend "evidence" (PDict [])) (fun evidence =>
  rbind (get trend "prediction" (PStr "")) (fun prediction =>
  new_Trend (lang E) trend_name category momentum_score evidence (today E)
    prediction)))))))).

Definition store_trend (stored_trends : list Trend) (trend : pyval)
  : M (list Trend) :=
  try_except
    (trend_model <- lift (build_trend trend) ;;
     stored_trend <- insert_trend E trend_model ;;
     ret (match stored_trend with
          | Some row => stored_trends ++ [row]
          | None => stored_trends
          end))
    (fun _ => ret stored_trends).

Definition analyze_market_trends : M TrendResult :=
  try_except
    (historical_findings <-
       get_market_findings E 100 None (Some (today E - 180)%Z) ;;
     historical_opportunities <- get_opportunities E None 50 ;;
     let current_trends := search_current_trends in
     trend_analysis <-
       analyze_trend_patterns historical_findings historical_opportunities
         current_trends ;;
     trends_v <- lift (get trend_analysis "trends" (PList [])) ;;
     items <- lift (iter trends_v) ;;
     stored_trends <- for_each items [] store_trend ;;
     summary <- lift (get trend_analysis "summary" (PStr "")) ;;
     predictions <- lift (get trend_analysis "predictions" (PList [])) ;;
     indicators <- lift (get trend_analysis "opportunity_indicators" (PList [])) ;;
     risk_factors <- lift (get trend_analysis "risk_factors" (PList [])) ;;
     ret {| tres_agent := "trend_analysis";
            tres_timestamp := now_iso E;
            tres_error := None;
            tres_trends_identified := length stored_trends;
            tres_analysis_summary := Some summary;
            tres_key_trends := Some stored_trends;
            tres_market_predictions := Some predictions;
            tres_opportunity_indicators := Some indicators;
            tres_risk_factors := Some risk_factors |})
    (fun e =>
       ret {| tres_agent := "trend_analysis";
              tres_timestamp := now_iso E;
              tres_error := Some e;
              tres_trends_identified := 0;
              tres_analysis_summary := None;
              tres_key_trends := None;
              tres_market_predictions := None;
              tres_opportunity_indicators := None;
              tres_risk_factors := None |}).

Definition analyze_trend_convergence : M Convergence :=
  try_except
    (recent_trends <- get_trends E None None 20 ;;
     response <- llm_invoke E (ConvergencePrompt recent_trends) ;;
     ret {| cv_analysis_type := "trend_convergence"; cv_error := None;
            cv_convergence_analysis := Some (fst response);
            cv_timestamp := now_iso E |})
    (fun e =>
       ret {| cv_analysis_type := "trend_convergence"; cv_error := Some e;
              cv_convergence_analysis := None;
              cv_timestamp := now_iso E |}).

End TrendAgent.
End TrendAgent.
Export TrendAgent.

(* ===================================================================== *)
(** ** Strategic Synthesis stage (src/agents/strategic_synthesis.py)      *)
(* ===================================================================== *)

Module Synthesis.
Section Synthesis.
Variable E : Ext.

Definition synthesize_intelligence (market_findings : list MarketFinding)
  (competitor_updates : list CompetitorUpdate) (trends : list Trend)
  (existing_opportunities : list Opportunity) : M pyval :=
  let synthesis_prompt :=
    SynthesisPrompt (firstn 15 market_findings) (firstn 15 competitor_updates)
      (firstn 10 trends) (firstn 5 existing_opportunities) in
  try_except
    (response <- llm_invoke E synthesis_prompt ;;
     lift (json_loads response))
    (fun _ =>
       ret (PDict [("executive_summary", PStr "Error in strategic synthesis");
                   ("strategic_insights", PList []);
                   ("recommendations", PList [])])).

Definition identify_opportunities (strategic_analysis : pyval) : M pyval :=
  let opportunity_prompt := OpportunityPrompt strategic_analysis in
  try_except
    (response <- llm_invoke E opportunity_prompt ;;
     result <- lift (json_loads response) ;;
     lift (get result "opportunities" (PList [])))
    (fun _ => ret (PList [])).

Definition build_opportunity (opportunity : pyval) : result Opportunity :=
  rbind (get opportunity "title" (PStr "")) (fun title_v =>
  rbind (slice_to 255 title_v) (fun title =>
  rbind (get opportunity "description" (PStr "")) (fun description =>
  rbind (get opportunity "market_gap" (PStr "")) (fun market_gap =>
  rbind (get opportunity "score" (PFloat (FFin 0%Q))) (fun score_v =>
  rbind (to_float (float_of_str (lang E)) score_v) (fun score =>
  rbind (get opportunity "priority" (PStr "medium")) (fun priority_v =>
  rbind (Priority_of priority_v) (fun priority =>
  rbind (get opportunity "potential_revenue" PNone) (fun revenue =>
  rbind (get opportunity "implementation_complexity" PNone) (fun complexity =>
  rbind (get opportunity "time_to_market" PNone) (fun ttm =>
  new_Opportunity (lang E) title description market_gap score priority
    revenue complexity ttm))))))))))).

Definition store_opportunity (stored_opportunities : list Opportunity)
  (opportunity : pyval) : M (list Opportunity) :=
  try_except
    (opp_model <- lift (build_opportunity opportunity) ;;
     stored_opp <- insert_opportunity E opp_model ;;
     ret (match stored_opp with
          | Some row => stored_opportunities ++ [row]
          | None => stored_opportunities
          end))
    (fun _ => ret stored_opportunities).

(** The stage takes no argument: what it works on is read from the
    Result Store when it runs. *)
Definition generate_strategic_analysis : M SynthesisResult :=
  try_except
    (recent_findings <-
       get_market_findings E 30 None (Some (today E - 30)%Z) ;;
     competitor_updates <- get_competitor_updates E None 20 ;;
     current_trends <- get_trends E None (Some (4 # 10)%Q) 15 ;;
     existing_opportunities <- get_opportunities E None 10 ;;
     strategic_analysis <-
       synthesize_intelligence recent_findings competitor_updates
         current_trends existing_opportunities ;;
     new_opportunities_v <- identify_opportunities strategic_analysis ;;
     new_opportunities <- lift (iter new_opportunities_v) ;;
     stored_opportunities <- for_each new_opportunities [] store_opportunity ;;
     executive_summary <- lift (get strategic_analysis "executive_summary" (PStr "")) ;;
     insights <- lift (get strategic_analysis "strategic_insights" (PList [])) ;;
     recommendations <- lift (get strategic_analysis "recommendations" (PList [])) ;;
     positioning <- lift (get strategic_analysis "competitive_positioning" (PStr "")) ;;
     risk_assessment <- lift (get strategic_analysis "risk_assessment" (PList [])) ;;
     action_plan <- lift (get strategic_analysis "action_plan" (PList [])) ;;
     ret {| sr_agent := "strategic_synthesis";
            sr_timestamp := now_iso E;
            sr_error := None;
            sr_executive_summary := Some executive_summary;
            sr_strategic_insights := Some insights;
            sr_new_opportunities := length stored_opportunities;
            sr_top_opportunities := Some (firstn 5 stored_opportunities);
            sr_strategic_recommendations := Some recommendations;
            sr_competitive_positioning := Some positioning;
            sr_risk_assessment := Some risk_assessment;
            sr_action_plan := Some action_plan |})
    (fun e =>
       ret {| sr_agent := "strategic_synthesis";
              sr_timestamp := now_iso E;
              sr_error := Some e;
              sr_executive_summary := None;
              sr_strategic_insights := None;
              sr_new_opportunities := 0;
              sr_top_opportunities := None;
              sr_strategic_recommendations := None;
              sr_competitive_positioning := None;
              sr_risk_assessment := None;
              sr_action_plan := None |}).

Definition generate_executive_briefing : M Briefing :=
  try_except
    (analysis_summary <- get_analysis_summary E 30 ;;
     top_opportunities <- get_opportunities E (Some (7 # 10)%Q) 5 ;;
     critical_trends <- get_trends E None (Some (7 # 10)%Q) 5 ;;
     recent_threats <- get_competitor_updates E None 10 ;;
     response <-
       llm_invoke E (BriefingPrompt analysis_summary top_opportunities
                       critical_trends recent_threats) ;;
     ret {| br_briefing_type := "executive"; br_error := None;
            br_briefing_content := Some (fst response);
            br_data_sources :=
              Some (length top_opportunities, length critical_trends,
                    length recent_threats);
            br_timestamp := now_iso E |})
    (fun e =>
       ret {| br_briefing_type := "executive"; br_error := Some e;
              br_briefing_content := None; br_data_sources := None;
              br_timestamp := now_iso E |}).

Definition assess_opportunity_portfolio : M Portfolio :=
  try_except
    (all_opportunities <- get_opportunities E None 50 ;;
     response <- llm_invoke E (PortfolioPrompt all_opportunities) ;;
     ret {| pf_analysis_type := "opportunity_portfolio"; pf_error := None;
            pf_portfolio_size := Some (length all_opportunities);
            pf_portfolio_analysis := Some (fst response);
            pf_timestamp := now_iso E |})
    (fun e =>
       ret {| pf_analysis_type := "opportunity_portfolio"; pf_error := Some e;
              pf_portfolio_size := None; pf_portfolio_analysis := None;
              pf_timestamp := now_iso E |}).

End Synthesis.
End Synthesis.
Export Synthesis.

(* ===================================================================== *)
(** ** Orchestrator and Alert Evaluator (src/crew/crew.py)                *)
(* ===================================================================== *)

Module Crew.

(** [_identify_critical_alerts] *)
Definition threat_alert (threat : Threat) : Alert :=
  {| al_title := "Critical Competitive Threat: " ++ th_company threat;
     al_description := th_threat threat;
     al_impact_level := Priority_value (th_impact threat);
     al_source := "Competitive Intelligence";
     al_recommended_action :=
       "Review competitive response strategy immediately" |}.

Definition opportunity_alert (opp : Opportunity) : Alert :=
  {| al_title := "High-Value Opportunity: " ++ op_title opp;
     al_description := op_description opp;
     al_impact_level := "high";
     al_source := "Strategic Analysis";
     al_recommended_action := "Evaluate opportunity for immediate action" |}.

Definition threat_is_critical (threat : Threat) : bool :=
  str_in (Priority_value (th_impact threat)) ["high"; "critical"].

Definition opportunity_is_high_value (opp : Opportunity) : bool :=
  Qgt_bool (op_score opp) float_0_9
  && String.eqb (Priority_value (op_priority opp)) "high".

Definition identify_critical_alerts (results : Results) : list Alert :=
  let critical_threats :=
    match rs_competitor_intelligence results with
    | Some competitor_results =>
        with_default [] (cr_critical_threats competitor_results)
    | None => []
    end in
  let top_opportunities :=
    match rs_strategic_synthesis results with
    | Some strategic_results =>
        with_default [] (sr_top_opportunities strategic_results)
    | None => []
    end in
  map threat_alert (filter threat_is_critical critical_threats)
  ++ map opportunity_alert (filter opportunity_is_high_value top_opportunities).

Section Crew.
Variable E : Ext.

(** [results.get("strategic_synthesis", {}).get(key, default)] *)
Definition synthesis_get {A} (results : Results)
  (field : SynthesisResult -> option A) (default : A) : A :=
  match rs_strategic_synthesis results with
  | Some strategic_results => with_default default (field strategic_results)
  | None => default
  end.

Definition build_analysis_run (results : Results) : result AnalysisRun :=
  match rs_summary results with
  | None => Raise KeyError
  | Some summary =>
      new_AnalysisRun (lang E) (today E)
        (sm_findings_count summary)
        (sm_opportunities_count summary)
        (str_of (lang E)
           (synthesis_get results sr_strategic_insights (PList [])))
        (synthesis_get results sr_strategic_recommendations (PList []))
        (rs_execution_time results)
        (rs_status results)
  end.

Definition store_analysis_run (results : Results) : M unit :=
  try_except
    (analysis_run <- lift (build_analysis_run results) ;;
     _ <- insert_analysis_run E analysis_run ;;
     ret tt)
    (fun _ => ret tt).

Definition build_report_data (results : Results) : result ReportData :=
  match rs_summary results with
  | None => Raise KeyError
  | Some summary =>
      Ok {| rd_executive_summary :=
              synthesis_get results sr_executive_summary
                (PStr "Daily analysis completed");
            rd_findings_count := sm_findings_count summary;
            rd_opportunities_count := sm_opportunities_count summary;
            rd_competitor_updates := sm_competitor_updates summary;
            rd_trends_identified := sm_trends_identified summary;
            rd_top_opportunities :=
              synthesis_get results sr_top_opportunities [];
            rd_key_insights :=
              synthesis_get results sr_strategic_insights (PList []);
            rd_recommendations :=
              synthesis_get results sr_strategic_recommendations (PList []);
            rd_critical_alerts := None |}
  end.

Definition with_critical_alerts (alerts : list Alert) (r : ReportData)
  : ReportData :=
  {| rd_executive_summary := rd_executive_summary r;
     rd_findings_count := rd_findings_count r;
     rd_opportunities_count := rd_opportunities_count r;
     rd_competitor_updates := rd_competitor_updates r;
     rd_trends_identified := rd_trends_identified r;
     rd_top_opportunities := rd_top_opportunities r;
     rd_key_insights := rd_key_insights r;
     rd_recommendations := rd_recommendations r;
     rd_critical_alerts := Some alerts |}.

Definition send_daily_notifications (results : Results) : M unit :=
  try_except
    (report_data0 <- lift (build_report_data results) ;;
     let critical_alerts := identify_critical_alerts results in
     report_data <-
       match critical_alerts with
       | [] => ret report_data0
       | _ :: _ =>
           for_each critical_alerts tt
             (fun _ alert => _ <- send_critical_alert E alert ;; ret tt) ;;;
           ret (with_critical_alerts critical_alerts report_data0)
       end ;;
     _ <- send_daily_report E report_data ;;
     ret tt)
    (fun _ => ret tt).

Section WithStages.
(** The four stage operations the orchestrator awaits. *)
Variable market_stage : M MarketResult.
Variable competitor_stage : M CompetitorResult.
Variable trend_stage : M TrendResult.
Variable synthesis_stage : M SynthesisResult.

Definition run_daily_analysis_with : M Results :=
  try_except
    (staged <- gather3 market_stage competitor_stage trend_stage ;;
     let '(market_results, competitor_results, trend_results) := staged in
     strategic_results <- synthesis_stage ;;
     let analysis_results :=
       {| rs_analysis_date := today E;
          rs_execution_time := elapsed E;
          rs_status := "completed";
          rs_error := None;
          rs_market_intelligence := Some market_results;
          rs_competitor_intelligence := Some competitor_results;
          rs_trend_analysis := Some trend_results;
          rs_strategic_synthesis := Some strategic_results;
          rs_summary :=
            Some {| sm_findings_count := mr_findings_count market_results;
                    sm_competitor_updates :=
                      length (with_default []
                                (cr_competitor_analyses competitor_results));
                    sm_trends_identified :=
                      tres_trends_identified trend_results;
                    sm_opportunities_count :=
                      sr_new_opportunities strategic_results |} |} in
     store_analysis_run analysis_results ;;;
     send_daily_notifications analysis_results ;;;
     ret analysis_results)
    (fun e =>
       ret {| rs_analysis_date := today E;
              rs_execution_time := elapsed E;
              rs_status := "error";
              rs_error := Some e;
              rs_market_intelligence := None;
              rs_competitor_intelligence := None;
              rs_trend_analysis := None;
              rs_strategic_synthesis := None;
              rs_summary := None |}).
End WithStages.

(** The orchestrator of the repository: the four module-level agents. *)
Definition run_daily_analysis : M Results :=
  run_daily_analysis_with
    (gather_market_intelligence E) (monitor_competitors E)
    (analyze_market_trends E) (generate_strategic_analysis E).

Definition run_weekly_summary : M WeeklyResult :=
  try_except
    (weekly_summary <- get_analysis_summary E 7 ;;
     executive_briefing <- generate_executive_briefing E ;;
     portfolio_assessment <- assess_opportunity_portfolio E ;;
     let summary_data :=
       WeeklySummary "weekly" weekly_summary executive_briefing
         portfolio_assessment (now_iso E) in
     _ <- send_weekly_summary E summary_data ;;
     ret summary_data)
    (fun e => ret (WeeklyError e)).

Definition run_quick_analysis (topic : string) : M QuickResult :=
  try_except
    (market_analysis <- analyze_specific_topic E topic "" ;;
     trend_convergence <- analyze_trend_convergence E ;;
     ret (QuickAnalysis topic market_analysis trend_convergence (now_iso E)))
    (fun e => ret (QuickError topic e)).

End Crew.
End Crew.
Export Crew.

(* ===================================================================== *)
(** ** Command line entry point (src/crew/main.py)                        *)
(* ===================================================================== *)

Module Main.

(** What the coroutine started by a command returns. *)
Inductive CommandResult : Type :=
| DailyResult (results : Results)
| WeeklyResultOf (results : WeeklyResult)
| QuickResultOf (results : QuickResult)
| WrapperError (error : exn).

Section Main.
Variable E : Ext.

Section WithCrew.
(** The three operations of [competitive_analysis_crew]. *)
Variable crew_daily : M Results.
Variable crew_weekly : M WeeklyResult.
Variable crew_quick : string -> M QuickResult.

Definition main_run_daily_analysis : M CommandResult :=
  try_except
    (_ <- get_analysis_summary E 1 ;;
     results <- crew_daily ;;
     ret (DailyResult results))
    (fun e => ret (WrapperError e)).

Definition main_run_weekly_summary : M CommandResult :=
  try_except
    (results <- crew_weekly ;;
     ret (WeeklyResultOf results))
    (fun e => ret (WrapperError e)).

Definition main_run_quick_analysis (topic : string) : M CommandResult :=
  try_except
    (results <- crew_quick topic ;;
     ret (QuickResultOf results))
    (fun e => ret (WrapperError e)).

(** The dispatch of [main]: the value of the [asyncio.run(...)] it
    performs, [None] when it only prints the usage or the
    invalid-command message. *)
Definition main_command (argv : list string) : M (option CommandResult) :=
  match argv with
  | [] | [_] => ret None
  | _ :: arg1 :: rest =>
      let command := lower arg1 in
      if String.eqb command "daily" then
        r <- main_run_daily_analysis ;; ret (Some r)
      else if String.eqb command "weekly" then
        r <- main_run_weekly_summary ;; ret (Some r)
      else if String.eqb command "quick" && Nat.ltb 2 (length argv) then
        r <- main_run_quick_analysis (join_space rest) ;; ret (Some r)
      else ret None
  end.

(** [main()]: the value of [asyncio.run] is dropped. *)
Definition main_with (argv : list string) : M unit :=
  _ <- main_command argv ;; ret tt.
End WithCrew.

Definition main (argv : list string) : M unit :=
  main_with (run_daily_analysis E) (run_weekly_summary E)
    (run_quick_analysis E) argv.

End Main.
End Main.
Export Main.

(* ===================================================================== *)
(** ** Vocabulary of the properties                                       *)
(* ===================================================================== *)

Module Vocabulary.

(** A program that leaves an observation of the world as it is. *)
Definition preserves {X A} (observe : World -> X) (m : M A) : Prop :=
  forall w, observe (snd (m w)) = observe w.

(** The rows of the [analysis_runs] table. *)
Definition runs_of (w : World) : list AnalysisRun := analysis_runs (store w).

(** A program that always returns, whatever the world. *)
Definition never_raises {A} (m : M A) : Prop :=
  forall w, exists a w', m w = (Ok a, w').

(** *** The Alert Evaluator as the specification words it (section 4.3)

    An alert of the specification has a title, an impact and a source. *)
Record SpecAlert : Type := {
  sa_title : string;
  sa_impact : string;
  sa_source : string
}.

Definition alert_view (a : Alert) : SpecAlert :=
  {| sa_title := al_title a; sa_impact := al_impact_level a;
     sa_source := al_source a |}.

(** "impact_level in {high, critical}" *)
Definition spec_update_qualifies (u : CompetitorUpdate) : bool :=
  match cu_impact_level u with
  | HIGH | CRITICAL => true
  | LOW | MEDIUM => false
  end.

(** "score > 0.9 AND priority == high".  A score is a float, and so is
    the 0.9 it is compared with. *)
Definition spec_opportunity_qualifies (o : Opportunity) : bool :=
  (if Qlt_le_dec float_0_9 (op_score o) then true else false)
  && match op_priority o with
     | HIGH => true
     | _ => false
     end.

Definition spec_threat_alert (u : CompetitorUpdate) : SpecAlert :=
  {| sa_title := "Critical Competitive Threat: " ++ cu_company_name u;
     sa_impact := Priority_value (cu_impact_level u);
     sa_source := "Competitive Intelligence" |}.

Definition spec_opportunity_alert (o : Opportunity) : SpecAlert :=
  {| sa_title := "High-Value Opportunity: " ++ op_title o;
     sa_impact := "high";
     sa_source := "Strategic Analysis" |}.

(** Follows the words of the specification: the competitor rule first,
    then the opportunity rule, one alert per matching record. *)
Definition evaluate_reference (updates : list CompetitorUpdate)
  (opps : list Opportunity) : list SpecAlert :=
  map spec_threat_alert (filter spec_update_qualifies updates)
  ++ map spec_opportunity_alert (filter spec_opportunity_qualifies opps).

(** The records a report carries for the two rules.  A stage result
    that is missing, or that is an error result, carries none: the
    evaluator reads [critical_threats] and [top_opportunities] with the
    empty list as default. *)
Definition carries_updates (results : Results) (us : list CompetitorUpdate)
  : Prop :=
  match rs_competitor_intelligence results with
  | Some cr =>
      match cr_critical_threats cr with
      | Some threats => threats = identify_critical_threats us
      | None => us = []
      end
  | None => us = []
  end.

Definition carries_opportunities (results : Results) (os : list Opportunity)
  : Prop :=
  match rs_strategic_synthesis results with
  | Some sr =>
      match sr_top_opportunities sr with
      | Some top => top = os
      | None => os = []
      end
  | None => os = []
  end.

Definition is_ok {A} (r : result A) : bool :=
  match r with
  | Ok _ => true
  | Raise _ => false
  end.

(** [0.0 <= f <= 1.0] *)
Definition in_unit_interval (f : pyfloat) : bool :=
  float_ge f (FFin 0%Q) && float_le f (FFin 1%Q).

(** The value [float(item.get(key, 0.0))] that a stage hands to the
    model for a score-like field. *)
Definition score_given (E : Ext) (key : string) (item : pyval)
  : result pyfloat :=
  rbind (get item key (PFloat (FFin 0%Q))) (to_float (float_of_str (lang E))).

(** The shape shared by the three per-item loops: build the model from
    the item, insert it, keep the stored row; on any exception go on
    with the next item. *)
Definition store_item {A} (build : pyval -> result A)
  (insert : A -> M (option A)) (acc : list A) (item : pyval) : M (list A) :=
  try_except
    (model <- lift (build item) ;;
     stored <- insert model ;;
     ret (match stored with
          | Some row => acc ++ [row]
          | None => acc
          end))
    (fun _ => ret acc).

(** [row] is the stored form of a record built from one of [items]. *)
Definition built_from {A} (build : pyval -> result A) (stamp : nat -> A -> A)
  (items : list pyval) (row : A) : Prop :=
  exists n item model,
    In item items /\ build item = Ok model /\ row = stamp n model.

(** The number of items from which a record can be built. *)
Definition count_valid {A} (build : pyval -> result A) (items : list pyval)
  : nat :=
  length (filter (fun item => is_ok (build item)) items).

(** *** Items of the shape the prompts ask for

    The opportunity prompt asks for objects with the keys below, texts
    for all of them but the score. *)
Record OpportunityItem : Type := {
  oi_title : string;
  oi_description : string;
  oi_market_gap : string;
  oi_score : pyfloat;
  oi_priority : Priority;
  oi_potential_revenue : string;
  oi_implementation_complexity : string;
  oi_time_to_market : string
}.

Definition opportunity_json (i : OpportunityItem) : pyval :=
  PDict [("title", PStr (oi_title i));
         ("description", PStr (oi_description i));
         ("market_gap", PStr (oi_market_gap i));
         ("score", PFloat (oi_score i));
         ("priority", PStr (Priority_value (oi_priority i)));
         ("potential_revenue", PStr (oi_potential_revenue i));
         ("implementation_complexity",
          PStr (oi_implementation_complexity i));
         ("time_to_market", PStr (oi_time_to_market i))].

(** The Opportunity with the fields of the item, the title cut to 255
    characters, and the given score. *)
Definition opportunity_of (i : OpportunityItem) (score : Q) : Opportunity :=
  {| op_id := None;
     op_title := str_take 255 (oi_title i);
     op_description := oi_description i;
     op_market_gap := oi_market_gap i;
     op_score := score;
     op_priority := oi_priority i;
     op_potential_revenue := Some (oi_potential_revenue i);
     op_implementation_complexity := Some (oi_implementation_complexity i);
     op_time_to_market := Some (oi_time_to_market i);
     op_created_at := None |}.

(** The trend prompt asks for objects with these keys. *)
Record TrendItem : Type := {
  ti_trend_name : string;
  ti_category : Category;
  ti_momentum_score : pyfloat;
  ti_evidence : list (string * pyval);
  ti_prediction : string
}.

Definition trend_json (i : TrendItem) : pyval :=
  PDict [("trend_name", PStr (ti_trend_name i));
         ("category", PStr (Category_value (ti_category i)));
         ("momentum_score", PFloat (ti_momentum_score i));
         ("evidence", PDict (ti_evidence i));
         ("prediction", PStr (ti_prediction i))].

(** The Trend with the fields of the item, the name cut to 255
    characters, the given score, and today as the day of detection. *)
Definition trend_of (E : Ext) (i : TrendItem) (score : Q) : Trend :=
  {| tr_id := None;
     tr_trend_name := str_take 255 (ti_trend_name i);
     tr_category := ti_category i;
     tr_momentum_score := score;
     tr_evidence := ti_evidence i;
     tr_first_detected := today E;
     tr_prediction := Some (ti_prediction i);
     tr_created_at := None |}.

(** The number of items whose score lies in [0.0, 1.0]. *)
Definition count_in_range {A} (score : A -> pyfloat) (items : list A) : nat :=
  length (filter (fun i => in_unit_interval (score i)) items).

(** The model built by [build] refuses an item whose score-like field
    [key] is out of range, and keeps the given value unchanged when it
    accepts the item. *)
Definition refuses_out_of_range {A} (E : Ext) (key : string)
  (build : pyval -> result A) (score : A -> Q) : Prop :=
  (forall item f,
     score_given E key item = Ok f ->
     in_unit_interval f = false ->
     is_ok (build item) = false)
  /\ (forall item model,
        build item = Ok model ->
        score_given E key item = Ok (FFin (score model))
        /\ (0 <= score model)%Q /\ (score model <= 1)%Q).

(** The completion-service call throws, or its response is not JSON. *)
Definition reply_unusable (r : LlmReply) : Prop :=
  match r with
  | LlmRaises _ => True
  | LlmContent _ None => True
  | LlmContent _ (Some _) => False
  end.

(** The response is JSON but not an object whose [key] can be iterated
    over. *)
Definition shape_unusable (key : string) (v : pyval) : Prop :=
  match v with
  | PDict d => is_ok (iter (with_default (PList []) (assoc key d))) = false
  | _ => True
  end.

(** What the Market stage cannot work on: a call that throws, a
    response that is not JSON, or JSON of the wrong shape. *)
Definition market_reply_unusable (r : LlmReply) : Prop :=
  match r with
  | LlmContent _ (Some v) => shape_unusable "findings" v
  | _ => True
  end.

(** The part of a daily run that follows its only suspension point,
    the [await] of the gathered stages: the run goes on with the
    outcome the gather delivers. *)
Definition resume_daily (E : Ext) (synthesis : M SynthesisResult)
  (staged : result (MarketResult * CompetitorResult * TrendResult))
  : M Results :=
  match staged with
  | Ok (mr, cr, tr) =>
      run_daily_analysis_with E (ret mr) (ret cr) (ret tr) synthesis
  | Raise e =>
      run_daily_analysis_with E (raise e) (raise e) (raise e) synthesis
  end.

(** Two daily runs started together on one event loop.  Each run is
    suspended at its gather while the six stage tasks execute, first
    those of the first run, then those of the second; then the first
    run resumes and finishes, then the second.  Both runs are in
    progress from the start of the second to the end of the first. *)
Definition overlapped_daily_runs (E : Ext) (w : World)
  : result Results * result Results * World :=
  let (staged_a, w1) :=
    gather3 (gather_market_intelligence E) (monitor_competitors E)
      (analyze_market_trends E) w in
  let (staged_b, w2) :=
    gather3 (gather_market_intelligence E) (monitor_competitors E)
      (analyze_market_trends E) w1 in
  let (results_a, w3) :=
    resume_daily E (generate_strategic_analysis E) staged_a w2 in
  let (results_b, w4) :=
    resume_daily E (generate_strategic_analysis E) staged_b w3 in
  (results_a, results_b, w4).

(** The same services with another completion service. *)
Definition with_llm (E : Ext) (completion : nat -> Prompt -> LlmReply) : Ext :=
  {| lang := lang E;
     today := today E;
     now_iso := now_iso E;
     elapsed := elapsed E;
     competitors := competitors E;
     search := search E;
     llm := completion;
     store_ok := store_ok E;
     store_replies := store_replies E;
     numeric_3_2 := numeric_3_2 E;
     numeric_8_2 := numeric_8_2 E;
     gmail_enabled := gmail_enabled E;
     notification_recipients := notification_recipients E;
     renders := renders E;
     smtp_ok := smtp_ok E;
     smtp_quit_ok := smtp_quit_ok E |}.

Definition rows_or_empty {A} (r : result (list A)) : list A :=
  match r with
  | Ok rows => rows
  | Raise _ => []
  end.

(** What the four queries at the head of the Synthesis stage return
    when the stage starts in world [w]. *)
Definition synthesis_reads (E : Ext) (w : World)
  : list MarketFinding * list CompetitorUpdate * list Trend * list Opportunity :=
  let (r1, w1) := get_market_findings E 30 None (Some (today E - 30)%Z) w in
  let (r2, w2) := get_competitor_updates E None 20 w1 in
  let (r3, w3) := get_trends E None (Some (4 # 10)%Q) 15 w2 in
  let (r4, _) := get_opportunities E None 10 w3 in
  (rows_or_empty r1, rows_or_empty r2, rows_or_empty r3, rows_or_empty r4).

(** The synthesis prompt over such rows. *)
Definition synthesis_prompt_of
  (rows : list MarketFinding * list CompetitorUpdate * list Trend
          * list Opportunity) : Prompt :=
  let '(findings, updates, trend_rows, opps) := rows in
  SynthesisPrompt (firstn 15 findings) (firstn 15 updates)
    (firstn 10 trend_rows) (firstn 5 opps).

(** The reply of the store to every insert it carries out arrives. *)
Definition replies_arrive (E : Ext) : Prop :=
  forall n row, store_replies E n (DbInsert row) = true.

(** The store carries out every insert and its reply arrives. *)
Definition store_accepts_inserts (E : Ext) : Prop :=
  forall n row,
    store_ok E n (DbInsert row) = true
    /\ store_replies E n (DbInsert row) = true.

(** The item with its text field [key] set to [text]. *)
Definition with_text (key text : string) (d : list (string * pyval)) : pyval :=
  PDict (dict_set key (PStr text) d).

End Vocabulary.
Export Vocabulary.

(* ===================================================================== *)
(** ** Scenarios: concrete services and completion-service answers        *)
(* ===================================================================== *)

Module Scenarios.

(** Scores written as decimal fractions stand for the floats nearest to
    them; every comparison made in the scenarios (with 0, 1, 0.9 and
    0.7) has the same outcome on both.  No number of a scenario has
    more than two decimals, so that the columns of the store give it
    back as it was written. *)

(** A validation library that coerces nothing, and a [float] that
    parses no string. *)
Definition plain_lang : Lang :=
  {| float_of_str := fun _ => None;
     str_of := fun _ => "";
     coerce_scalar_to_str := fun _ => None;
     coerce_to_dict := fun _ => None |}.

(** An item of ["opportunities"] as the completion service words it. *)
Definition opportunity_item (title : string) (score : Q) (priority : string)
  : pyval :=
  PDict [("title", PStr title);
         ("description", PStr "description");
         ("market_gap", PStr "gap");
         ("score", PFloat (FFin score));
         ("priority", PStr priority)].

(** An item of ["findings"]. *)
Definition finding_item (title : string) (score : Q) : pyval :=
  PDict [("title", PStr title);
         ("summary", PStr "summary");
         ("content", PStr "content");
         ("category", PStr "funding");
         ("relevance_score", PFloat (FFin score))].

(** Services in which the store, the search and the mail server work,
    with the given competitors and completion service.  One recipient
    is configured. *)
Definition ext_with (competitor_names : list string)
  (completion : nat -> Prompt -> LlmReply) : Ext :=
  {| lang := plain_lang;
     today := 20000%Z;
     now_iso := "2024-10-04T06:00:00";
     elapsed := 1%Q;
     competitors := competitor_names;
     search := fun _ _ _ _ => "no results";
     llm := completion;
     store_ok := fun _ _ => true;
     store_replies := fun _ _ => true;
     numeric_3_2 := fun q => q;
     numeric_8_2 := fun q => q;
     gmail_enabled := true;
     notification_recipients := ["board@example.com"];
     renders := fun _ => true;
     smtp_ok := fun _ _ => true;
     smtp_quit_ok := fun _ _ => true |}.

(** The completion service answers the market prompt with [findings],
    the synthesis prompt with an empty analysis and the opportunity
    prompt with [opps]; it is unavailable for every other prompt.  No
    competitor is configured. *)
Definition working_ext (findings opps : list pyval) : Ext :=
  ext_with []
    (fun _ p =>
       match p with
       | MarketPrompt _ _ _ =>
           LlmContent "json" (Some (PDict [("findings", PList findings)]))
       | SynthesisPrompt _ _ _ _ =>
           LlmContent "json" (Some (PDict [("recommendations", PDict [])]))
       | OpportunityPrompt _ =>
           LlmContent "json" (Some (PDict [("opportunities", PList opps)]))
       | _ => LlmRaises (ServiceError "unavailable")
       end).

(** Two competitors are configured and every call to the completion
    service times out. *)
Definition unavailable_ext : Ext :=
  ext_with ["OpenAI"; "Anthropic"]
    (fun _ _ => LlmRaises (ServiceError "timeout")).

(** Six opportunities; only the last one has score > 0.9 and priority
    high. *)
Definition six_opportunities : list pyval :=
  [opportunity_item "A" (1 # 2) "low";
   opportunity_item "B" (1 # 2) "low";
   opportunity_item "C" (1 # 2) "low";
   opportunity_item "D" (1 # 2) "low";
   opportunity_item "E" (1 # 2) "low";
   opportunity_item "F" (95 # 100) "high"].

(** One competitor is configured.  The completion service reports one
    update of critical impact for it, and answers the landscape prompt
    with a JSON list instead of an object; it is unavailable for every
    other prompt. *)
Definition broken_landscape_ext : Ext :=
  ext_with ["Rival"]
    (fun _ p =>
       match p with
       | CompetitorPrompt _ _ =>
           LlmContent "json"
             (Some (PDict [("updates",
                            PList [PDict [("update_type", PStr "product_launch");
                                          ("description", PStr "New product");
                                          ("impact_level", PStr "critical")]])]))
       | LandscapePrompt _ => LlmContent "[]" (Some (PList []))
       | _ => LlmRaises (ServiceError "unavailable")
       end).

Definition broken_landscape_run : result Results * World :=
  run_daily_analysis broken_landscape_ext (initial_world empty_store).

(** The daily run of the repository with these services, started on an
    empty store. *)
Definition six_opportunity_run : result Results * World :=
  run_daily_analysis (working_ext [] six_opportunities)
    (initial_world empty_store).

Fixpoint long_text (n : nat) : string :=
  match n with
  | O => EmptyString
  | S n' => String "x"%char (long_text n')
  end.

Definition three_findings : list pyval :=
  [finding_item "f1" (85 # 100);
   finding_item "f2" (1 # 2);
   finding_item "f3" (9 # 10)].

(** A Competitor stage from which an exception escapes. *)
Definition raising_competitor_stage : M CompetitorResult :=
  raise (ServiceError "competitor stage failed").

(** The orchestrator run with the Market, Trend and Synthesis stages of
    the repository, all services working and three valid findings, and
    with the raising Competitor stage. *)
Definition run_with_raising_competitor : result Results * World :=
  run_daily_analysis_with (working_ext three_findings [])
    (gather_market_intelligence (working_ext three_findings []))
    raising_competitor_stage
    (analyze_market_trends (working_ext three_findings []))
    (generate_strategic_analysis (working_ext three_findings []))
    (initial_world empty_store).

(** One competitor is configured.  The completion service answers the
    market prompt with three valid findings, the competitor prompt with
    a JSON list instead of an object, the synthesis prompt with an empty
    analysis, and is unavailable for every other prompt. *)
Definition confused_competitor_ext : Ext :=
  ext_with ["OpenAI"]
    (fun _ p =>
       match p with
       | MarketPrompt _ _ _ =>
           LlmContent "json" (Some (PDict [("findings", PList three_findings)]))
       | CompetitorPrompt _ _ => LlmContent "[]" (Some (PList []))
       | SynthesisPrompt _ _ _ _ =>
           LlmContent "json" (Some (PDict [("recommendations", PDict [])]))
       | _ => LlmRaises (ServiceError "unavailable")
       end).

(** All services work; the completion service proposes one
    opportunity of score 0.95 and priority high at every run. *)
Definition alerting_ext : Ext :=
  working_ext three_findings [opportunity_item "F" (95 # 100) "high"].

(** No competitor is configured.  The completion service answers a
    synthesis prompt that carries at least one market finding, and
    nothing else. *)
Definition echo_ext : Ext :=
  ext_with []
    (fun _ p =>
       match p with
       | SynthesisPrompt (_ :: _) _ _ _ =>
           LlmContent "json"
             (Some (PDict [("executive_summary",
                            PStr "findings were read from the store")]))
       | _ => LlmRaises (ServiceError "unavailable")
       end).

(** A finding persisted before the run starts. *)
Definition earlier_finding : MarketFinding :=
  {| mf_id := Some 0; mf_date := 19999%Z; mf_category := FUNDING;
     mf_title := "Earlier finding"; mf_summary := "summary";
     mf_content := "content"; mf_relevance_score := (1 # 2)%Q;
     mf_source_url := None; mf_created_at := Some 0 |}.

Definition store_with_earlier_finding : Store :=
  {| market_findings := [earlier_finding]; competitor_updates := [];
     opportunities := []; trends := []; analysis_runs := [] |}.

(** An opportunity the Synthesis stage has built, not yet stored. *)
Definition proposed_opportunity : Opportunity :=
  {| op_id := None; op_title := "Integration services";
     op_description := "description"; op_market_gap := "gap";
     op_score := (95 # 100)%Q; op_priority := HIGH;
     op_potential_revenue := None; op_implementation_complexity := None;
     op_time_to_market := None; op_created_at := None |}.

(** An opportunity persisted before, of score 0.8. *)
Definition earlier_opportunity : Opportunity :=
  {| op_id := Some 7; op_title := "Earlier opportunity";
     op_description := "description"; op_market_gap := "gap";
     op_score := (8 # 10)%Q; op_priority := MEDIUM;
     op_potential_revenue := None; op_implementation_complexity := None;
     op_time_to_market := None; op_created_at := Some 7 |}.

Definition store_with_earlier_opportunity : Store :=
  {| market_findings := []; competitor_updates := [];
     opportunities := [earlier_opportunity]; trends := [];
     analysis_runs := [] |}.

Definition run_on_empty_store : result Results * World :=
  run_daily_analysis echo_ext (initial_world empty_store).

Definition run_on_earlier_finding : result Results * World :=
  run_daily_analysis echo_ext (initial_world store_with_earlier_finding).

(** The daily run of the repository when every completion call times
    out. *)
Definition run_with_failing_completion : result Results * World :=
  run_daily_analysis unavailable_ext (initial_world empty_store).

(** An opportunity as the completion service words it, with the given
    title and score. *)
Definition scored_opportunity (title : string) (score : Q) : OpportunityItem :=
  {| oi_title := title;
     oi_description := "description";
     oi_market_gap := "gap";
     oi_score := FFin score;
     oi_priority := MEDIUM;
     oi_potential_revenue := "$500K-1M annually";
     oi_implementation_complexity := "medium";
     oi_time_to_market := "3-6 months" |}.

(** Five opportunities with scores in range and two with score 1.4. *)
Definition seven_opportunities : list OpportunityItem :=
  [scored_opportunity "o1" (85 # 100);
   scored_opportunity "o2" (14 # 10);
   scored_opportunity "o3" (0 # 1);
   scored_opportunity "o4" (1 # 1);
   scored_opportunity "o5" (14 # 10);
   scored_opportunity "o6" (1 # 2);
   scored_opportunity "o7" (9 # 10)].

(** A trend as the completion service words it. *)
Definition scored_trend (name : string) (score : Q) : TrendItem :=
  {| ti_trend_name := name;
     ti_category := TECHNOLOGY;
     ti_momentum_score := FFin score;
     ti_evidence := [("frequency_mentions", PInt 45)];
     ti_prediction := "prediction" |}.

(** Five trends with scores in range and two with score 1.4. *)
Definition seven_trends : list TrendItem :=
  [scored_trend "t1" (85 # 100);
   scored_trend "t2" (14 # 10);
   scored_trend "t3" (0 # 1);
   scored_trend "t4" (1 # 1);
   scored_trend "t5" (14 # 10);
   scored_trend "t6" (1 # 2);
   scored_trend "t7" (9 # 10)].

(** The completion service answers the trend prompt with [items] and
    is unavailable for every other prompt. *)
Definition trend_ext (items : list pyval) : Ext :=
  ext_with []
    (fun _ p =>
       match p with
       | TrendPrompt _ _ _ =>
           LlmContent "json" (Some (PDict [("trends", PList items)]))
       | _ => LlmRaises (ServiceError "unavailable")
       end).

Definition critical_update : CompetitorUpdate :=
  {| cu_id := Some 0; cu_company_name := "Rival";
     cu_update_type := PRODUCT_LAUNCH; cu_description := "New product";
     cu_impact_level := CRITICAL; cu_source_url := None;
     cu_detected_date := 20000%Z; cu_created_at := Some 0 |}.

Definition high_value_opportunity : Opportunity :=
  {| op_id := Some 1; op_title := "Integration services";
     op_description := "description"; op_market_gap := "gap";
     op_score := (95 # 100)%Q; op_priority := HIGH;
     op_potential_revenue := None; op_implementation_complexity := None;
     op_time_to_market := None; op_created_at := Some 1 |}.

Definition critical_competitor_result : CompetitorResult :=
  {| cr_agent := "competitor_intelligence";
     cr_timestamp := "2024-10-04T06:00:00";
     cr_error := None;
     cr_competitors_monitored := Some 1;
     cr_updates_found := 1;
     cr_landscape_analysis := Some (PDict []);
     cr_competitor_analyses := Some [("Rival", PDict [])];
     cr_critical_threats := Some (identify_critical_threats [critical_update]);
     cr_strategic_recommendations := Some (PList []) |}.

Definition high_value_synthesis_result : SynthesisResult :=
  {| sr_agent := "strategic_synthesis";
     sr_timestamp := "2024-10-04T06:00:00";
     sr_error := None;
     sr_executive_summary := Some (PStr "");
     sr_strategic_insights := Some (PList []);
     sr_new_opportunities := 1;
     sr_top_opportunities := Some (firstn 5 [high_value_opportunity]);
     sr_strategic_recommendations := Some (PList []);
     sr_competitive_positioning := Some (PStr "");
     sr_risk_assessment := Some (PList []);
     sr_action_plan := Some (PList []) |}.

(** A report with one critical competitor update and one opportunity
    of score 0.95 and priority high. *)
Definition two_alert_report : Results :=
  {| rs_analysis_date := 20000%Z;
     rs_execution_time := 1%Q;
     rs_status := "completed";
     rs_error := None;
     rs_market_intelligence := None;
     rs_competitor_intelligence := Some critical_competitor_result;
     rs_trend_analysis := None;
     rs_strategic_synthesis := Some high_value_synthesis_result;
     rs_summary := None |}.

(** The error result of the Competitor stage. *)
Definition failed_competitor_result : CompetitorResult :=
  {| cr_agent := "competitor_intelligence";
     cr_timestamp := "2024-10-04T06:00:00";
     cr_error := Some AttributeError;
     cr_competitors_monitored := None;
     cr_updates_found := 0;
     cr_landscape_analysis := None;
     cr_competitor_analyses := None;
     cr_critical_threats := None;
     cr_strategic_recommendations := None |}.

(** A report in which the Competitor stage failed and the Synthesis
    stage reports one opportunity of score 0.95 and priority high. *)
Definition one_stage_failed_report : Results :=
  {| rs_analysis_date := 20000%Z;
     rs_execution_time := 1%Q;
     rs_status := "completed";
     rs_error := None;
     rs_market_intelligence := None;
     rs_competitor_intelligence := Some failed_competitor_result;
     rs_trend_analysis := None;
     rs_strategic_synthesis := Some high_value_synthesis_result;
     rs_summary := None |}.

(** An error report as [run_daily_analysis] builds it. *)
Definition error_report : Results :=
  {| rs_analysis_date := 20000%Z;
     rs_execution_time := 1%Q;
     rs_status := "error";
     rs_error := Some (ServiceError "unavailable");
     rs_market_intelligence := None;
     rs_competitor_intelligence := None;
     rs_trend_analysis := None;
     rs_strategic_synthesis := None;
     rs_summary := None |}.

End Scenarios.
Export Scenarios.

From Stdlib Require Import Sorted.

(* ===================================================================== *)
(** ** Read helpers and housekeeping of the Result Store client
       (src/database/supabase_client.py)                                  *)
(* ===================================================================== *)

Module Housekeeping.

Definition set_market_findings (rows : list MarketFinding) (s : Store) : Store :=
  {| market_findings := rows;
     competitor_updates := competitor_updates s;
     opportunities := opportunities s; trends := trends s;
     analysis_runs := analysis_runs s |}.

Definition set_competitor_updates (rows : list CompetitorUpdate) (s : Store)
  : Store :=
  {| market_findings := market_findings s;
     competitor_updates := rows;
     opportunities := opportunities s; trends := trends s;
     analysis_runs := analysis_runs s |}.

Definition set_analysis_runs (rows : list AnalysisRun) (s : Store) : Store :=
  {| market_findings := market_findings s;
     competitor_updates := competitor_updates s;
     opportunities := opportunities s; trends := trends s;
     analysis_runs := rows |}.

(** What [cleanup_old_data] returns: the three counts and the cutoff
    date, or the dictionary with the only key ["error"]. *)
Inductive CleanupResult : Type :=
| CleanupCounts (findings_deleted updates_deleted runs_deleted : nat)
    (cutoff_date : Z)
| CleanupError (error : exn).

Section Housekeeping.
Variable E : Ext.

(** The answer of the store to a [delete] request: [None] when it
    carries it out, the exception of the client library otherwise.  It
    may depend on the request number, the table and the cutoff date. *)
Variable delete_fault : nat -> string -> Z -> option exn.

Definition get_analysis_runs (limit : nat) : M (list AnalysisRun) :=
  n <- next_db_op ;;
  if store_ok E n (DbSelect "analysis_runs") then
    rows <- gets (fun w => analysis_runs (store w)) ;;
    ret (firstn limit (sort_by (newest_first ar_created_at) rows))
  else ret [].

Definition get_top_opportunities (limit : nat) : M (list Opportunity) :=
  n <- next_db_op ;;
  if store_ok E n (DbSelect "opportunities") then
    rows <- gets (fun w => opportunities (store w)) ;;
    ret (firstn limit (sort_by (highest_first op_score) rows))
  else ret [].

(** No [limit] here, and the threshold is applied whatever its value. *)
Definition get_high_momentum_trends (min_momentum : Q) : M (list Trend) :=
  n <- next_db_op ;;
  if store_ok E n (DbSelect "trends") then
    rows <- gets (fun w => trends (store w)) ;;
    ret (sort_by (highest_first tr_momentum_score)
           (filter (fun r => Qle_bool min_momentum (tr_momentum_score r)) rows))
  else ret [].

Definition get_critical_competitor_updates : M (list CompetitorUpdate) :=
  n <- next_db_op ;;
  if store_ok E n (DbSelect "competitor_updates") then
    rows <- gets (fun w => competitor_updates (store w)) ;;
    ret (firstn 20
           (sort_by (newest_first cu_created_at)
              (filter (fun r => str_in (Priority_value (cu_impact_level r))
                                  ["high"; "critical"]) rows)))
  else ret [].

(** [table.delete().lt(column, cutoff).execute()]: the rows whose date is
    before the cutoff leave the table and are returned. *)
Definition delete_before {A} (table : string) (rows_of : Store -> list A)
  (put : list A -> Store -> Store) (date_of : A -> Z) (cutoff : Z)
  : M (list A) :=
  n <- next_db_op ;;
  match delete_fault n table cutoff with
  | Some e => raise e
  | None =>
      rows <- gets (fun w => rows_of (store w)) ;;
      modify (fun w =>
                set_store
                  (put (filter (fun r => negb (Z.ltb (date_of r) cutoff)) rows)
                     (store w)) w) ;;;
      ret (filter (fun r => Z.ltb (date_of r) cutoff) rows)
  end.

Definition cleanup_old_data (days_to_keep : Z) : M CleanupResult :=
  try_except
    (cutoff_date <- lift (days_before (today E) days_to_keep) ;;
     findings_deleted <-
       delete_before "market_findings" market_findings set_market_findings
         mf_date cutoff_date ;;
     updates_deleted <-
       delete_before "competitor_updates" competitor_updates
         set_competitor_updates cu_detected_date cutoff_date ;;
     runs_deleted <-
       delete_before "analysis_runs" analysis_runs set_analysis_runs
         ar_run_date cutoff_date ;;
     ret (CleanupCounts (length findings_deleted) (length updates_deleted)
            (length runs_deleted) cutoff_date))
    (fun e => ret (CleanupError e)).

End Housekeeping.
End Housekeeping.
Export Housekeeping.

(* ===================================================================== *)
(** ** Scheduled jobs (src/utils/scheduler.py)                            *)
(* ===================================================================== *)

Module Scheduler.

Inductive LogLevel : Type := INFO | ERROR.

(** The messages of the jobs, with what is interpolated into them. *)
Inductive LogMessage : Type :=
| RunningSingleJob (job_type : string)
| UnknownJobType (job_type : string)
| StartingDailyAnalysis
| DailyAnalysisCompleted
| LogMarketFindings (n : nat)
| LogOpportunities (n : nat)
| LogTrends (n : nat)
| LogExecutionTime (seconds : Q)
| DailyAnalysisFailed (error : option exn)
| ErrorInDailyAnalysis (e : exn)
| StartingWeeklySummary
| WeeklySummaryFailed (error : exn)
| WeeklySummaryCompleted
| ErrorInWeeklySummary (e : exn)
| HealthCheckPassed
| HealthCheckFailed (e : exn).

Definition LogRecord : Type := LogLevel * LogMessage.

Section Scheduler.
Variable E : Ext.

(** [str(e)]: the text of an exception, a primitive of the language. *)
Variable exn_text : exn -> string.

(** The two operations of [competitive_analysis_crew] the jobs await. *)
Variable crew_daily : M Results.
Variable crew_weekly : M WeeklyResult.

(** The value of a job is the list of the records it hands to
    [logging], in order; the jobs themselves return nothing. *)
Definition daily_analysis_job : M (list LogRecord) :=
  let started := [(INFO, StartingDailyAnalysis)] in
  try_except
    (results <- crew_daily ;;
     if String.eqb (rs_status results) "completed" then
       let findings_count :=
         match rs_summary results with
         | Some summary => sm_findings_count summary
         | None => 0
         end in
       let opportunities_count :=
         match rs_summary results with
         | Some summary => sm_opportunities_count summary
         | None => 0
         end in
       let trends_identified :=
         match rs_summary results with
         | Some summary => sm_trends_identified summary
         | None => 0
         end in
       ret (started ++
            [(INFO, DailyAnalysisCompleted);
             (INFO, LogMarketFindings findings_count);
             (INFO, LogOpportunities opportunities_count);
             (INFO, LogTrends trends_identified);
             (INFO, LogExecutionTime (rs_execution_time results))])
     else
       ret (started ++ [(ERROR, DailyAnalysisFailed (rs_error results))]))
    (fun e => ret (started ++ [(ERROR, ErrorInDailyAnalysis e)])).

(** [if results.get('error')]: the key is there on the error result
    only, and its value is true unless the text of the exception is
    empty. *)
Definition weekly_summary_job : M (list LogRecord) :=
  let started := [(INFO, StartingWeeklySummary)] in
  try_except
    (results <- crew_weekly ;;
     match results with
     | WeeklyError e =>
         if String.eqb (exn_text e) "" then
           ret (started ++ [(INFO, WeeklySummaryCompleted)])
         else ret (started ++ [(ERROR, WeeklySummaryFailed e)])
     | WeeklySummary _ _ _ _ _ =>
         ret (started ++ [(INFO, WeeklySummaryCompleted)])
     end)
    (fun e => ret (started ++ [(ERROR, ErrorInWeeklySummary e)])).

Definition health_check : M (list LogRecord) :=
  try_except
    (_ <- get_analysis_summary E 1 ;;
     ret [(INFO, HealthCheckPassed)])
    (fun e => ret [(ERROR, HealthCheckFailed e)]).

Definition run_once (job_type : string) : M (list LogRecord) :=
  let announced := [(INFO, RunningSingleJob job_type)] in
  if String.eqb job_type "daily" then
    logged <- daily_analysis_job ;; ret (announced ++ logged)
  else if String.eqb job_type "weekly" then
    logged <- weekly_summary_job ;; ret (announced ++ logged)
  else if String.eqb job_type "health" then
    logged <- health_check ;; ret (announced ++ logged)
  else ret (announced ++ [(ERROR, UnknownJobType job_type)]).

End Scheduler.
End Scheduler.
Export Scheduler.

(* ===================================================================== *)
(** ** Vocabulary of the further properties                               *)
(* ===================================================================== *)

Module MoreVocabulary.

(** The rows of the [market_findings] and of the [trends] table. *)
Definition findings_of (w : World) : list MarketFinding :=
  market_findings (store w).

Definition trends_of (w : World) : list Trend := trends (store w).

(** The number of findings of a category. *)
Definition findings_in_category (c : string) (findings : list MarketFinding)
  : nat :=
  length (filter (fun f => String.eqb (Category_value (mf_category f)) c)
            findings).

(** The sum of the counts of a breakdown. *)
Definition total_count (counts : list (string * nat)) : nat :=
  fold_right (fun kv n => snd kv + n) 0 counts.

(** The date [days] days before today exists: [timedelta] takes the
    number of days and the result is a date of the years 1 to 9999. *)
Definition days_in_range (E : Ext) (days : Z) : Prop :=
  (Z.abs days <= 999999999)%Z
  /\ (date_min <= today E - days)%Z /\ (today E - days <= date_max)%Z.

(** The store answers no [select]. *)
Definition store_unreachable (E : Ext) : Prop :=
  forall n table, store_ok E n (DbSelect table) = false.

(** A message of the given type and body to one of the configured
    recipients. *)
Definition addressed_to (E : Ext) (email_type : string) (body : EmailBody)
  (m : Email) : Prop :=
  em_type m = email_type /\ em_body m = body /\ em_to m <> ""
  /\ exists recipient,
       In recipient (notification_recipients E) /\ em_to m = strip recipient.

(** The notifier is switched off, or no recipient is configured. *)
Definition notifier_off (E : Ext) : Prop :=
  gmail_enabled E = false \/ notification_recipients E = [].

(** The names the Competitor stage works on: the configured names,
    stripped, without the blank ones. *)
Definition monitored_names (E : Ext) : list string :=
  filter (fun name => negb (String.eqb name "")) (map strip (competitors E)).

End MoreVocabulary.
Export MoreVocabulary.

(* ===================================================================== *)
(** ** Further scenarios                                                  *)
(* ===================================================================== *)

Module MoreScenarios.

(** All services work, the completion service answers the market
    prompt with three findings, and the notifier is switched off.  No
    number of the scenario has more than two decimals, so that the
    columns of the store give it back as it was written. *)
Definition silent_ext : Ext :=
  {| lang := plain_lang;
     today := 20000%Z;
     now_iso := "2024-10-04T06:00:00";
     elapsed := 1%Q;
     competitors := ["OpenAI"];
     search := fun _ _ _ _ => "no results";
     llm := llm (working_ext three_findings []);
     store_ok := fun _ _ => true;
     store_replies := fun _ _ => true;
     numeric_3_2 := fun q => q;
     numeric_8_2 := fun q => q;
     gmail_enabled := false;
     notification_recipients := ["board@example.com"];
     renders := fun _ => true;
     smtp_ok := fun _ _ => true;
     smtp_quit_ok := fun _ _ => true |}.

(** A store that carries out the first [delete] it receives and fails
    on every later one. *)
Definition only_first_delete (n : nat) (table : string) (cutoff : Z)
  : option exn :=
  match n with
  | O => None
  | S _ => Some (ServiceError "connection lost")
  end.

(** A store that carries out every [delete]. *)
Definition every_delete (n : nat) (table : string) (cutoff : Z)
  : option exn := None.

End MoreScenarios.
Export MoreScenarios.

(* ===================================================================== *)
(** * Properties                                                          *)
(* ===================================================================== *)

(** ** Programs that leave a part of the world as it is *)

Section Frame.
Variable X : Type.
Variable observe : World -> X.

Lemma preserves_ret A (a : A) : preserves observe (ret a).
Proof. intros w; reflexivity. Qed.

Lemma preserves_raise A (e : exn) : preserves observe (@raise A e).
Proof. intros w; reflexivity. Qed.

Lemma preserves_lift A (r : result A) : preserves observe (lift r).
Proof. intros w; reflexivity. Qed.

Lemma preserves_gets A (f : World -> A) : preserves observe (gets f).
Proof. intros w; reflexivity. Qed.

Lemma preserves_bind A B (m : M A) (k : A -> M B) :
  preserves observe m -> (forall a, preserves observe (k a)) ->
  preserves observe (bind m k).
Proof.
  intros Hm Hk w. unfold bind. specialize (Hm w).
  destruct (m w) as [[a | e] w1]; simpl in *.
  - rewrite (Hk a w1). exact Hm.
  - exact Hm.
Qed.

Lemma preserves_try_except A (body : M A) (handler : exn -> M A) :
  preserves observe body -> (forall e, preserves observe (handler e)) ->
  preserves observe (try_except body handler).
Proof.
  intros Hb Hh w. unfold try_except. specialize (Hb w).
  destruct (body w) as [[a | e] w1]; simpl in *.
  - exact Hb.
  - rewrite (Hh e w1). exact Hb.
Qed.

Lemma preserves_for_each A B (l : list A) (body : B -> A -> M B) :
  (forall acc x, preserves observe (body acc x)) ->
  forall acc, preserves observe (for_each l acc body).
Proof.
  intros Hbody. induction l as [| x l IH]; intros acc; simpl.
  - apply preserves_ret.
  - apply preserves_bind; [apply Hbody | intros acc'; apply IH].
Qed.

Lemma preserves_if A (b : bool) (m1 m2 : M A) :
  preserves observe m1 -> preserves observe m2 ->
  preserves observe (if b then m1 else m2).
Proof. destruct b; auto. Qed.

Lemma preserves_gather3 A B C (a : M A) (b : M B) (c : M C) :
  preserves observe a -> preserves observe b -> preserves observe c ->
  preserves observe (gather3 a b c).
Proof.
  intros Ha Hb Hc w. unfold gather3.
  specialize (Ha w). destruct (a w) as [ra w1].
  specialize (Hb w1). destruct (b w1) as [rb w2].
  specialize (Hc w2). destruct (c w2) as [rc w3]. simpl in *.
  assert (Hw : observe w3 = observe w) by congruence.
  destruct ra, rb, rc; simpl; exact Hw.
Qed.

(** What depends on the store and the outbox only is untouched by the
    bookkeeping of the request counters. *)
Hypothesis observe_local :
  forall w w', store w = store w' -> outbox w = outbox w' ->
               observe w = observe w'.

Lemma preserves_next_db_op : preserves observe next_db_op.
Proof. intros w. apply observe_local; reflexivity. Qed.

Lemma preserves_llm_invoke E p : preserves observe (llm_invoke E p).
Proof.
  intros w. unfold llm_invoke.
  destruct (llm E (llm_calls w) p); apply observe_local; reflexivity.
Qed.

End Frame.

Lemma store_local (w w' : World) :
  store w = store w' -> outbox w = outbox w' -> store w = store w'.
Proof. auto. Qed.

Lemma runs_local (w w' : World) :
  store w = store w' -> outbox w = outbox w' -> runs_of w = runs_of w'.
Proof. unfold runs_of. intros H _. rewrite H. reflexivity. Qed.

Lemma preserves_send_email_store E to_email email_type body :
  preserves store (send_email E to_email email_type body).
Proof. intros w; reflexivity. Qed.

Lemma preserves_store_runs A (m : M A) :
  preserves store m -> preserves runs_of m.
Proof. intros H w. unfold runs_of. rewrite H. reflexivity. Qed.

Create HintDb frame.
#[local] Hint Resolve preserves_ret preserves_raise preserves_lift
  preserves_gets preserves_send_email_store : frame.
#[local] Hint Extern 1 (preserves store next_db_op) =>
  exact (@preserves_next_db_op _ store store_local) : frame.
#[local] Hint Extern 1 (preserves runs_of next_db_op) =>
  exact (@preserves_next_db_op _ runs_of runs_local) : frame.
#[local] Hint Extern 1 (preserves store (llm_invoke _ _)) =>
  apply (@preserves_llm_invoke _ store store_local) : frame.
#[local] Hint Extern 1 (preserves runs_of (llm_invoke _ _)) =>
  apply (@preserves_llm_invoke _ runs_of runs_local) : frame.

(** Peels a program built from the combinators, leaving the calls. *)
Ltac frame_step :=
  first
    [ solve [auto with frame]
    | apply preserves_bind; [| intro]
    | apply preserves_try_except; [| intro]
    | apply preserves_for_each; intros
    | apply preserves_gather3
    | apply preserves_if ].

Ltac frame := repeat frame_step.

(** *** Queries and the notifier do not write to the store *)

Lemma preserves_get_market_findings E limit category start_date :
  preserves store (get_market_findings E limit category start_date).
Proof. unfold get_market_findings. frame. Qed.

Lemma preserves_get_competitor_updates E company_name limit :
  preserves store (get_competitor_updates E company_name limit).
Proof. unfold get_competitor_updates. frame. Qed.

Lemma preserves_get_opportunities E min_score limit :
  preserves store (get_opportunities E min_score limit).
Proof. unfold get_opportunities. frame. Qed.

Lemma preserves_get_trends E category min_momentum limit :
  preserves store (get_trends E category min_momentum limit).
Proof. unfold get_trends. frame. Qed.

#[local] Hint Resolve preserves_get_market_findings
  preserves_get_competitor_updates preserves_get_opportunities
  preserves_get_trends : frame.

Lemma preserves_get_latest_findings_by_category E :
  preserves store (get_latest_findings_by_category E).
Proof. unfold get_latest_findings_by_category. frame. Qed.

#[local] Hint Resolve preserves_get_latest_findings_by_category : frame.

Lemma preserves_get_analysis_summary E days :
  preserves store (get_analysis_summary E days).
Proof. unfold get_analysis_summary. frame. Qed.

#[local] Hint Resolve preserves_get_analysis_summary : frame.

Lemma preserves_send_to_recipients E email_type body :
  preserves store (send_to_recipients E email_type body).
Proof. unfold send_to_recipients. frame. Qed.

#[local] Hint Resolve preserves_send_to_recipients : frame.

Lemma preserves_generate_executive_briefing E :
  preserves store (generate_executive_briefing E).
Proof. unfold generate_executive_briefing. frame. Qed.

Lemma preserves_assess_opportunity_portfolio E :
  preserves store (assess_opportunity_portfolio E).
Proof. unfold assess_opportunity_portfolio. frame. Qed.

#[local] Hint Resolve preserves_generate_executive_briefing
  preserves_assess_opportunity_portfolio : frame.

(** C10.  [run_weekly_summary] never writes to the Result Store: whatever
    the services answer, the five tables after the call are the tables
    before it; the call only reads them and hands the digest to the
    notifier. *)
Theorem C10_weekly_summary_leaves_store_unchanged :
  forall (E : Ext) (w : World),
    store (snd (run_weekly_summary E w)) = store w.
Proof.
  intros E. change (preserves store (run_weekly_summary E)).
  unfold run_weekly_summary, send_weekly_summary. frame.
Qed.

(** *** The stages do not write to the table of runs *)

Lemma preserves_runs_insert_market_finding E x :
  preserves runs_of (insert_market_finding E x).
Proof.
  intros w. unfold insert_market_finding, bind, next_db_op.
  destruct (store_ok E (db_ops w) (DbInsert (RowFinding x)));
    [destruct (store_replies E (db_ops w) (DbInsert (RowFinding x))) |]; reflexivity.
Qed.

Lemma preserves_runs_insert_competitor_update E x :
  preserves runs_of (insert_competitor_update E x).
Proof.
  intros w. unfold insert_competitor_update, bind, next_db_op.
  destruct (store_ok E (db_ops w) (DbInsert (RowUpdate x)));
    [destruct (store_replies E (db_ops w) (DbInsert (RowUpdate x))) |]; reflexivity.
Qed.

Lemma preserves_runs_insert_opportunity E x :
  preserves runs_of (insert_opportunity E x).
Proof.
  intros w. unfold insert_opportunity, bind, next_db_op.
  destruct (store_ok E (db_ops w) (DbInsert (RowOpportunity x)));
    [destruct (store_replies E (db_ops w) (DbInsert (RowOpportunity x))) |]; reflexivity.
Qed.

Lemma preserves_runs_insert_trend E x :
  preserves runs_of (insert_trend E x).
Proof.
  intros w. unfold insert_trend, bind, next_db_op.
  destruct (store_ok E (db_ops w) (DbInsert (RowTrend x)));
    [destruct (store_replies E (db_ops w) (DbInsert (RowTrend x))) |]; reflexivity.
Qed.

Lemma preserves_runs_get_market_findings E limit category start_date :
  preserves runs_of (get_market_findings E limit category start_date).
Proof. apply preserves_store_runs. auto with frame. Qed.

Lemma preserves_runs_get_competitor_updates E company_name limit :
  preserves runs_of (get_competitor_updates E company_name limit).
Proof. apply preserves_store_runs. auto with frame. Qed.

Lemma preserves_runs_get_opportunities E min_score limit :
  preserves runs_of (get_opportunities E min_score limit).
Proof. apply preserves_store_runs. auto with frame. Qed.

Lemma preserves_runs_get_trends E category min_momentum limit :
  preserves runs_of (get_trends E category min_momentum limit).
Proof. apply preserves_store_runs. auto with frame. Qed.

#[local] Hint Resolve preserves_runs_insert_market_finding
  preserves_runs_insert_competitor_update preserves_runs_insert_opportunity
  preserves_runs_insert_trend preserves_runs_get_market_findings
  preserves_runs_get_competitor_updates preserves_runs_get_opportunities
  preserves_runs_get_trends : frame.

Lemma preserves_runs_market E :
  preserves runs_of (gather_market_intelligence E).
Proof. unfold gather_market_intelligence, store_finding. frame. Qed.

Lemma preserves_runs_competitor E :
  preserves runs_of (monitor_competitors E).
Proof.
  unfold monitor_competitors, monitor_one, store_update,
    analyze_competitor_updates, analyze_competitive_landscape.
  frame.
Qed.

Lemma preserves_runs_trend E :
  preserves runs_of (analyze_market_trends E).
Proof.
  unfold analyze_market_trends, store_trend, analyze_trend_patterns. frame.
Qed.

Lemma preserves_runs_synthesis E :
  preserves runs_of (generate_strategic_analysis E).
Proof.
  unfold generate_strategic_analysis, store_opportunity,
    synthesize_intelligence, identify_opportunities.
  frame.
Qed.

Lemma preserves_store_send_daily_notifications E results :
  preserves store (send_daily_notifications E results).
Proof.
  unfold send_daily_notifications, send_critical_alert, send_daily_report.
  frame.
  destruct (identify_critical_alerts results); frame.
Qed.

(** ** Inversion of the combinators *)

Lemma bind_Ok_inv A B (m : M A) (k : A -> M B) w b w' :
  bind m k w = (Ok b, w') ->
  exists a w1, m w = (Ok a, w1) /\ k a w1 = (Ok b, w').
Proof.
  unfold bind. destruct (m w) as [[a | e] w1]; intros H.
  - exists a, w1. split; [reflexivity | exact H].
  - discriminate H.
Qed.

Lemma try_except_inv A (body : M A) (handler : exn -> M A) w r w' :
  try_except body handler w = (r, w') ->
  (exists a, body w = (Ok a, w') /\ r = Ok a)
  \/ (exists e w1, body w = (Raise e, w1) /\ handler e w1 = (r, w')).
Proof.
  unfold try_except. destruct (body w) as [[a | e] w1]; intros H.
  - left. exists a. inversion H; subst. split; reflexivity.
  - right. exists e, w1. split; [reflexivity | exact H].
Qed.

Lemma ret_inv A (a b : A) w w' : ret a w = (Ok b, w') -> a = b /\ w = w'.
Proof. unfold ret. intros H; inversion H; split; reflexivity. Qed.

(** ** Alert Evaluator *)

Lemma threat_is_critical_spec t :
  threat_is_critical t = true <-> (th_impact t = HIGH \/ th_impact t = CRITICAL).
Proof.
  unfold threat_is_critical.
  destruct (th_impact t); simpl; split; intros H; try reflexivity;
    try discriminate; try (destruct H; discriminate); auto.
Qed.

Lemma Qgt_bool_iff x y : Qgt_bool x y = true <-> (y < x)%Q.
Proof.
  unfold Qgt_bool. rewrite negb_true_iff. split.
  - intros H. apply Qnot_le_lt. intros Hle.
    apply Qle_bool_iff in Hle. congruence.
  - intros H. destruct (Qle_bool x y) eqn:Hb; [| reflexivity].
    apply Qle_bool_iff in Hb. exfalso. exact (Qlt_not_le _ _ H Hb).
Qed.

Lemma opportunity_is_high_value_spec o :
  opportunity_is_high_value o = true
  <-> (float_0_9 < op_score o)%Q /\ op_priority o = HIGH.
Proof.
  unfold opportunity_is_high_value. rewrite andb_true_iff, Qgt_bool_iff.
  split; intros [Hs Hp]; split; try exact Hs.
  - destruct (op_priority o); simpl in Hp; try discriminate; reflexivity.
  - rewrite Hp. reflexivity.
Qed.

Lemma filter_none A (f : A -> bool) (l : list A) :
  (forall x, In x l -> f x = false) -> filter f l = [].
Proof.
  induction l as [| x l IH]; intros H; simpl; [reflexivity |].
  rewrite (H x (or_introl eq_refl)). apply IH.
  intros y Hy. apply H. right. exact Hy.
Qed.

(** C6.  A report whose status is [error] and which holds no threat of
    impact high or critical and no opportunity with score > 0.9 and
    priority high gives no alert; and the report [run_daily_analysis]
    returns when the run failed is such a report, whatever the stages
    did: a failure of the pipeline alone never raises a critical
    alert. *)
Theorem C6_error_report_raises_no_alert :
  (forall results : Results,
     rs_status results = "error" ->
     (forall cr t,
        rs_competitor_intelligence results = Some cr ->
        In t (with_default [] (cr_critical_threats cr)) ->
        th_impact t <> HIGH /\ th_impact t <> CRITICAL) ->
     (forall sr o,
        rs_strategic_synthesis results = Some sr ->
        In o (with_default [] (sr_top_opportunities sr)) ->
        ~ ((float_0_9 < op_score o)%Q /\ op_priority o = HIGH)) ->
     identify_critical_alerts results = [])
  /\
  (forall E market competitor trend synthesis w results w',
     run_daily_analysis_with E market competitor trend synthesis w
       = (Ok results, w') ->
     rs_status results = "error" ->
     identify_critical_alerts results = []).
Proof.
  split.
  - intros results _ Hthreats Hopps. unfold identify_critical_alerts.
    rewrite !filter_none; [reflexivity | |].
    + intros o Ho.
      destruct (rs_strategic_synthesis results) as [sr |] eqn:Hsr;
        [| destruct Ho].
      destruct (opportunity_is_high_value o) eqn:Hq; [| reflexivity].
      apply opportunity_is_high_value_spec in Hq.
      exfalso. exact (Hopps sr o eq_refl Ho Hq).
    + intros t Ht.
      destruct (rs_competitor_intelligence results) as [cr |] eqn:Hcr;
        [| destruct Ht].
      destruct (threat_is_critical t) eqn:Hq; [| reflexivity].
      apply threat_is_critical_spec in Hq.
      destruct (Hthreats cr t eq_refl Ht) as [H1 H2].
      destruct Hq; contradiction.
  - intros E market competitor trend synthesis w results w' Hrun Hstatus.
    unfold run_daily_analysis_with in Hrun.
    apply try_except_inv in Hrun.
    destruct Hrun as [(a & Hbody & Ha) | (e & w1 & _ & Hhandler)].
    + exfalso. inversion Ha; subst a; clear Ha.
      apply bind_Ok_inv in Hbody. destruct Hbody as ([[mr cr] tr] & w1 & _ & Hk).
      apply bind_Ok_inv in Hk. destruct Hk as (sr & w2 & _ & Hk).
      apply bind_Ok_inv in Hk. destruct Hk as (u1 & w3 & _ & Hk).
      apply bind_Ok_inv in Hk. destruct Hk as (u2 & w4 & _ & Hk).
      apply ret_inv in Hk. destruct Hk as [Hk _]. subst results.
      simpl in Hstatus. discriminate Hstatus.
    + unfold ret in Hhandler. inversion Hhandler; subst. reflexivity.
Qed.

(** The report of the scenario has status [error] and no qualifying
    item, and the evaluator returns the empty list on it. *)
Lemma C6_witness :
  rs_status error_report = "error"
  /\ identify_critical_alerts error_report = [].
Proof.
  split; [reflexivity |].
  apply (proj1 C6_error_report_raises_no_alert error_report).
  - reflexivity.
  - intros cr t H; discriminate H.
  - intros sr o H; discriminate H.
Defined.

Lemma threat_alerts_refine (us : list CompetitorUpdate) :
  map alert_view
    (map threat_alert (filter threat_is_critical (identify_critical_threats us)))
  = map spec_threat_alert (filter spec_update_qualifies us).
Proof.
  unfold identify_critical_threats.
  induction us as [| u us IH]; [reflexivity |].
  simpl. unfold spec_update_qualifies at 1.
  destruct (cu_impact_level u) eqn:Hi; simpl; try exact IH;
    unfold threat_is_critical at 1; simpl; rewrite Hi; simpl;
    unfold spec_threat_alert at 1, threat_alert at 1, alert_view at 1;
    simpl; rewrite Hi; f_equal; exact IH.
Qed.

Lemma spec_opportunity_qualifies_code o :
  spec_opportunity_qualifies o = opportunity_is_high_value o.
Proof.
  destruct (opportunity_is_high_value o) eqn:Hq.
  - apply opportunity_is_high_value_spec in Hq. destruct Hq as [Hs Hp].
    unfold spec_opportunity_qualifies. rewrite Hp.
    destruct (Qlt_le_dec float_0_9 (op_score o)) as [_ | Hle]; [reflexivity |].
    exfalso. exact (Qlt_not_le _ _ Hs Hle).
  - unfold spec_opportunity_qualifies.
    destruct (Qlt_le_dec float_0_9 (op_score o)) as [Hs | _]; [| reflexivity].
    destruct (op_priority o) eqn:Hp; try reflexivity.
    assert (Ht : opportunity_is_high_value o = true)
      by (apply opportunity_is_high_value_spec; split; assumption).
    congruence.
Qed.

Lemma opportunity_alerts_refine (os : list Opportunity) :
  map alert_view (map opportunity_alert (filter opportunity_is_high_value os))
  = map spec_opportunity_alert (filter spec_opportunity_qualifies os).
Proof.
  induction os as [| o os IH]; simpl; [reflexivity |].
  rewrite spec_opportunity_qualifies_code.
  destruct (opportunity_is_high_value o); simpl; [rewrite IH |]; auto.
Qed.


(** ** Construction of the records from the items of a response *)

Lemma rbind_Ok_inv A B (r : result A) (k : A -> result B) b :
  rbind r k = Ok b -> exists a, r = Ok a /\ k a = Ok b.
Proof.
  destruct r as [a | e]; simpl; intros H; [| discriminate H].
  exists a. split; [reflexivity | exact H].
Qed.

(** Splits a successful chain of [rbind]s into its steps. *)
Ltac invert_chain :=
  repeat match goal with
         | H : rbind _ _ = Ok _ |- _ =>
             apply rbind_Ok_inv in H;
             let a := fresh "v" in
             let Ha := fresh "Hstep" in
             destruct H as (a & Ha & H)
         end.

Lemma str_take_length n s : String.length (str_take n s) <= n.
Proof.
  revert s. induction n as [| n IH]; intros s.
  - destruct s; simpl; lia.
  - destruct s as [| c s]; simpl; [lia |]. specialize (IH s). lia.
Qed.

Lemma v_max_length_Ok n s s' :
  v_max_length n s = Ok s' -> s' = s /\ String.length s <= n.
Proof.
  unfold v_max_length. destruct (Nat.leb (String.length s) n) eqn:Hle;
    intros H; inversion H; subst.
  split; [reflexivity | apply Nat.leb_le; exact Hle].
Qed.

Lemma v_max_length_take n s : v_max_length n (str_take n s) = Ok (str_take n s).
Proof.
  unfold v_max_length.
  rewrite (proj2 (Nat.leb_le _ _) (str_take_length n s)). reflexivity.
Qed.

Lemma v_unit_interval_Ok f q :
  v_unit_interval f = Ok q -> f = FFin q /\ (0 <= q)%Q /\ (q <= 1)%Q.
Proof.
  unfold v_unit_interval.
  destruct (float_ge f (FFin 0%Q) && float_le f (FFin 1%Q)) eqn:Hin;
    [| discriminate].
  destruct f as [x | | |]; try discriminate. intros H; inversion H; subst.
  apply andb_true_iff in Hin. destruct Hin as [H0 H1].
  unfold float_le in H1. simpl in H0, H1.
  apply Qle_bool_iff in H0. apply Qle_bool_iff in H1. auto.
Qed.

Lemma v_unit_interval_out f :
  in_unit_interval f = false -> v_unit_interval f = Raise ValidationError.
Proof.
  unfold in_unit_interval, v_unit_interval. intros H. rewrite H. reflexivity.
Qed.

Lemma assoc_dict_set_same V k (v : V) d : assoc k (dict_set k v d) = Some v.
Proof.
  induction d as [| [k' v'] d IH]; simpl.
  - rewrite String.eqb_refl. reflexivity.
  - destruct (String.eqb k k') eqn:Hk; simpl.
    + rewrite String.eqb_refl. reflexivity.
    + rewrite Hk. exact IH.
Qed.

Lemma assoc_dict_set_other V k k0 (v : V) d :
  String.eqb k0 k = false -> assoc k0 (dict_set k v d) = assoc k0 d.
Proof.
  intros Hne. induction d as [| [k' v'] d IH]; simpl.
  - rewrite Hne. reflexivity.
  - destruct (String.eqb k k') eqn:Hk; simpl.
    + apply String.eqb_eq in Hk. subst k'. rewrite Hne. reflexivity.
    + rewrite IH. reflexivity.
Qed.

(** *** What a constructed record satisfies *)

Lemma build_market_finding_Ok E item m :
  build_market_finding E item = Ok m ->
  String.length (mf_title m) <= 500
  /\ String.length (mf_summary m) <= 2000
  /\ score_given E "relevance_score" item = Ok (FFin (mf_relevance_score m))
  /\ (0 <= mf_relevance_score m)%Q /\ (mf_relevance_score m <= 1)%Q.
Proof.
  unfold build_market_finding, new_MarketFinding, score_given. intros H.
  invert_chain. inversion H; subst; clear H; simpl.
  repeat match goal with
         | H : v_max_length _ _ = Ok _ |- _ =>
             apply v_max_length_Ok in H; destruct H as [? ?]; subst
         | H : v_unit_interval _ = Ok _ |- _ =>
             apply v_unit_interval_Ok in H; destruct H as (? & ? & ?); subst
         end.
  repeat split; try assumption.
  match goal with
  | Hg : get item "relevance_score" _ = Ok _ |- _ => rewrite Hg
  end.
  simpl. assumption.
Qed.

Lemma build_opportunity_Ok E item o :
  build_opportunity E item = Ok o ->
  String.length (op_title o) <= 255
  /\ score_given E "score" item = Ok (FFin (op_score o))
  /\ (0 <= op_score o)%Q /\ (op_score o <= 1)%Q.
Proof.
  unfold build_opportunity, new_Opportunity, score_given. intros H.
  invert_chain. inversion H; subst; clear H; simpl.
  repeat match goal with
         | H : v_max_length _ _ = Ok _ |- _ =>
             apply v_max_length_Ok in H; destruct H as [? ?]; subst
         | H : v_unit_interval _ = Ok _ |- _ =>
             apply v_unit_interval_Ok in H; destruct H as (? & ? & ?); subst
         end.
  repeat split; try assumption.
  match goal with
  | Hg : get item "score" _ = Ok _ |- _ => rewrite Hg
  end.
  simpl. assumption.
Qed.

Lemma build_trend_Ok E item t :
  build_trend E item = Ok t ->
  String.length (tr_trend_name t) <= 255
  /\ score_given E "momentum_score" item = Ok (FFin (tr_momentum_score t))
  /\ (0 <= tr_momentum_score t)%Q /\ (tr_momentum_score t <= 1)%Q.
Proof.
  unfold build_trend, new_Trend, score_given. intros H.
  invert_chain. inversion H; subst; clear H; simpl.
  repeat match goal with
         | H : v_max_length _ _ = Ok _ |- _ =>
             apply v_max_length_Ok in H; destruct H as [? ?]; subst
         | H : v_unit_interval _ = Ok _ |- _ =>
             apply v_unit_interval_Ok in H; destruct H as (? & ? & ?); subst
         end.
  repeat split; try assumption.
  match goal with
  | Hg : get item "momentum_score" _ = Ok _ |- _ => rewrite Hg
  end.
  simpl. assumption.
Qed.

Lemma in_unit_interval_FFin q :
  (0 <= q)%Q -> (q <= 1)%Q -> in_unit_interval (FFin q) = true.
Proof.
  intros H0 H1. unfold in_unit_interval, float_le. simpl.
  rewrite (proj2 (Qle_bool_iff _ _) H0), (proj2 (Qle_bool_iff _ _) H1).
  reflexivity.
Qed.

(** *** An item whose score is out of range is refused *)

Lemma build_market_finding_out_of_range E item f :
  score_given E "relevance_score" item = Ok f ->
  in_unit_interval f = false ->
  is_ok (build_market_finding E item) = false.
Proof.
  intros Hgiven Hout.
  destruct (build_market_finding E item) as [m |] eqn:Hb; [| reflexivity].
  apply build_market_finding_Ok in Hb.
  destruct Hb as (_ & _ & Hs & H0 & H1).
  rewrite Hgiven in Hs. inversion Hs; subst f.
  rewrite (in_unit_interval_FFin H0 H1) in Hout. discriminate Hout.
Qed.

Lemma build_opportunity_out_of_range E item f :
  score_given E "score" item = Ok f ->
  in_unit_interval f = false ->
  is_ok (build_opportunity E item) = false.
Proof.
  intros Hgiven Hout.
  destruct (build_opportunity E item) as [o |] eqn:Hb; [| reflexivity].
  apply build_opportunity_Ok in Hb.
  destruct Hb as (_ & Hs & H0 & H1).
  rewrite Hgiven in Hs. inversion Hs; subst f.
  rewrite (in_unit_interval_FFin H0 H1) in Hout. discriminate Hout.
Qed.

Lemma build_trend_out_of_range E item f :
  score_given E "momentum_score" item = Ok f ->
  in_unit_interval f = false ->
  is_ok (build_trend E item) = false.
Proof.
  intros Hgiven Hout.
  destruct (build_trend E item) as [t |] eqn:Hb; [| reflexivity].
  apply build_trend_Ok in Hb.
  destruct Hb as (_ & Hs & H0 & H1).
  rewrite Hgiven in Hs. inversion Hs; subst f.
  rewrite (in_unit_interval_FFin H0 H1) in Hout. discriminate Hout.
Qed.

(** *** The text of a bounded field is cut, never refused *)

(** Case analysis on every remaining step of two chains that run in
    step. *)
Ltac step_chains :=
  repeat (cbn [rbind with_default slice_to v_str v_opt_str];
          rewrite ?v_max_length_take;
          try match goal with
              | |- context [rbind ?r _] =>
                  lazymatch r with
                  | Ok _ => fail
                  | Raise _ => fail
                  | _ => destruct r
                  end
              end).

Ltac text_cut key :=
  rewrite !assoc_dict_set_same;
  rewrite !(@assoc_dict_set_other _ key) by reflexivity;
  split;
  [ step_chains; reflexivity
  | intros ?; step_chains; intros H; inversion H; reflexivity ].

Lemma market_title_cut E d text :
  is_ok (build_market_finding E (with_text "title" text d))
  = is_ok (build_market_finding E (with_text "title" "" d))
  /\ forall m,
       build_market_finding E (with_text "title" text d) = Ok m ->
       mf_title m = str_take 500 text.
Proof.
  unfold build_market_finding, with_text, get, new_MarketFinding.
  text_cut "title".
Qed.

Lemma market_summary_cut E d text :
  is_ok (build_market_finding E (with_text "summary" text d))
  = is_ok (build_market_finding E (with_text "summary" "" d))
  /\ forall m,
       build_market_finding E (with_text "summary" text d) = Ok m ->
       mf_summary m = str_take 2000 text.
Proof.
  unfold build_market_finding, with_text, get, new_MarketFinding.
  text_cut "summary".
Qed.

Lemma opportunity_title_cut E d text :
  is_ok (build_opportunity E (with_text "title" text d))
  = is_ok (build_opportunity E (with_text "title" "" d))
  /\ forall o,
       build_opportunity E (with_text "title" text d) = Ok o ->
       op_title o = str_take 255 text.
Proof.
  unfold build_opportunity, with_text, get, new_Opportunity.
  text_cut "title".
Qed.

Lemma trend_name_cut E d text :
  is_ok (build_trend E (with_text "trend_name" text d))
  = is_ok (build_trend E (with_text "trend_name" "" d))
  /\ forall t,
       build_trend E (with_text "trend_name" text d) = Ok t ->
       tr_trend_name t = str_take 255 text.
Proof.
  unfold build_trend, with_text, get, new_Trend.
  text_cut "trend_name".
Qed.

(** ** The per-item loop of a stage *)

Section ItemLoop.
Variable A : Type.
Variable build : pyval -> result A.
Variable insert : A -> M (option A).
Variable stamp : nat -> A -> A.
Variable table : World -> list A.

(** An insert either returns the stored row, or writes it and returns
    nothing because the reply is lost, or writes nothing. *)
Hypothesis insert_spec :
  forall x w,
    (exists n w', insert x w = (Ok (Some (stamp n x)), w')
                  /\ table w' = table w ++ [stamp n x])
    \/ (exists n w', insert x w = (Ok None, w')
                     /\ table w' = table w ++ [stamp n x])
    \/ (exists w', insert x w = (Ok None, w') /\ table w' = table w).

Lemma built_from_cons item items row :
  built_from build stamp items row ->
  built_from build stamp (item :: items) row.
Proof.
  intros (n & i & x & Hin & Hb & Hrow).
  exists n, i, x. split; [right; exact Hin | split; assumption].
Qed.

Lemma built_from_all_cons item items rows :
  Forall (built_from build stamp items) rows ->
  Forall (built_from build stamp (item :: items)) rows.
Proof.
  apply Forall_impl. intros row. apply built_from_cons.
Qed.

(** The loop returns [rows] and leaves [written] in the table: every
    returned row was written, and only records built from the items
    are. *)
Lemma item_loop items :
  forall acc w,
  exists rows written w',
    for_each items acc (store_item build insert) w = (Ok (acc ++ rows), w')
    /\ table w' = table w ++ written
    /\ Forall (built_from build stamp items) written
    /\ incl rows written
    /\ length rows <= length written
    /\ length written <= count_valid build items
    /\ ((forall x w0, exists row w1, insert x w0 = (Ok (Some row), w1)) ->
        rows = written /\ length rows = count_valid build items)
    /\ ((forall x w0 w1, insert x w0 = (Ok None, w1) -> table w1 = table w0) ->
        rows = written).
Proof.
  unfold count_valid.
  induction items as [| item items IH]; intros acc w.
  - exists [], [], w. simpl. rewrite !app_nil_r.
    repeat split; auto. intros x Hx; exact Hx.
  - simpl for_each. simpl filter. unfold bind at 1.
    unfold store_item at 1, try_except, bind, lift.
    destruct (build item) as [x | e] eqn:Hb; simpl.
    + destruct (insert_spec x w)
        as [(n & w1 & Hins & Htab)
           | [(n & w1 & Hins & Htab) | (w1 & Hins & Htab)]]; rewrite Hins.
      * unfold ret. destruct (IH (acc ++ [stamp n x]) w1)
          as (rows & written & w' & Hrun & Htab' & Hall & Hincl & Hlen & Hle
              & Heq & Hquiet).
        exists (stamp n x :: rows), (stamp n x :: written), w'. rewrite Hrun.
        rewrite <- app_assoc. simpl.
        split; [reflexivity |].
        split; [rewrite Htab', Htab, <- app_assoc; reflexivity |].
        split.
        { constructor.
          - exists n, item, x. repeat split; auto. left; reflexivity.
          - apply built_from_all_cons. exact Hall. }
        split.
        { intros r [Hr | Hr]; [left; exact Hr | right; apply Hincl; exact Hr]. }
        split; [lia |].
        split; [lia |].
        split.
        { intros Hacc. destruct (Heq Hacc) as [Hsame Hcount].
          split; [rewrite Hsame; reflexivity | rewrite Hcount; reflexivity]. }
        intros Hq. rewrite (Hquiet Hq). reflexivity.
      * unfold ret. destruct (IH acc w1)
          as (rows & written & w' & Hrun & Htab' & Hall & Hincl & Hlen & Hle
              & Heq & Hquiet).
        exists rows, (stamp n x :: written), w'. rewrite Hrun.
        split; [reflexivity |].
        split; [rewrite Htab', Htab, <- app_assoc; reflexivity |].
        split.
        { constructor.
          - exists n, item, x. repeat split; auto. left; reflexivity.
          - apply built_from_all_cons. exact Hall. }
        split; [intros r Hr; right; apply Hincl; exact Hr |].
        split; [simpl; lia |].
        split; [simpl; lia |].
        split.
        { intros Hacc. destruct (Hacc x w) as (row & w2 & Hsome).
          rewrite Hins in Hsome. discriminate Hsome. }
        intros Hq. exfalso. specialize (Hq x w w1 Hins).
        rewrite Htab in Hq.
        apply (f_equal (@length A)) in Hq. rewrite length_app in Hq.
        simpl in Hq. lia.
      * unfold ret. destruct (IH acc w1)
          as (rows & written & w' & Hrun & Htab' & Hall & Hincl & Hlen & Hle
              & Heq & Hquiet).
        exists rows, written, w'. rewrite Hrun.
        split; [reflexivity |].
        split; [rewrite Htab', Htab; reflexivity |].
        split; [apply built_from_all_cons; exact Hall |].
        split; [exact Hincl |].
        split; [exact Hlen |].
        split; [simpl; lia |].
        split; [| exact Hquiet].
        intros Hacc. destruct (Hacc x w) as (row & w2 & Hsome).
        rewrite Hins in Hsome. discriminate Hsome.
    + unfold ret. destruct (IH acc w)
        as (rows & written & w' & Hrun & Htab' & Hall & Hincl & Hlen & Hle
            & Heq & Hquiet).
      exists rows, written, w'. rewrite Hrun.
      split; [reflexivity |].
      split; [exact Htab' |].
      split; [apply built_from_all_cons; exact Hall |].
      split; [exact Hincl |].
      split; [exact Hlen |].
      split; [exact Hle |]. split; [exact Heq | exact Hquiet].
Qed.

End ItemLoop.

Lemma insert_market_finding_spec E x w :
  (exists n w',
     insert_market_finding E x w = (Ok (Some (stored_finding E n x)), w')
     /\ market_findings (store w')
        = market_findings (store w) ++ [stored_finding E n x])
  \/ (exists n w',
        insert_market_finding E x w = (Ok None, w')
        /\ market_findings (store w')
           = market_findings (store w) ++ [stored_finding E n x])
  \/ (exists w',
        insert_market_finding E x w = (Ok None, w')
        /\ market_findings (store w') = market_findings (store w)).
Proof.
  unfold insert_market_finding, bind, next_db_op.
  destruct (store_ok E (db_ops w) (DbInsert (RowFinding x)));
    [destruct (store_replies E (db_ops w) (DbInsert (RowFinding x))) |].
  - left. eexists _, _. split; reflexivity.
  - right. left. eexists _, _. split; reflexivity.
  - right. right. eexists. split; reflexivity.
Qed.

Lemma insert_opportunity_spec E x w :
  (exists n w',
     insert_opportunity E x w = (Ok (Some (stored_opportunity E n x)), w')
     /\ opportunities (store w')
        = opportunities (store w) ++ [stored_opportunity E n x])
  \/ (exists n w',
        insert_opportunity E x w = (Ok None, w')
        /\ opportunities (store w')
           = opportunities (store w) ++ [stored_opportunity E n x])
  \/ (exists w',
        insert_opportunity E x w = (Ok None, w')
        /\ opportunities (store w') = opportunities (store w)).
Proof.
  unfold insert_opportunity, bind, next_db_op.
  destruct (store_ok E (db_ops w) (DbInsert (RowOpportunity x)));
    [destruct (store_replies E (db_ops w) (DbInsert (RowOpportunity x))) |].
  - left. eexists _, _. split; reflexivity.
  - right. left. eexists _, _. split; reflexivity.
  - right. right. eexists. split; reflexivity.
Qed.

Lemma insert_trend_spec E x w :
  (exists n w',
     insert_trend E x w = (Ok (Some (stored_trend E n x)), w')
     /\ trends (store w')
        = trends (store w) ++ [stored_trend E n x])
  \/ (exists n w',
        insert_trend E x w = (Ok None, w')
        /\ trends (store w')
           = trends (store w) ++ [stored_trend E n x])
  \/ (exists w',
        insert_trend E x w = (Ok None, w')
        /\ trends (store w') = trends (store w)).
Proof.
  unfold insert_trend, bind, next_db_op.
  destruct (store_ok E (db_ops w) (DbInsert (RowTrend x)));
    [destruct (store_replies E (db_ops w) (DbInsert (RowTrend x))) |].
  - left. eexists _, _. split; reflexivity.
  - right. left. eexists _, _. split; reflexivity.
  - right. right. eexists. split; reflexivity.
Qed.

Lemma insert_market_finding_accepts E :
  store_accepts_inserts E ->
  forall x w, exists row w', insert_market_finding E x w = (Ok (Some row), w').
Proof.
  intros Hacc x w. unfold insert_market_finding, bind, next_db_op.
  destruct (Hacc (db_ops w) (RowFinding x)) as [Hok Hreply].
  rewrite Hok. simpl. rewrite Hreply. eexists _, _. reflexivity.
Qed.

Lemma insert_opportunity_accepts E :
  store_accepts_inserts E ->
  forall x w, exists row w', insert_opportunity E x w = (Ok (Some row), w').
Proof.
  intros Hacc x w. unfold insert_opportunity, bind, next_db_op.
  destruct (Hacc (db_ops w) (RowOpportunity x)) as [Hok Hreply].
  rewrite Hok. simpl. rewrite Hreply. eexists _, _. reflexivity.
Qed.

Lemma insert_trend_accepts E :
  store_accepts_inserts E ->
  forall x w, exists row w', insert_trend E x w = (Ok (Some row), w').
Proof.
  intros Hacc x w. unfold insert_trend, bind, next_db_op.
  destruct (Hacc (db_ops w) (RowTrend x)) as [Hok Hreply].
  rewrite Hok. simpl. rewrite Hreply. eexists _, _. reflexivity.
Qed.

Lemma insert_market_finding_quiet E :
  replies_arrive E ->
  forall x w0 w1,
    insert_market_finding E x w0 = (Ok None, w1) ->
    market_findings (store w1) = market_findings (store w0).
Proof.
  intros Hrep x w0 w1. unfold insert_market_finding, bind, next_db_op.
  destruct (store_ok E (db_ops w0) (DbInsert (RowFinding x))).
  - simpl. rewrite Hrep. intros H; discriminate H.
  - intros H; inversion H; reflexivity.
Qed.

Lemma insert_trend_quiet E :
  replies_arrive E ->
  forall x w0 w1,
    insert_trend E x w0 = (Ok None, w1) ->
    trends (store w1) = trends (store w0).
Proof.
  intros Hrep x w0 w1. unfold insert_trend, bind, next_db_op.
  destruct (store_ok E (db_ops w0) (DbInsert (RowTrend x))).
  - simpl. rewrite Hrep. intros H; discriminate H.
  - intros H; inversion H; reflexivity.
Qed.

(** The three loops of the stages are instances of the common shape. *)
Lemma store_finding_shape E :
  store_finding E = store_item (build_market_finding E) (insert_market_finding E).
Proof. reflexivity. Qed.

Lemma store_opportunity_shape E :
  store_opportunity E = store_item (build_opportunity E) (insert_opportunity E).
Proof. reflexivity. Qed.

Lemma store_trend_shape E :
  store_trend E = store_item (build_trend E) (insert_trend E).
Proof. reflexivity. Qed.
(** ** Running a call inside a program *)

Lemma bind_Ok_run A B (m : M A) (k : A -> M B) w a w1 :
  m w = (Ok a, w1) -> bind m k w = k a w1.
Proof. intros H. unfold bind. rewrite H. reflexivity. Qed.

Lemma bind_Raise_run A B (m : M A) (k : A -> M B) w e w1 :
  m w = (Raise e, w1) -> bind m k w = (Raise e, w1).
Proof. intros H. unfold bind. rewrite H. reflexivity. Qed.

Lemma llm_invoke_content E p w content parsed :
  llm E (llm_calls w) p = LlmContent content parsed ->
  exists w1,
    llm_invoke E p w = (Ok (content, parsed), w1)
    /\ store w1 = store w /\ outbox w1 = outbox w.
Proof.
  intros H. unfold llm_invoke. rewrite H. eexists. repeat split.
Qed.

Lemma llm_invoke_raises E p w e :
  llm E (llm_calls w) p = LlmRaises e ->
  exists w1,
    llm_invoke E p w = (Raise e, w1)
    /\ store w1 = store w /\ outbox w1 = outbox w.
Proof.
  intros H. unfold llm_invoke. rewrite H. eexists. repeat split.
Qed.

(** ** The Trend and Synthesis stages on well-formed responses *)

Lemma get_market_findings_reads E limit category start_date w :
  exists rows w1,
    get_market_findings E limit category start_date w = (Ok rows, w1)
    /\ store w1 = store w.
Proof.
  unfold get_market_findings, bind, next_db_op.
  destruct (store_ok E (db_ops w) (DbSelect "market_findings"));
    eexists _, _; split; reflexivity.
Qed.

Lemma get_competitor_updates_reads E company_name limit w :
  exists rows w1,
    get_competitor_updates E company_name limit w = (Ok rows, w1)
    /\ store w1 = store w.
Proof.
  unfold get_competitor_updates, bind, next_db_op.
  destruct (store_ok E (db_ops w) (DbSelect "competitor_updates"));
    eexists _, _; split; reflexivity.
Qed.

Lemma get_opportunities_reads E min_score limit w :
  exists rows w1,
    get_opportunities E min_score limit w = (Ok rows, w1)
    /\ store w1 = store w.
Proof.
  unfold get_opportunities, bind, next_db_op.
  destruct (store_ok E (db_ops w) (DbSelect "opportunities"));
    eexists _, _; split; reflexivity.
Qed.

Lemma get_trends_reads E category min_momentum limit w :
  exists rows w1,
    get_trends E category min_momentum limit w = (Ok rows, w1)
    /\ store w1 = store w.
Proof.
  unfold get_trends, bind, next_db_op.
  destruct (store_ok E (db_ops w) (DbSelect "trends"));
    eexists _, _; split; reflexivity.
Qed.

(** Runs the next call of a program with a lemma of the form
    [exists a w1, call w = (Ok a, w1) /\ store w1 = store w]. *)
Ltac run_read lem :=
  let rows := fresh "rows" in
  let w1 := fresh "w" in
  let Hrun := fresh "Hrun" in
  let Hst := fresh "Hst" in
  match goal with
  | |- context [bind ?m _ ?w] =>
      destruct (lem w) as (rows & w1 & Hrun & Hst);
      erewrite bind_Ok_run by exact Hrun
  end.

Lemma trend_stage_on_trends E w content d items :
  (forall n hf ho ct,
     llm E n (TrendPrompt hf ho ct) = LlmContent content (Some (PDict d))) ->
  assoc "trends" d = Some (PList items) ->
  exists res w' rows written,
    analyze_market_trends E w = (Ok res, w')
    /\ tres_error res = None
    /\ tres_trends_identified res = length rows
    /\ tres_key_trends res = Some rows
    /\ trends (store w') = trends (store w) ++ written
    /\ Forall (built_from (build_trend E) (stored_trend E) items) written
    /\ incl rows written
    /\ length rows <= length written
    /\ length written <= count_valid (build_trend E) items
    /\ (store_accepts_inserts E ->
        rows = written /\ length rows = count_valid (build_trend E) items).
Proof.
  intros Hllm Htrends.
  unfold analyze_market_trends, try_except. cbv zeta.
  run_read (get_market_findings_reads E 100 None (Some (today E - 180)%Z)).
  run_read (get_opportunities_reads E None 50).
  unfold analyze_trend_patterns, try_except. cbv zeta.
  match goal with
  | |- context [llm_invoke E (TrendPrompt ?a ?b ?c)] =>
      destruct (llm_invoke_content E _ w1 (Hllm (llm_calls w1) a b c))
        as (w2 & Hcall & Hst2 & _)
  end.
  unfold bind at 1. erewrite bind_Ok_run by exact Hcall.
  cbn [bind lift json_loads snd get rbind]. rewrite Htrends.
  cbn [with_default iter bind lift].
  destruct (item_loop (build_trend E) (insert_trend E)
              (stored_trend E) (fun w => trends (store w))
              (insert_trend_spec E) items [] w2)
    as (stored & written & w' & Hloop & Htab & Hall & Hincl & Hlen & Hle
        & Heq & _).
  rewrite store_trend_shape.
  erewrite bind_Ok_run by exact Hloop.
  cbn [bind lift get ret app].
  eexists _, w', stored, written. split; [reflexivity |]. simpl.
  repeat split; auto;
    try (rewrite Htab, Hst2, Hst0, Hst; reflexivity);
    match goal with
    | Hacc : store_accepts_inserts E |- _ =>
        destruct (Heq (insert_trend_accepts Hacc)); assumption
    end.
Qed.

Lemma synthesis_stage_on_opportunities E w c1 sd c2 od items :
  (forall n fs us ts os,
     llm E n (SynthesisPrompt fs us ts os) = LlmContent c1 (Some (PDict sd))) ->
  (forall n analysis,
     llm E n (OpportunityPrompt analysis) = LlmContent c2 (Some (PDict od))) ->
  assoc "opportunities" od = Some (PList items) ->
  exists res w' rows written,
    generate_strategic_analysis E w = (Ok res, w')
    /\ sr_error res = None
    /\ sr_new_opportunities res = length rows
    /\ sr_top_opportunities res = Some (firstn 5 rows)
    /\ opportunities (store w') = opportunities (store w) ++ written
    /\ Forall (built_from (build_opportunity E) (stored_opportunity E) items) written
    /\ incl rows written
    /\ length rows <= length written
    /\ length written <= count_valid (build_opportunity E) items
    /\ (store_accepts_inserts E ->
        rows = written /\ length rows = count_valid (build_opportunity E) items).
Proof.
  intros Hsyn Hopp Hitems.
  unfold generate_strategic_analysis, try_except. cbv zeta.
  run_read (get_market_findings_reads E 30 None (Some (today E - 30)%Z)).
  run_read (get_competitor_updates_reads E None 20).
  run_read (get_trends_reads E None (Some (4 # 10)%Q) 15).
  run_read (get_opportunities_reads E None 10).
  unfold synthesize_intelligence, try_except. cbv zeta.
  match goal with
  | |- context [llm_invoke E (SynthesisPrompt ?a ?b ?c ?d)] =>
      destruct (llm_invoke_content E _ w3 (Hsyn (llm_calls w3) a b c d))
        as (w4 & Hcall & Hst4 & _)
  end.
  unfold bind at 1. erewrite bind_Ok_run by exact Hcall.
  cbn [bind lift json_loads snd].
  unfold identify_opportunities, try_except. cbv zeta.
  destruct (llm_invoke_content E _ w4 (Hopp (llm_calls w4) (PDict sd)))
    as (w5 & Hcall5 & Hst5 & _).
  unfold bind at 1. erewrite bind_Ok_run by exact Hcall5.
  cbn [bind lift json_loads snd get rbind]. rewrite Hitems.
  cbn [with_default iter bind lift].
  destruct (item_loop (build_opportunity E) (insert_opportunity E)
              (stored_opportunity E) (fun w => opportunities (store w))
              (insert_opportunity_spec E) items [] w5)
    as (stored & written & w' & Hloop & Htab & Hall & Hincl & Hlen & Hle
        & Heq & _).
  rewrite store_opportunity_shape.
  erewrite bind_Ok_run by exact Hloop.
  cbn [bind lift get ret app].
  eexists _, w', stored, written. split; [reflexivity |]. simpl.
  repeat split; auto;
    try (rewrite Htab, Hst5, Hst4, Hst2, Hst1, Hst0, Hst; reflexivity);
    match goal with
    | Hacc : store_accepts_inserts E |- _ =>
        destruct (Heq (insert_opportunity_accepts Hacc)); assumption
    end.
Qed.
(** ** Items of the expected shape are accepted when their score is in range *)

Lemma Priority_of_value p : Priority_of (PStr (Priority_value p)) = Ok p.
Proof. destruct p; reflexivity. Qed.

Lemma Category_of_value c : Category_of (PStr (Category_value c)) = Ok c.
Proof. destruct c; reflexivity. Qed.

(** Whether an Opportunity is built from such an item is decided by the
    range check on the score alone, and the record built carries the
    fields of the item. *)
Lemma build_opportunity_on_item E i :
  build_opportunity E (opportunity_json i)
  = rbind (v_unit_interval (oi_score i)) (fun q => Ok (opportunity_of i q)).
Proof.
  unfold build_opportunity, opportunity_json, new_Opportunity.
  cbn [get assoc String.eqb Ascii.eqb Bool.eqb with_default rbind slice_to
       to_float v_str v_opt_str andb].
  rewrite Priority_of_value. cbn [rbind].
  rewrite v_max_length_take. cbn [rbind].
  destruct (v_unit_interval (oi_score i)); reflexivity.
Qed.

Lemma build_trend_on_item E i :
  build_trend E (trend_json i)
  = rbind (v_unit_interval (ti_momentum_score i))
      (fun q => Ok (trend_of E i q)).
Proof.
  unfold build_trend, trend_json, new_Trend.
  cbn [get assoc String.eqb Ascii.eqb Bool.eqb with_default rbind slice_to
       to_float v_str v_opt_str v_dict andb].
  rewrite Category_of_value. cbn [rbind].
  rewrite v_max_length_take. cbn [rbind].
  destruct (v_unit_interval (ti_momentum_score i)); reflexivity.
Qed.

Lemma v_unit_interval_is_ok f :
  is_ok (v_unit_interval f) = in_unit_interval f.
Proof.
  unfold v_unit_interval, in_unit_interval.
  destruct f as [q | | |]; simpl; try reflexivity.
  destruct (Qle_bool 0 q && Qle_bool q 1); reflexivity.
Qed.

Lemma v_unit_interval_in_range q :
  (0 <= q)%Q -> (q <= 1)%Q -> v_unit_interval (FFin q) = Ok q.
Proof.
  intros H0 H1. unfold v_unit_interval.
  change (float_ge (FFin q) (FFin 0%Q) && float_le (FFin q) (FFin 1%Q))
    with (in_unit_interval (FFin q)).
  rewrite (in_unit_interval_FFin H0 H1). reflexivity.
Qed.

Lemma is_ok_rbind_total A B (r : result A) (f : A -> B) :
  is_ok (rbind r (fun a => Ok (f a))) = is_ok r.
Proof. destruct r; reflexivity. Qed.

Lemma count_valid_opportunity_items E (items : list OpportunityItem) :
  count_valid (build_opportunity E) (map opportunity_json items)
  = count_in_range oi_score items.
Proof.
  unfold count_valid, count_in_range.
  induction items as [| i items IH]; simpl; [reflexivity |].
  rewrite build_opportunity_on_item, is_ok_rbind_total, v_unit_interval_is_ok.
  destruct (in_unit_interval (oi_score i)); simpl; rewrite IH; reflexivity.
Qed.

Lemma count_valid_trend_items E (items : list TrendItem) :
  count_valid (build_trend E) (map trend_json items)
  = count_in_range ti_momentum_score items.
Proof.
  unfold count_valid, count_in_range.
  induction items as [| i items IH]; simpl; [reflexivity |].
  rewrite build_trend_on_item, is_ok_rbind_total, v_unit_interval_is_ok.
  destruct (in_unit_interval (ti_momentum_score i)); simpl; rewrite IH;
    reflexivity.
Qed.

(** ** What the Competitor and Synthesis stages report *)

Lemma lift_inv A (r : result A) w a w' :
  lift r w = (Ok a, w') -> r = Ok a /\ w' = w.
Proof. unfold lift. intros H; inversion H; split; reflexivity. Qed.

Lemma store_update_shape E name :
  store_update E name
  = store_item (build_competitor_update E name) (insert_competitor_update E).
Proof. reflexivity. Qed.

Lemma insert_competitor_update_spec E x w :
  (exists n w',
     insert_competitor_update E x w = (Ok (Some (stored_update n x)), w')
     /\ competitor_updates (store w')
        = competitor_updates (store w) ++ [stored_update n x])
  \/ (exists n w',
        insert_competitor_update E x w = (Ok None, w')
        /\ competitor_updates (store w')
           = competitor_updates (store w) ++ [stored_update n x])
  \/ (exists w',
        insert_competitor_update E x w = (Ok None, w')
        /\ competitor_updates (store w') = competitor_updates (store w)).
Proof.
  unfold insert_competitor_update, bind, next_db_op.
  destruct (store_ok E (db_ops w) (DbInsert (RowUpdate x)));
    [destruct (store_replies E (db_ops w) (DbInsert (RowUpdate x))) |].
  - left. eexists _, _. split; reflexivity.
  - right. left. eexists _, _. split; reflexivity.
  - right. right. eexists. split; reflexivity.
Qed.

Lemma preserves_store_analyze_competitor_updates E name text :
  preserves store (analyze_competitor_updates E name text).
Proof. unfold analyze_competitor_updates. frame. Qed.

Lemma preserves_store_analyze_competitive_landscape E analyses :
  preserves store (analyze_competitive_landscape E analyses).
Proof. unfold analyze_competitive_landscape. frame. Qed.

Lemma preserves_store_synthesize_intelligence E fs us ts os :
  preserves store (synthesize_intelligence E fs us ts os).
Proof. unfold synthesize_intelligence. frame. Qed.

Lemma preserves_store_identify_opportunities E analysis :
  preserves store (identify_opportunities E analysis).
Proof. unfold identify_opportunities. frame. Qed.

(** From a run [m w = (r, w')] of a program that preserves the store. *)
Lemma preserved_run A (m : M A) w r w' :
  preserves store m -> m w = (r, w') -> store w' = store w.
Proof. intros Hp Hrun. specialize (Hp w). rewrite Hrun in Hp. exact Hp. Qed.
Arguments preserved_run : clear implicits.

Lemma monitor_one_appends E acc competitor w acc1 w1 :
  monitor_one E acc competitor w = (Ok acc1, w1) ->
  exists rows written,
    fst acc1 = fst acc ++ rows
    /\ competitor_updates (store w1) = competitor_updates (store w) ++ written
    /\ incl rows written.
Proof.
  unfold monitor_one. cbv zeta.
  destruct (String.eqb (strip competitor) "").
  - intros H. apply ret_inv in H. destruct H; subst.
    exists [], []. rewrite !app_nil_r.
    split; [reflexivity |]. split; [reflexivity | apply incl_refl].
  - intros H.
    apply bind_Ok_inv in H. destruct H as (analysis & wa & Ha & H).
    apply bind_Ok_inv in H. destruct H as (updates_v & wb & Hb & H).
    apply lift_inv in Hb. destruct Hb as [_ ->].
    apply bind_Ok_inv in H. destruct H as (items & wc & Hc & H).
    apply lift_inv in Hc. destruct Hc as [_ ->].
    apply bind_Ok_inv in H. destruct H as (all_updates & wd & Hloop & H).
    apply ret_inv in H. destruct H as [<- <-].
    destruct (item_loop (build_competitor_update E (strip competitor))
                (insert_competitor_update E) stored_update
                (fun w => competitor_updates (store w))
                (insert_competitor_update_spec E) items (fst acc) wa)
      as (rows & written & w' & Hrun & Htab & _ & Hincl & _).
    rewrite store_update_shape in Hloop. rewrite Hrun in Hloop.
    inversion Hloop; subst. exists rows, written. split; [reflexivity |].
    split; [| exact Hincl].
    rewrite Htab.
    rewrite (preserved_run _ _ _ _ _ (preserves_store_analyze_competitor_updates E _ _) Ha).
    reflexivity.
Qed.

Lemma monitor_loop_appends E names :
  forall acc w acc1 w1,
    for_each names acc (monitor_one E) w = (Ok acc1, w1) ->
    exists rows written,
      fst acc1 = fst acc ++ rows
      /\ competitor_updates (store w1)
         = competitor_updates (store w) ++ written
      /\ incl rows written.
Proof.
  induction names as [| name names IH]; intros acc w acc1 w1 H; simpl in H.
  - apply ret_inv in H. destruct H; subst.
    exists [], []. rewrite !app_nil_r.
    split; [reflexivity |]. split; [reflexivity | apply incl_refl].
  - apply bind_Ok_inv in H. destruct H as (acc0 & w0 & Hone & H).
    apply monitor_one_appends in Hone.
    destruct Hone as (rows0 & written0 & Hacc0 & Ht0 & Hin0).
    apply IH in H. destruct H as (rows1 & written1 & Hacc1 & Ht1 & Hin1).
    exists (rows0 ++ rows1), (written0 ++ written1).
    rewrite Hacc1, Hacc0, Ht1, Ht0, !app_assoc.
    split; [reflexivity |]. split; [reflexivity |].
    apply incl_app; [apply incl_appl | apply incl_appr]; assumption.
Qed.

(** The Competitor stage reports either an error and no threats, or
    the threats among exactly the updates the store returned to it;
    these are among the updates the stage has written. *)
Lemma competitor_stage_reports E w res w' :
  monitor_competitors E w = (Ok res, w') ->
  (exists e, cr_error res = Some e /\ cr_critical_threats res = None)
  \/ (exists us,
        cr_error res = None
        /\ cr_critical_threats res = Some (identify_critical_threats us)
        /\ cr_updates_found res = length us
        /\ exists written,
             competitor_updates (store w')
             = competitor_updates (store w) ++ written
             /\ incl us written).
Proof.
  unfold monitor_competitors. intros H.
  apply try_except_inv in H.
  destruct H as [(res0 & Hbody & Hres) | (e & w1 & _ & Hhandler)].
  - right. inversion Hres; subst res0; clear Hres.
    apply bind_Ok_inv in Hbody. destruct Hbody as (acc & w1 & Hloop & H).
    cbv zeta in H.
    apply bind_Ok_inv in H. destruct H as (landscape & w2 & Hland & H).
    apply bind_Ok_inv in H. destruct H as (recs & w3 & Hget & H).
    apply lift_inv in Hget. destruct Hget as [_ ->].
    apply ret_inv in H. destruct H as [<- <-].
    apply monitor_loop_appends in Hloop.
    destruct Hloop as (rows & written & Hacc & Ht & Hincl).
    simpl in Hacc. exists rows. simpl. rewrite Hacc.
    split; [reflexivity |]. split; [reflexivity |]. split; [reflexivity |].
    exists written. split; [| exact Hincl].
    rewrite (preserved_run _ _ _ _ _ (preserves_store_analyze_competitive_landscape E _) Hland).
    exact Ht.
  - left. apply ret_inv in Hhandler. destruct Hhandler as [<- _].
    exists e. split; reflexivity.
Qed.

(** The Synthesis stage reports either an error and no opportunities,
    or the first five of exactly the opportunities the store returned
    to it; these are among the opportunities the stage has written. *)
Lemma synthesis_stage_reports E w res w' :
  generate_strategic_analysis E w = (Ok res, w') ->
  (exists e, sr_error res = Some e /\ sr_top_opportunities res = None)
  \/ (exists os,
        sr_error res = None
        /\ sr_top_opportunities res = Some (firstn 5 os)
        /\ sr_new_opportunities res = length os
        /\ exists written,
             opportunities (store w') = opportunities (store w) ++ written
             /\ incl os written).
Proof.
  unfold generate_strategic_analysis. intros H.
  apply try_except_inv in H.
  destruct H as [(res0 & Hbody & Hres) | (e & w1 & _ & Hhandler)].
  - right. inversion Hres; subst res0; clear Hres.
    apply bind_Ok_inv in Hbody. destruct Hbody as (fs & w1 & H1 & H).
    apply bind_Ok_inv in H. destruct H as (us & w2 & H2 & H).
    apply bind_Ok_inv in H. destruct H as (ts & w3 & H3 & H).
    apply bind_Ok_inv in H. destruct H as (eo & w4 & H4 & H).
    apply bind_Ok_inv in H. destruct H as (sa & w5 & H5 & H).
    apply bind_Ok_inv in H. destruct H as (ov & w6 & H6 & H).
    apply bind_Ok_inv in H. destruct H as (items & w7 & H7 & H).
    apply lift_inv in H7. destruct H7 as [_ ->].
    apply bind_Ok_inv in H. destruct H as (stored & w8 & Hloop & H).
    repeat (apply bind_Ok_inv in H;
            let v := fresh "v" in
            let wv := fresh "wv" in
            let Hv := fresh "Hv" in
            destruct H as (v & wv & Hv & H);
            apply lift_inv in Hv; destruct Hv as [_ ->]).
    apply ret_inv in H. destruct H as [<- <-].
    destruct (item_loop (build_opportunity E) (insert_opportunity E)
                (stored_opportunity E) (fun w => opportunities (store w))
                (insert_opportunity_spec E) items [] w6)
      as (rows & written & wl & Hrun & Htab & _ & Hincl & _).
    rewrite store_opportunity_shape in Hloop. rewrite Hrun in Hloop.
    simpl app in Hloop.
    assert (Heq : rows = stored /\ wl = w8) by (inversion Hloop; auto).
    destruct Heq as [-> ->]. exists stored. simpl.
    split; [reflexivity |]. split; [reflexivity |]. split; [reflexivity |].
    exists written. split; [| exact Hincl]. rewrite Htab.
    rewrite (preserved_run _ _ _ _ _ (preserves_store_identify_opportunities E _) H6).
    rewrite (preserved_run _ _ _ _ _ (preserves_store_synthesize_intelligence E _ _ _ _) H5).
    rewrite (preserved_run _ _ _ _ _ (preserves_get_opportunities E _ _) H4).
    rewrite (preserved_run _ _ _ _ _ (preserves_get_trends E _ _ _) H3).
    rewrite (preserved_run _ _ _ _ _ (preserves_get_competitor_updates E _ _) H2).
    rewrite (preserved_run _ _ _ _ _ (preserves_get_market_findings E _ _ _) H1).
    reflexivity.
  - left. apply ret_inv in Hhandler. destruct Hhandler as [<- _].
    exists e. split; reflexivity.
Qed.

(** C3, as the code has it.  The alerts of [_identify_critical_alerts]
    are, in title, impact and source, those of the reference definition
    applied to the records the report of the run carries, whatever the
    report: the competitor rule first, then the opportunity rule, one
    alert per matching record; a stage result that is missing or is an
    error result carries no record, and the other rule still fires.
    The result of the Competitor stage carries all the updates the
    store returned to the stage, unless it is an error result; the
    result of the Synthesis stage carries the first five of the
    opportunities the store returned to the stage, unless it is an
    error result.  What a stage result carries was written to the
    store by the stage. *)
Theorem C3_alerts_refine_reference_on_top_five :
  (forall (results : Results)
          (us : list CompetitorUpdate) (os : list Opportunity),
     carries_updates results us ->
     carries_opportunities results os ->
     map alert_view (identify_critical_alerts results)
     = evaluate_reference us os)
  /\ (forall E w res w',
        monitor_competitors E w = (Ok res, w') ->
        (exists e, cr_error res = Some e /\ cr_critical_threats res = None)
        \/ (exists us,
              cr_error res = None
              /\ cr_critical_threats res = Some (identify_critical_threats us)
              /\ cr_updates_found res = length us
              /\ exists written,
                   competitor_updates (store w')
                   = competitor_updates (store w) ++ written
                   /\ incl us written))
  /\ (forall E w res w',
        generate_strategic_analysis E w = (Ok res, w') ->
        (exists e, sr_error res = Some e /\ sr_top_opportunities res = None)
        \/ (exists os,
              sr_error res = None
              /\ sr_top_opportunities res = Some (firstn 5 os)
              /\ sr_new_opportunities res = length os
              /\ exists written,
                   opportunities (store w')
                   = opportunities (store w) ++ written
                   /\ incl os written)).
Proof.
  split; [| split].
  - intros results us os Hus Hos.
    unfold carries_updates in Hus. unfold carries_opportunities in Hos.
    unfold identify_critical_alerts, evaluate_reference.
    rewrite map_app. f_equal.
    + destruct (rs_competitor_intelligence results) as [cr |];
        [destruct (cr_critical_threats cr) as [threats |] |];
        subst; simpl with_default; [apply threat_alerts_refine | |];
        reflexivity.
    + destruct (rs_strategic_synthesis results) as [sr |];
        [destruct (sr_top_opportunities sr) as [top |] |];
        subst; simpl with_default; [apply opportunity_alerts_refine | |];
        reflexivity.
  - apply competitor_stage_reports.
  - apply synthesis_stage_reports.
Qed.

(** On the report with one critical update and one opportunity of score
    0.95 and priority high the evaluator returns the two alerts of the
    reference, the competitor one first; on the report in which the
    Competitor stage failed it returns the alert of the opportunity. *)
Lemma C3_witness :
  (map alert_view (identify_critical_alerts two_alert_report)
   = evaluate_reference [critical_update] [high_value_opportunity]
   /\ map al_title (identify_critical_alerts two_alert_report)
      = ["Critical Competitive Threat: Rival";
         "High-Value Opportunity: Integration services"])
  /\ (map alert_view (identify_critical_alerts one_stage_failed_report)
      = evaluate_reference [] [high_value_opportunity]
      /\ map al_title (identify_critical_alerts one_stage_failed_report)
         = ["High-Value Opportunity: Integration services"]).
Proof.
  split; split.
  - apply (proj1 C3_alerts_refine_reference_on_top_five two_alert_report
             [critical_update] [high_value_opportunity]);
      reflexivity.
  - vm_compute. reflexivity.
  - apply (proj1 C3_alerts_refine_reference_on_top_five
             one_stage_failed_report [] [high_value_opportunity]);
      reflexivity.
  - vm_compute. reflexivity.
Defined.

(** C3 does not hold as stated.  In the first scenario the run persists
    six opportunities, the sixth has score 0.95 and priority high, the
    reference definition gives one alert for it, and the evaluator
    gives none because the report carries the first five only.  In the
    second scenario the Competitor stage persists an update of critical
    impact and then fails on the landscape analysis; its error result
    carries no threat, and the evaluator gives no alert for the
    update. *)
Lemma C3_counterexample :
  (exists results,
     fst six_opportunity_run = Ok results
     /\ length (opportunities (store (snd six_opportunity_run))) = 6
     /\ identify_critical_alerts results = []
     /\ evaluate_reference
          (competitor_updates (store (snd six_opportunity_run)))
          (opportunities (store (snd six_opportunity_run)))
        = [{| sa_title := "High-Value Opportunity: F";
              sa_impact := "high";
              sa_source := "Strategic Analysis" |}]
     /\ map alert_view (identify_critical_alerts results)
        <> evaluate_reference
             (competitor_updates (store (snd six_opportunity_run)))
             (opportunities (store (snd six_opportunity_run))))
  /\ (exists results,
        fst broken_landscape_run = Ok results
        /\ map cu_impact_level
             (competitor_updates (store (snd broken_landscape_run)))
           = [CRITICAL]
        /\ identify_critical_alerts results = []
        /\ evaluate_reference
             (competitor_updates (store (snd broken_landscape_run)))
             (opportunities (store (snd broken_landscape_run)))
           = [{| sa_title := "Critical Competitive Threat: Rival";
                 sa_impact := "critical";
                 sa_source := "Competitive Intelligence" |}]).
Proof.
  split.
  - eexists. split; [vm_compute; reflexivity |].
    split; [vm_compute; reflexivity |].
    split; [vm_compute; reflexivity |].
    split; [vm_compute; reflexivity |].
    vm_compute. discriminate.
  - eexists. split; [vm_compute; reflexivity |].
    split; [vm_compute; reflexivity |].
    split; [vm_compute; reflexivity |].
    vm_compute. reflexivity.
Qed.
(** ** Scores and lengths *)

Lemma count_valid_map_ext A B (build : pyval -> result A) (f g : B -> pyval)
  (l : list B) :
  (forall x, is_ok (build (f x)) = is_ok (build (g x))) ->
  count_valid build (map f l) = count_valid build (map g l).
Proof.
  intros Hext. unfold count_valid.
  induction l as [| x l IH]; simpl; [reflexivity |].
  rewrite (Hext x). destruct (is_ok (build (g x))); simpl; rewrite IH;
    reflexivity.
Qed.

Lemma build_opportunity_in_range E i q :
  oi_score i = FFin q -> (0 <= q)%Q -> (q <= 1)%Q ->
  build_opportunity E (opportunity_json i) = Ok (opportunity_of i q).
Proof.
  intros Hs H0 H1.
  rewrite build_opportunity_on_item, Hs, (v_unit_interval_in_range H0 H1).
  reflexivity.
Qed.

Lemma build_trend_in_range E i q :
  ti_momentum_score i = FFin q -> (0 <= q)%Q -> (q <= 1)%Q ->
  build_trend E (trend_json i) = Ok (trend_of E i q).
Proof.
  intros Hs H0 H1.
  rewrite build_trend_on_item, Hs, (v_unit_interval_in_range H0 H1).
  reflexivity.
Qed.





(** ** Stage failures *)

Lemma try_except_total A (body : M A) (recover : exn -> A) :
  never_raises (try_except body (fun e => ret (recover e))).
Proof.
  intros w. unfold try_except, ret.
  destruct (body w) as [[a | e] w1]; eexists _, _; reflexivity.
Qed.

Lemma gather_market_intelligence_total E :
  never_raises (gather_market_intelligence E).
Proof. unfold gather_market_intelligence. apply try_except_total. Qed.

Lemma monitor_competitors_total E : never_raises (monitor_competitors E).
Proof. unfold monitor_competitors. apply try_except_total. Qed.

Lemma analyze_market_trends_total E : never_raises (analyze_market_trends E).
Proof. unfold analyze_market_trends. apply try_except_total. Qed.

Lemma generate_strategic_analysis_total E :
  never_raises (generate_strategic_analysis E).
Proof. unfold generate_strategic_analysis. apply try_except_total. Qed.

Lemma market_stage_on_unusable_reply E w :
  (forall a b c,
     market_reply_unusable (llm E (llm_calls w) (MarketPrompt a b c))) ->
  exists res w' e,
    gather_market_intelligence E w = (Ok res, w')
    /\ mr_error res = Some e
    /\ mr_findings_count res = 0
    /\ store w' = store w.
Proof.
  intros Hbad.
  unfold gather_market_intelligence, try_except. cbv zeta.
  match goal with
  | |- context [llm_invoke E (MarketPrompt ?a ?b ?c)] =>
      specialize (Hbad a b c);
      destruct (llm E (llm_calls w) (MarketPrompt a b c))
        as [e | content [v |]] eqn:Hreply
  end.
  - destruct (llm_invoke_raises E _ w Hreply) as (w1 & Hcall & Hst & _).
    erewrite bind_Raise_run by exact Hcall.
    eexists _, w1, e. repeat split. exact Hst.
  - destruct (llm_invoke_content E _ w Hreply) as (w1 & Hcall & Hst & _).
    erewrite bind_Ok_run by exact Hcall.
    cbn [bind lift json_loads snd].
    destruct v as [| b | z | f | s | l | d];
      try (cbn [get]; eexists _, w1, _; repeat split; exact Hst).
    simpl in Hbad. cbn [get].
    destruct (iter (with_default (PList []) (assoc "findings" d)))
      as [items | e] eqn:Hiter; [discriminate Hbad |].
    eexists _, w1, e. repeat split. exact Hst.
  - destruct (llm_invoke_content E _ w Hreply) as (w1 & Hcall & Hst & _).
    erewrite bind_Ok_run by exact Hcall.
    cbn [bind lift json_loads snd].
    eexists _, w1, _. repeat split. exact Hst.
Qed.

(** The helper of a stage that asks the completion service and reads
    the answer as JSON falls back on its default when the call throws
    or the answer is not JSON. *)
Lemma completion_fallback E p (fallback : pyval) w :
  reply_unusable (llm E (llm_calls w) p) ->
  exists w1,
    try_except
      (bind (llm_invoke E p) (fun response => lift (json_loads response)))
      (fun _ => ret fallback) w
    = (Ok fallback, w1)
    /\ store w1 = store w.
Proof.
  intros Hbad. unfold try_except, bind, llm_invoke.
  destruct (llm E (llm_calls w) p) as [e | content [v |]]; simpl in *.
  - eexists. split; reflexivity.
  - contradiction.
  - eexists. split; reflexivity.
Qed.

Section AllCallsFail.
Variable E : Ext.
Hypothesis all_unusable : forall n p, reply_unusable (llm E n p).

Lemma monitor_one_fallback acc competitor w :
  exists analyses w1,
    monitor_one E acc competitor w = (Ok (fst acc, analyses), w1)
    /\ store w1 = store w.
Proof.
  unfold monitor_one. cbv zeta.
  destruct (String.eqb (strip competitor) "").
  - exists (snd acc), w. destruct acc. split; reflexivity.
  - unfold analyze_competitor_updates.
    match goal with
    | |- context [try_except _ (fun _ => ret ?fb)] =>
        destruct (completion_fallback E
                    (CompetitorPrompt (strip competitor)
                       (search_competitor_updates E (strip competitor) 30))
                    fb w (all_unusable _ _))
          as (w1 & Hrun & Hst)
    end.
    erewrite bind_Ok_run by exact Hrun.
    eexists _, w1. split; [reflexivity | exact Hst].
Qed.

Lemma monitor_loop_fallback names :
  forall acc w,
  exists analyses w1,
    for_each names acc (monitor_one E) w = (Ok (fst acc, analyses), w1)
    /\ store w1 = store w.
Proof.
  induction names as [| name names IH]; intros acc w; simpl.
  - exists (snd acc), w. destruct acc. split; reflexivity.
  - destruct (monitor_one_fallback acc name w) as (an1 & w1 & Hrun & Hst).
    erewrite bind_Ok_run by exact Hrun.
    destruct (IH (fst acc, an1) w1) as (an2 & w2 & Hrun2 & Hst2).
    exists an2, w2. split; [exact Hrun2 | congruence].
Qed.

Lemma competitor_stage_when_calls_fail w :
  exists res w',
    monitor_competitors E w = (Ok res, w')
    /\ cr_error res = None
    /\ cr_updates_found res = 0
    /\ store w' = store w.
Proof.
  unfold monitor_competitors, try_except.
  destruct (monitor_loop_fallback (competitors E) ([], []) w)
    as (analyses & w1 & Hrun & Hst).
  erewrite bind_Ok_run by exact Hrun. cbv zeta.
  unfold analyze_competitive_landscape.
  match goal with
  | |- context [try_except _ (fun _ => ret ?fb)] =>
      destruct (completion_fallback E (LandscapePrompt analyses) fb w1
                  (all_unusable _ _))
        as (w2 & Hrun2 & Hst2)
  end.
  simpl snd.
  erewrite bind_Ok_run by exact Hrun2.
  eexists _, w2. split; [reflexivity |]. simpl.
  repeat split. congruence.
Qed.

Lemma trend_stage_when_calls_fail w :
  exists res w',
    analyze_market_trends E w = (Ok res, w')
    /\ tres_error res = None
    /\ tres_trends_identified res = 0
    /\ store w' = store w.
Proof.
  unfold analyze_market_trends, try_except. cbv zeta.
  run_read (get_market_findings_reads E 100 None (Some (today E - 180)%Z)).
  run_read (get_opportunities_reads E None 50).
  unfold analyze_trend_patterns. cbv zeta.
  match goal with
  | |- context [try_except (bind (llm_invoke E ?p) _) (fun _ => ret ?fb)] =>
      destruct (completion_fallback E p fb w1 (all_unusable _ _))
        as (w2 & Hrun2 & Hst2)
  end.
  erewrite bind_Ok_run by exact Hrun2.
  eexists _, w2. split; [reflexivity |]. simpl.
  repeat split. congruence.
Qed.

Lemma identify_opportunities_fallback analysis w :
  exists w1,
    identify_opportunities E analysis w = (Ok (PList []), w1)
    /\ store w1 = store w.
Proof.
  unfold identify_opportunities, try_except, bind, llm_invoke. cbv zeta.
  pose proof (all_unusable (llm_calls w) (OpportunityPrompt analysis)) as Hbad.
  destruct (llm E (llm_calls w) (OpportunityPrompt analysis))
    as [e | content [v |]]; simpl in *.
  - eexists. split; reflexivity.
  - contradiction.
  - eexists. split; reflexivity.
Qed.

Lemma synthesis_stage_when_calls_fail w :
  exists res w',
    generate_strategic_analysis E w = (Ok res, w')
    /\ sr_error res = None
    /\ sr_new_opportunities res = 0
    /\ store w' = store w.
Proof.
  unfold generate_strategic_analysis, try_except. cbv zeta.
  run_read (get_market_findings_reads E 30 None (Some (today E - 30)%Z)).
  run_read (get_competitor_updates_reads E None 20).
  run_read (get_trends_reads E None (Some (4 # 10)%Q) 15).
  run_read (get_opportunities_reads E None 10).
  unfold synthesize_intelligence. cbv zeta.
  match goal with
  | |- context [try_except (bind (llm_invoke E ?p) _) (fun _ => ret ?fb)] =>
      destruct (completion_fallback E p fb w3 (all_unusable _ _))
        as (w4 & Hrun4 & Hst4)
  end.
  erewrite bind_Ok_run by exact Hrun4.
  match goal with
  | |- context [identify_opportunities E ?a] =>
      destruct (identify_opportunities_fallback a w4) as (w5 & Hrun5 & Hst5)
  end.
  erewrite bind_Ok_run by exact Hrun5.
  eexists _, w5. split; [reflexivity |]. simpl.
  repeat split. congruence.
Qed.

End AllCallsFail.




(** ** The orchestrator *)

Lemma store_analysis_run_total E results :
  never_raises (store_analysis_run E results).
Proof.
  intros w. unfold store_analysis_run.
  destruct (try_except_total
              (bind (lift (build_analysis_run E results))
                 (fun analysis_run =>
                    bind (insert_analysis_run E analysis_run)
                      (fun _ => ret tt)))
              (fun _ => tt) w) as (u & w' & H).
  exists u, w'. exact H.
Qed.

Lemma send_daily_notifications_total E results :
  never_raises (send_daily_notifications E results).
Proof. unfold send_daily_notifications. apply try_except_total. Qed.

Lemma build_analysis_run_fields E results run :
  build_analysis_run E results = Ok run ->
  ar_status run = rs_status results
  /\ ar_run_date run = today E
  /\ exists summary,
       rs_summary results = Some summary
       /\ ar_findings_count run = sm_findings_count summary
       /\ ar_opportunities_identified run = sm_opportunities_count summary.
Proof.
  unfold build_analysis_run, new_AnalysisRun.
  destruct (rs_summary results) as [summary |]; [| discriminate].
  intros H. invert_chain. inversion H; subst; clear H. simpl.
  split; [reflexivity |]. split; [reflexivity |].
  exists summary. repeat split.
Qed.

(** What [_store_analysis_run] does to the table of runs: one row more
    when the record validates and the store takes it, nothing
    otherwise.  It never looks at the rows already there. *)
Lemma store_analysis_run_effect E results w :
  exists w',
    store_analysis_run E results w = (Ok tt, w')
    /\ outbox w' = outbox w
    /\ (forall run,
          build_analysis_run E results = Ok run ->
          store_ok E (db_ops w) (DbInsert (RowRun run)) = true ->
          runs_of w' = runs_of w ++ [stored_run E (db_ops w) run])
    /\ (forall run,
          build_analysis_run E results = Ok run ->
          store_ok E (db_ops w) (DbInsert (RowRun run)) = false ->
          runs_of w' = runs_of w)
    /\ (is_ok (build_analysis_run E results) = false ->
        runs_of w' = runs_of w).
Proof.
  unfold store_analysis_run.
  destruct (build_analysis_run E results) as [run | e].
  - cbv [try_except bind lift insert_analysis_run next_db_op modify ret].
    destruct (store_ok E (db_ops w) (DbInsert (RowRun run))) eqn:Hok;
      [destruct (store_replies E (db_ops w) (DbInsert (RowRun run))) |];
      eexists; (split; [reflexivity |]); (split; [reflexivity |]);
      repeat split; intros; try discriminate;
      match goal with
      | H : Ok _ = Ok _ |- _ => inversion H; subst
      end; try congruence; reflexivity.
  - cbv [try_except bind lift ret].
    eexists. split; [reflexivity |]. split; [reflexivity |].
    repeat split; intros; try discriminate; reflexivity.
Qed.

Lemma gather3_Ok A B C (a : M A) (b : M B) (c : M C) w x w1 y w2 z w3 :
  a w = (Ok x, w1) -> b w1 = (Ok y, w2) -> c w2 = (Ok z, w3) ->
  gather3 a b c w = (Ok (x, y, z), w3).
Proof. intros Ha Hb Hc. unfold gather3. rewrite Ha, Hb, Hc. reflexivity. Qed.

(** When the second task raises, the third still runs, and the
    exception is what the caller gets. *)
Lemma gather3_second_raises A B C (a : M A) (b : M B) (c : M C)
  w x w1 e w2 rz w3 :
  a w = (Ok x, w1) -> b w1 = (Raise e, w2) -> c w2 = (rz, w3) ->
  gather3 a b c w = (Raise e, w3).
Proof.
  intros Ha Hb Hc. unfold gather3. rewrite Ha, Hb, Hc.
  destruct rz; reflexivity.
Qed.

Lemma run_daily_completed E market competitor trend synthesis
  w mr cr tr w3 sr w4 :
  gather3 market competitor trend w = (Ok (mr, cr, tr), w3) ->
  synthesis w3 = (Ok sr, w4) ->
  exists results w',
    run_daily_analysis_with E market competitor trend synthesis w
    = (Ok results, w')
    /\ rs_status results = "completed"
    /\ rs_market_intelligence results = Some mr
    /\ rs_competitor_intelligence results = Some cr
    /\ rs_trend_analysis results = Some tr
    /\ rs_strategic_synthesis results = Some sr
    /\ (exists summary,
          rs_summary results = Some summary
          /\ sm_findings_count summary = mr_findings_count mr
          /\ sm_opportunities_count summary = sr_new_opportunities sr)
    /\ (forall run,
          build_analysis_run E results = Ok run ->
          store_ok E (db_ops w4) (DbInsert (RowRun run)) = true ->
          runs_of w' = runs_of w4 ++ [stored_run E (db_ops w4) run]
          /\ ar_status run = "completed"
          /\ ar_run_date run = today E
          /\ ar_findings_count run = mr_findings_count mr).
Proof.
  intros Hgather Hsyn.
  unfold run_daily_analysis_with, try_except.
  erewrite bind_Ok_run by exact Hgather. cbv beta iota zeta.
  erewrite bind_Ok_run by exact Hsyn.
  match goal with
  | |- context [store_analysis_run E ?r] => set (results := r)
  end.
  destruct (store_analysis_run_effect E results w4)
    as (w5 & Hstore & _ & Hrow & _).
  erewrite bind_Ok_run by exact Hstore.
  destruct (send_daily_notifications_total E results w5) as (u & w6 & Hsend).
  erewrite bind_Ok_run by exact Hsend.
  exists results, w6. split; [reflexivity |].
  repeat (split; [reflexivity |]).
  split; [eexists; repeat split |].
  intros run Hbuild Hok.
  assert (Hw6 : runs_of w6 = runs_of w5).
  { unfold runs_of.
    rewrite <- (preserves_store_send_daily_notifications E results w5).
    rewrite Hsend. reflexivity. }
  rewrite Hw6, (Hrow run Hbuild Hok).
  apply build_analysis_run_fields in Hbuild.
  destruct Hbuild as (Hstatus & Hdate & summary & Hsum & Hcount & _).
  split; [reflexivity |]. split; [exact Hstatus |]. split; [exact Hdate |].
  simpl in Hsum. inversion Hsum; subst summary. exact Hcount.
Qed.

Lemma run_daily_failed E market competitor trend synthesis w e w3 :
  gather3 market competitor trend w = (Raise e, w3) ->
  exists results,
    run_daily_analysis_with E market competitor trend synthesis w
    = (Ok results, w3)
    /\ rs_status results = "error"
    /\ rs_error results = Some e
    /\ rs_summary results = None.
Proof.
  intros Hgather. unfold run_daily_analysis_with, try_except.
  erewrite bind_Raise_run by exact Hgather.
  eexists. repeat split.
Qed.

(** C2, as the code has it.  The Competitor stage of the repository
    never lets an exception escape: its failures come back as a result
    carrying an error field.  Whenever the three stages and the
    Synthesis stage return (with or without such an error field), the
    run returns with status [completed] and the findings count of the
    Market stage, and it appends one AnalysisRun row with that status
    and count when the record validates and the store takes it.  When
    an exception does escape the Competitor stage, the Trend stage
    still runs, but the run returns with status [error] and does
    nothing more: no AnalysisRun is persisted and no mail is sent. *)
Theorem C2_contained_failure_completes_escaped_exception_fails :
  forall E : Ext,
    never_raises (monitor_competitors E)
    /\ (forall market competitor trend synthesis w mr w1 cr w2 tr w3 sr w4,
          market w = (Ok mr, w1) ->
          competitor w1 = (Ok cr, w2) ->
          trend w2 = (Ok tr, w3) ->
          synthesis w3 = (Ok sr, w4) ->
          exists results w',
            run_daily_analysis_with E market competitor trend synthesis w
            = (Ok results, w')
            /\ rs_status results = "completed"
            /\ rs_competitor_intelligence results = Some cr
            /\ (exists summary,
                  rs_summary results = Some summary
                  /\ sm_findings_count summary = mr_findings_count mr)
            /\ (forall run,
                  build_analysis_run E results = Ok run ->
                  store_ok E (db_ops w4) (DbInsert (RowRun run)) = true ->
                  runs_of w' = runs_of w4 ++ [stored_run E (db_ops w4) run]
                  /\ ar_status run = "completed"
                  /\ ar_findings_count run = mr_findings_count mr))
    /\ (forall market competitor trend synthesis w mr w1 e w2 rt w3,
          market w = (Ok mr, w1) ->
          competitor w1 = (Raise e, w2) ->
          trend w2 = (rt, w3) ->
          exists results,
            run_daily_analysis_with E market competitor trend synthesis w
            = (Ok results, w3)
            /\ rs_status results = "error"
            /\ rs_error results = Some e
            /\ rs_summary results = None).
Proof.
  intros E. split; [apply monitor_competitors_total |]. split.
  - intros market competitor trend synthesis w mr w1 cr w2 tr w3 sr w4
      Hm Hc Ht Hs.
    destruct (run_daily_completed E market competitor trend synthesis w
                (gather3_Ok market competitor trend w Hm Hc Ht) Hs)
      as (results & w' & Hrun & Hstatus & _ & Hcr & _ & _ & Hsum & Hrow).
    exists results, w'. split; [exact Hrun |]. split; [exact Hstatus |].
    split; [exact Hcr |]. split.
    + destruct Hsum as (summary & Hsum & Hcount & _).
      exists summary. split; assumption.
    + intros run Hbuild Hok.
      destruct (Hrow run Hbuild Hok) as (Hruns & Hst & _ & Hcount).
      repeat split; assumption.
  - intros market competitor trend synthesis w mr w1 e w2 rt w3 Hm Hc Ht.
    apply run_daily_failed.
    exact (gather3_second_raises market competitor trend w Hm Hc Ht).
Qed.

(** The daily run of the repository in which the Competitor stage
    fails on a response of the wrong shape while the Market stage
    stores three findings: the failure is contained, the run is
    completed and reports three findings. *)
Lemma C2_witness :
  exists results w' cr e summary,
    run_daily_analysis confused_competitor_ext (initial_world empty_store)
    = (Ok results, w')
    /\ rs_status results = "completed"
    /\ rs_competitor_intelligence results = Some cr
    /\ cr_error cr = Some e
    /\ rs_summary results = Some summary
    /\ sm_findings_count summary = 3.
Proof.
  edestruct (proj1 (proj2
               (C2_contained_failure_completes_escaped_exception_fails
                  confused_competitor_ext))
               (gather_market_intelligence confused_competitor_ext)
               (monitor_competitors confused_competitor_ext)
               (analyze_market_trends confused_competitor_ext)
               (generate_strategic_analysis confused_competitor_ext)
               (initial_world empty_store))
    as (results & w' & Hrun & Hstatus & Hcr & (summary & Hsum & Hcount) & _);
    [vm_compute; reflexivity | vm_compute; reflexivity
     | vm_compute; reflexivity | vm_compute; reflexivity |].
  exists results, w'. eexists _, AttributeError, summary.
  split; [exact Hrun |]. split; [exact Hstatus |]. split; [exact Hcr |].
  split; [reflexivity |]. split; [exact Hsum |].
  rewrite Hcount. reflexivity.
Defined.

(** C2 does not hold as stated: with the Market, Trend and Synthesis
    stages of the repository working (three findings are persisted) and
    a Competitor stage from which an exception escapes, the run returns
    with status [error] and without a summary, and no AnalysisRun is
    persisted. *)
Lemma C2_counterexample :
  exists results w',
    run_with_raising_competitor = (Ok results, w')
    /\ length (market_findings (store w')) = 3
    /\ rs_status results = "error"
    /\ rs_summary results = None
    /\ analysis_runs (store w') = []
    /\ outbox w' = [].
Proof.
  eexists _, _. split; [vm_compute; reflexivity |].
  repeat split.
Qed.

(** ** Two runs at the same time *)

(** Running the orchestrator is gathering the stages and then resuming
    with what the gather delivered. *)
Lemma run_daily_is_gather_then_resume E market competitor trend synthesis w :
  run_daily_analysis_with E market competitor trend synthesis w
  = (let (staged, w1) := gather3 market competitor trend w in
     resume_daily E synthesis staged w1).
Proof.
  unfold run_daily_analysis_with, resume_daily, try_except, bind.
  destruct (gather3 market competitor trend w) as [[[[mr cr] tr] | e] w1];
    reflexivity.
Qed.

Lemma stages_run E w :
  exists staged w1,
    gather3 (gather_market_intelligence E) (monitor_competitors E)
      (analyze_market_trends E) w = (Ok staged, w1)
    /\ runs_of w1 = runs_of w.
Proof.
  pose proof (preserves_gather3 (preserves_runs_market E)
                (preserves_runs_competitor E) (preserves_runs_trend E) w)
    as Hruns.
  destruct (gather_market_intelligence_total E w) as (mr & w1 & Hm).
  destruct (monitor_competitors_total E w1) as (cr & w2 & Hc).
  destruct (analyze_market_trends_total E w2) as (tr & w3 & Ht).
  rewrite (gather3_Ok _ _ _ _ Hm Hc Ht) in Hruns.
  exists (mr, cr, tr), w3. split; [| exact Hruns].
  apply (gather3_Ok _ _ _ _ Hm Hc Ht).
Qed.

(** What a completed run does to the table of runs.  The request
    number of its insert is the number of requests made before it. *)
Lemma run_daily_runs_table E market competitor trend synthesis
  w mr cr tr w3 sr w4 :
  gather3 market competitor trend w = (Ok (mr, cr, tr), w3) ->
  synthesis w3 = (Ok sr, w4) ->
  exists results w',
    run_daily_analysis_with E market competitor trend synthesis w
    = (Ok results, w')
    /\ rs_status results = "completed"
    /\ (forall run,
          build_analysis_run E results = Ok run ->
          store_ok E (db_ops w4) (DbInsert (RowRun run)) = true ->
          runs_of w' = runs_of w4 ++ [stored_run E (db_ops w4) run]
          /\ ar_run_date run = today E
          /\ ar_status run = "completed")
    /\ (forall run,
          build_analysis_run E results = Ok run ->
          store_ok E (db_ops w4) (DbInsert (RowRun run)) = false ->
          runs_of w' = runs_of w4)
    /\ (is_ok (build_analysis_run E results) = false ->
        runs_of w' = runs_of w4).
Proof.
  intros Hgather Hsyn.
  unfold run_daily_analysis_with, try_except.
  erewrite bind_Ok_run by exact Hgather. cbv beta iota zeta.
  erewrite bind_Ok_run by exact Hsyn.
  match goal with
  | |- context [store_analysis_run E ?r] => set (results := r)
  end.
  destruct (store_analysis_run_effect E results w4)
    as (w5 & Hstore & _ & Hrow & Hrefused & Hinvalid).
  erewrite bind_Ok_run by exact Hstore.
  destruct (send_daily_notifications_total E results w5) as (u & w6 & Hsend).
  erewrite bind_Ok_run by exact Hsend.
  assert (Hw6 : runs_of w6 = runs_of w5).
  { unfold runs_of.
    rewrite <- (preserves_store_send_daily_notifications E results w5).
    rewrite Hsend. reflexivity. }
  exists results, w6. split; [reflexivity |]. split; [reflexivity |].
  rewrite Hw6. split; [| split].
  - intros run Hbuild Hok. split; [exact (Hrow run Hbuild Hok) |].
    apply build_analysis_run_fields in Hbuild.
    destruct Hbuild as (Hstatus & Hdate & _). split; assumption.
  - exact Hrefused.
  - exact Hinvalid.
Qed.

(** A run that resumes with the results of its stages appends its own
    row when its record validates and the store carries the insert
    out, whatever rows the table holds: nothing in the run reads the
    table of runs. *)
Lemma resume_appends_row E staged w :
  exists results w' n,
    resume_daily E (generate_strategic_analysis E) (Ok staged) w
    = (Ok results, w')
    /\ rs_status results = "completed"
    /\ (forall run,
          build_analysis_run E results = Ok run ->
          store_ok E n (DbInsert (RowRun run)) = true ->
          runs_of w' = runs_of w ++ [stored_run E n run]
          /\ ar_run_date run = today E)
    /\ (is_ok (build_analysis_run E results) = false ->
        runs_of w' = runs_of w).
Proof.
  destruct staged as [[mr cr] tr]. unfold resume_daily.
  destruct (generate_strategic_analysis_total E w) as (sr & w4 & Hs).
  destruct (run_daily_runs_table E (ret mr) (ret cr) (ret tr)
              (generate_strategic_analysis E) w (w3 := w) eq_refl Hs)
    as (results & w' & Hrun & Hstatus & Hrow & _ & Hinvalid).
  assert (Hw4 : runs_of w4 = runs_of w).
  { pose proof (preserves_runs_synthesis E w) as Hp. rewrite Hs in Hp.
    exact Hp. }
  exists results, w', (db_ops w4).
  split; [exact Hrun |]. split; [exact Hstatus |]. split.
  - intros run Hbuild Hok.
    destruct (Hrow run Hbuild Hok) as (Hruns & Hdate & _).
    rewrite Hruns, Hw4. split; [reflexivity | exact Hdate].
  - intros Hbad. rewrite (Hinvalid Hbad). exact Hw4.
Qed.

(** C7, as the code has it.  The orchestrator holds no run-in-progress
    guard and never reads the table of runs.  A daily run started in
    any world returns with status [completed]; when its own record
    validates and the store carries the insert out, it has appended its
    own AnalysisRun row dated today, and when its record does not
    validate it has appended none.  Two daily runs in progress at the
    same time whose records validate and whose inserts are carried out
    append two rows with the same run date. *)
Theorem C7_each_run_appends_its_own_row :
  forall (E : Ext) (w : World),
    (exists results w' n,
       run_daily_analysis E w = (Ok results, w')
       /\ rs_status results = "completed"
       /\ (forall run,
             build_analysis_run E results = Ok run ->
             store_ok E n (DbInsert (RowRun run)) = true ->
             runs_of w' = runs_of w ++ [stored_run E n run]
             /\ ar_run_date run = today E)
       /\ (is_ok (build_analysis_run E results) = false ->
           runs_of w' = runs_of w))
    /\ (exists results_a results_b w' n_a n_b,
          overlapped_daily_runs E w = (Ok results_a, Ok results_b, w')
          /\ rs_status results_a = "completed"
          /\ rs_status results_b = "completed"
          /\ (forall run_a run_b,
                build_analysis_run E results_a = Ok run_a ->
                build_analysis_run E results_b = Ok run_b ->
                store_ok E n_a (DbInsert (RowRun run_a)) = true ->
                store_ok E n_b (DbInsert (RowRun run_b)) = true ->
                runs_of w'
                = runs_of w ++ [stored_run E n_a run_a; stored_run E n_b run_b]
                /\ ar_run_date run_a = today E
                /\ ar_run_date run_b = today E)).
Proof.
  intros E w. split.
  - unfold run_daily_analysis. rewrite run_daily_is_gather_then_resume.
    destruct (stages_run E w) as (staged & w1 & Hg & Hr1). rewrite Hg.
    destruct (resume_appends_row E staged w1)
      as (results & w' & n & Hrun & Hstatus & Hrow & Hinvalid).
    exists results, w', n. rewrite Hrun, <- Hr1. auto.
  - unfold overlapped_daily_runs.
    destruct (stages_run E w) as (staged_a & w1 & Hga & Hr1). rewrite Hga.
    destruct (stages_run E w1) as (staged_b & w2 & Hgb & Hr2). rewrite Hgb.
    destruct (resume_appends_row E staged_a w2)
      as (results_a & w3 & n_a & Hrun_a & Hst_a & Hrow_a & _).
    rewrite Hrun_a.
    destruct (resume_appends_row E staged_b w3)
      as (results_b & w4 & n_b & Hrun_b & Hst_b & Hrow_b & _).
    rewrite Hrun_b.
    exists results_a, results_b, w4, n_a, n_b.
    split; [reflexivity |]. split; [exact Hst_a |]. split; [exact Hst_b |].
    intros run_a run_b Hbuild_a Hbuild_b Hok_a Hok_b.
    destruct (Hrow_a run_a Hbuild_a Hok_a) as [Hruns_a Hdate_a].
    destruct (Hrow_b run_b Hbuild_b Hok_b) as [Hruns_b Hdate_b].
    split; [| split; assumption].
    rewrite Hruns_b, Hruns_a, Hr2, Hr1, <- app_assoc. reflexivity.
Qed.

(** With services that all work and a validation library that coerces
    nothing, the records of two overlapping runs started on an empty
    store validate (the recommendations of the analysis are a
    dictionary), and the runs leave two rows dated the same day. *)
Lemma C7_witness :
  exists results_a results_b w' run_a run_b n_a n_b,
    overlapped_daily_runs alerting_ext (initial_world empty_store)
    = (Ok results_a, Ok results_b, w')
    /\ build_analysis_run alerting_ext results_a = Ok run_a
    /\ build_analysis_run alerting_ext results_b = Ok run_b
    /\ runs_of w'
       = [stored_run alerting_ext n_a run_a; stored_run alerting_ext n_b run_b]
    /\ ar_run_date run_a = 20000%Z
    /\ ar_run_date run_b = 20000%Z.
Proof.
  destruct (proj2 (C7_each_run_appends_its_own_row alerting_ext
                     (initial_world empty_store)))
    as (ra & rb & w' & n_a & n_b & Hrun & _ & _ & Hrows).
  assert (Hvalid :
            (exists run_a, build_analysis_run alerting_ext ra = Ok run_a)
            /\ (exists run_b, build_analysis_run alerting_ext rb = Ok run_b)).
  { vm_compute in Hrun. inversion Hrun; subst ra rb.
    split; eexists; vm_compute; reflexivity. }
  destruct Hvalid as [[run_a Ha] [run_b Hb]].
  destruct (Hrows run_a run_b Ha Hb eq_refl eq_refl) as (Hruns & Hda & Hdb).
  exists ra, rb, w', run_a, run_b, n_a, n_b.
  repeat (split; [assumption |]). exact Hdb.
Defined.

(** C7 does not hold as stated: two daily runs in progress at the same
    time, all services working, leave two AnalysisRun rows with the
    same run date, and the alert for the same opportunity is delivered
    twice. *)
Lemma C7_counterexample :
  exists results_a results_b w',
    overlapped_daily_runs alerting_ext (initial_world empty_store)
    = (Ok results_a, Ok results_b, w')
    /\ map ar_run_date (analysis_runs (store w')) = [20000%Z; 20000%Z]
    /\ map em_type (outbox w')
       = ["critical_alert"; "daily_report"; "critical_alert"; "daily_report"]
    /\ map al_title (identify_critical_alerts results_a)
       = ["High-Value Opportunity: F"]
    /\ map al_title (identify_critical_alerts results_b)
       = ["High-Value Opportunity: F"].
Proof.
  eexists _, _, _. split; [vm_compute; reflexivity |].
  repeat split.
Qed.

(** ** What the Synthesis stage works on *)

Lemma synthesize_intelligence_with_llm E f fs us ts os w :
  f (llm_calls w) (synthesis_prompt_of (fs, us, ts, os))
  = llm E (llm_calls w) (synthesis_prompt_of (fs, us, ts, os)) ->
  synthesize_intelligence (with_llm E f) fs us ts os w
  = synthesize_intelligence E fs us ts os w.
Proof.
  intros H. unfold synthesize_intelligence, try_except, bind, llm_invoke.
  cbv zeta. unfold synthesis_prompt_of in H.
  change (llm (with_llm E f)) with f. rewrite H.
  reflexivity.
Qed.

Lemma identify_opportunities_with_llm E f analysis w :
  f (llm_calls w) (OpportunityPrompt analysis)
  = llm E (llm_calls w) (OpportunityPrompt analysis) ->
  identify_opportunities (with_llm E f) analysis w
  = identify_opportunities E analysis w.
Proof.
  intros H. unfold identify_opportunities, try_except, bind, llm_invoke.
  cbv zeta. change (llm (with_llm E f)) with f. rewrite H. reflexivity.
Qed.

Lemma bind_ext A B (m m' : M A) (k k' : A -> M B) w :
  m w = m' w ->
  (forall a w1, m' w = (Ok a, w1) -> k a w1 = k' a w1) ->
  bind m k w = bind m' k' w.
Proof.
  intros Hm Hk. unfold bind. rewrite Hm.
  destruct (m' w) as [[a | e] w1]; [apply Hk |]; reflexivity.
Qed.

Lemma try_except_ext A (body body' : M A) (handler handler' : exn -> M A) w :
  body w = body' w ->
  (forall e w1, handler e w1 = handler' e w1) ->
  try_except body handler w = try_except body' handler' w.
Proof.
  intros Hb Hh. unfold try_except. rewrite Hb.
  destruct (body' w) as [[a | e] w1]; [| apply Hh]; reflexivity.
Qed.

(** The only prompts the Synthesis stage sends are the synthesis prompt
    built over the rows its four queries return, and opportunity
    prompts: a completion service that answers these as before gives
    the same run of the stage. *)
Lemma synthesis_depends_on_store_reads E f w :
  (forall n,
     f n (synthesis_prompt_of (synthesis_reads E w))
     = llm E n (synthesis_prompt_of (synthesis_reads E w))) ->
  (forall n analysis,
     f n (OpportunityPrompt analysis) = llm E n (OpportunityPrompt analysis)) ->
  generate_strategic_analysis (with_llm E f) w
  = generate_strategic_analysis E w.
Proof.
  intros Hsyn Hopp.
  unfold synthesis_reads in Hsyn.
  unfold generate_strategic_analysis.
  apply try_except_ext; [| reflexivity].
  apply bind_ext; [reflexivity | intros fs w1 H1].
  apply bind_ext; [reflexivity | intros us w2 H2].
  apply bind_ext; [reflexivity | intros ts w3 H3].
  apply bind_ext; [reflexivity | intros os w4 H4].
  rewrite H1, H2, H3, H4 in Hsyn. simpl rows_or_empty in Hsyn.
  apply bind_ext;
    [apply synthesize_intelligence_with_llm; apply Hsyn | intros sa w5 _].
  apply bind_ext;
    [apply identify_opportunities_with_llm; apply Hopp | intros ov w6 _].
  reflexivity.
Qed.

(** C1, as the code has it.  The Synthesis stage takes no argument.
    In a daily run its result is what [generate_strategic_analysis]
    returns in the world the three stages left behind, whatever the
    StageResults they returned; it always returns a well-formed result
    (it never raises), also when the upstream stages failed.  What it
    works on is read from the Result Store when it runs: the only
    prompts it sends are the synthesis prompt built over the rows that
    its four queries return at that moment (findings of the last 30
    days, competitor updates, trends of momentum at least 0.4,
    opportunities) and opportunity prompts. *)
Theorem C1_synthesis_works_on_store_reads :
  forall E : Ext,
    never_raises (generate_strategic_analysis E)
    /\ (forall market competitor trend w mr cr tr w3,
          gather3 market competitor trend w = (Ok (mr, cr, tr), w3) ->
          exists sr w4 results w',
            generate_strategic_analysis E w3 = (Ok sr, w4)
            /\ run_daily_analysis_with E market competitor trend
                 (generate_strategic_analysis E) w = (Ok results, w')
            /\ rs_strategic_synthesis results = Some sr)
    /\ (forall f w,
          (forall n,
             f n (synthesis_prompt_of (synthesis_reads E w))
             = llm E n (synthesis_prompt_of (synthesis_reads E w))) ->
          (forall n analysis,
             f n (OpportunityPrompt analysis)
             = llm E n (OpportunityPrompt analysis)) ->
          generate_strategic_analysis (with_llm E f) w
          = generate_strategic_analysis E w).
Proof.
  intros E. split; [apply generate_strategic_analysis_total |]. split.
  - intros market competitor trend w mr cr tr w3 Hgather.
    destruct (generate_strategic_analysis_total E w3) as (sr & w4 & Hs).
    destruct (run_daily_completed E market competitor trend
                (generate_strategic_analysis E) w Hgather Hs)
      as (results & w' & Hrun & _ & _ & _ & _ & Hsr & _).
    exists sr, w4, results, w'. auto.
  - intros f w. apply synthesis_depends_on_store_reads.
Qed.

(** The daily run of the repository when every completion call times
    out: the three upstream stages return results without items, and
    the Synthesis stage still returns a well-formed result, which is
    the one the report carries. *)
Lemma C1_witness :
  exists sr w4 results w',
    generate_strategic_analysis unavailable_ext
      (snd (gather3 (gather_market_intelligence unavailable_ext)
              (monitor_competitors unavailable_ext)
              (analyze_market_trends unavailable_ext)
              (initial_world empty_store)))
    = (Ok sr, w4)
    /\ run_with_failing_completion = (Ok results, w')
    /\ rs_strategic_synthesis results = Some sr.
Proof.
  edestruct (proj1 (proj2
               (C1_synthesis_works_on_store_reads unavailable_ext))
               (gather_market_intelligence unavailable_ext)
               (monitor_competitors unavailable_ext)
               (analyze_market_trends unavailable_ext)
               (initial_world empty_store))
    as (sr & w4 & results & w' & Hs & Hrun & Hsr);
    [vm_compute; reflexivity |].
  exists sr, w4, results, w'.
  split; [exact Hs |]. split; [exact Hrun | exact Hsr].
Defined.

(** C1 does not hold as stated: two daily runs with the same services,
    one started on an empty store and one on a store that holds a
    finding persisted earlier, get the same three StageResults from the
    Market, Competitor and Trend stages, and different Synthesis
    results: the second Synthesis stage read the earlier finding from
    the store. *)
Lemma C1_counterexample :
  exists r1 w1 r2 w2,
    run_on_empty_store = (Ok r1, w1)
    /\ run_on_earlier_finding = (Ok r2, w2)
    /\ rs_market_intelligence r1 = rs_market_intelligence r2
    /\ rs_competitor_intelligence r1 = rs_competitor_intelligence r2
    /\ rs_trend_analysis r1 = rs_trend_analysis r2
    /\ (exists sr1 sr2,
          rs_strategic_synthesis r1 = Some sr1
          /\ rs_strategic_synthesis r2 = Some sr2
          /\ sr_executive_summary sr1
             = Some (PStr "Error in strategic synthesis")
          /\ sr_executive_summary sr2
             = Some (PStr "findings were read from the store"))
    /\ rs_strategic_synthesis r1 <> rs_strategic_synthesis r2.
Proof.
  eexists _, _, _, _.
  split; [vm_compute; reflexivity |].
  split; [vm_compute; reflexivity |].
  split; [reflexivity |]. split; [reflexivity |]. split; [reflexivity |].
  split; [eexists _, _; repeat split |].
  simpl. discriminate.
Qed.

(* ===================================================================== *)
(** * Further properties of the code                                      *)
(* ===================================================================== *)

(** ** Reading the Result Store *)

Section SortBy.
Variable A : Type.
Variable before : A -> A -> bool.

Lemma In_insert_by x y l : In y (insert_by before x l) <-> y = x \/ In y l.
Proof.
  induction l as [| z l IH]; simpl.
  - intuition auto.
  - destruct (before x z); simpl; rewrite ?IH; intuition auto.
Qed.

Lemma In_sort_by y l : In y (sort_by before l) <-> In y l.
Proof.
  unfold sort_by. induction l as [| x l IH]; simpl.
  - reflexivity.
  - rewrite In_insert_by, IH. intuition auto.
Qed.

Lemma length_insert_by x l : length (insert_by before x l) = S (length l).
Proof.
  induction l as [| z l IH]; simpl; [reflexivity |].
  destruct (before x z); simpl; [reflexivity | now rewrite IH].
Qed.

Lemma length_sort_by l : length (sort_by before l) = length l.
Proof.
  unfold sort_by. induction l as [| x l IH]; simpl; [reflexivity |].
  now rewrite length_insert_by, IH.
Qed.

Lemma count_insert_by (p : A -> bool) x l :
  length (filter p (insert_by before x l)) = length (filter p (x :: l)).
Proof.
  induction l as [| z l IH]; [reflexivity |].
  simpl insert_by. destruct (before x z); [reflexivity |].
  simpl in *. destruct (p z), (p x); simpl in *; lia.
Qed.

Lemma count_sort_by (p : A -> bool) l :
  length (filter p (sort_by before l)) = length (filter p l).
Proof.
  unfold sort_by. induction l as [| x l IH]; [reflexivity |].
  simpl fold_right. rewrite count_insert_by. simpl.
  destruct (p x); simpl; now rewrite IH.
Qed.

Lemma In_firstn_In (n : nat) (l : list A) x : In x (firstn n l) -> In x l.
Proof.
  intros H. rewrite <- (firstn_skipn n l). apply in_or_app. now left.
Qed.

Lemma sorted_app_inv (R : A -> A -> Prop) l1 l2 :
  StronglySorted R (l1 ++ l2) ->
  StronglySorted R l1 /\ (forall x y, In x l1 -> In y l2 -> R x y).
Proof.
  induction l1 as [| a l1 IH]; simpl; intros H.
  - split; [constructor | intros x y []].
  - inversion H as [| ? ? Hs Hall]; subst.
    destruct (IH Hs) as [Hs1 Hcross]. split.
    + constructor; [exact Hs1 |].
      rewrite Forall_forall in *. intros x Hx. apply Hall.
      apply in_or_app. now left.
    + intros x y [-> | Hx] Hy.
      * rewrite Forall_forall in Hall. apply Hall. apply in_or_app. now right.
      * now apply Hcross.
Qed.

Lemma sorted_weaken (R R' : A -> A -> Prop) l :
  (forall a b, R a b -> R' a b) -> StronglySorted R l -> StronglySorted R' l.
Proof.
  intros Himp. induction 1 as [| a l Hs IH Hall]; constructor.
  - exact IH.
  - eapply Forall_impl; [| exact Hall]. intros b. apply Himp.
Qed.

Hypothesis before_total : forall x y, before x y = false -> before y x = true.
Hypothesis before_trans :
  forall x y z, before x y = true -> before y z = true -> before x z = true.

Lemma insert_by_sorted x l :
  StronglySorted (fun a b => before a b = true) l ->
  StronglySorted (fun a b => before a b = true) (insert_by before x l).
Proof.
  induction 1 as [| z l Hs IH Hall]; simpl.
  - constructor; constructor.
  - destruct (before x z) eqn:Hxz.
    + constructor; [constructor; assumption |].
      constructor; [exact Hxz |].
      eapply Forall_impl; [| exact Hall].
      intros b Hzb. eapply before_trans; eassumption.
    + constructor; [exact IH |].
      rewrite Forall_forall in *. intros b Hb.
      apply In_insert_by in Hb. destruct Hb as [-> | Hb].
      * now apply before_total.
      * now apply Hall.
Qed.

Lemma sort_by_sorted l :
  StronglySorted (fun a b => before a b = true) (sort_by before l).
Proof.
  unfold sort_by. induction l as [| x l IH]; simpl.
  - constructor.
  - now apply insert_by_sorted.
Qed.

(** The first [limit] rows in the order of [before]. *)
Lemma top_rows limit l :
  length (firstn limit (sort_by before l)) <= limit
  /\ (forall r, In r (firstn limit (sort_by before l)) -> In r l)
  /\ StronglySorted (fun a b => before a b = true)
       (firstn limit (sort_by before l))
  /\ (forall r r',
        In r l -> ~ In r (firstn limit (sort_by before l)) ->
        In r' (firstn limit (sort_by before l)) -> before r' r = true)
  /\ (length l <= limit -> forall r, In r l ->
      In r (firstn limit (sort_by before l))).
Proof.
  pose proof (sort_by_sorted l) as Hsorted.
  rewrite <- (firstn_skipn limit (sort_by before l)) in Hsorted.
  apply sorted_app_inv in Hsorted. destruct Hsorted as [Hs Hcross].
  repeat split.
  - apply firstn_le_length.
  - intros r Hr. apply In_sort_by. now apply In_firstn_In in Hr.
  - exact Hs.
  - intros r r' Hr Hnot Hr'. apply Hcross; [exact Hr' |].
    apply In_sort_by in Hr.
    rewrite <- (firstn_skipn limit (sort_by before l)) in Hr.
    apply in_app_or in Hr. destruct Hr as [Hr | Hr]; [contradiction | exact Hr].
  - intros Hlen r Hr. rewrite firstn_all2 by (rewrite length_sort_by; exact Hlen).
    now apply In_sort_by.
Qed.

End SortBy.

Lemma highest_first_total A (score : A -> Q) x y :
  highest_first score x y = false -> highest_first score y x = true.
Proof.
  unfold highest_first. intros H. apply Qle_bool_iff.
  destruct (Qlt_le_dec (score y) (score x)) as [Hlt | Hle].
  - apply Qlt_le_weak in Hlt. apply Qle_bool_iff in Hlt. congruence.
  - exact Hle.
Qed.

Lemma highest_first_trans A (score : A -> Q) x y z :
  highest_first score x y = true -> highest_first score y z = true ->
  highest_first score x z = true.
Proof.
  unfold highest_first. rewrite !Qle_bool_iff. intros H1 H2.
  eapply Qle_trans; eassumption.
Qed.

Lemma newest_first_total A (created_at : A -> option nat) x y :
  newest_first created_at x y = false -> newest_first created_at y x = true.
Proof.
  unfold newest_first. rewrite Nat.leb_gt, Nat.leb_le. lia.
Qed.

Lemma newest_first_trans A (created_at : A -> option nat) x y z :
  newest_first created_at x y = true -> newest_first created_at y z = true ->
  newest_first created_at x z = true.
Proof.
  unfold newest_first. rewrite !Nat.leb_le. lia.
Qed.

(** The rows of a table picked out by the best-score order. *)
Lemma best_rows A (score : A -> Q) limit (l : list A) :
  length (firstn limit (sort_by (highest_first score) l)) <= limit
  /\ (forall r, In r (firstn limit (sort_by (highest_first score) l)) -> In r l)
  /\ StronglySorted (fun a b => (score b <= score a)%Q)
       (firstn limit (sort_by (highest_first score) l))
  /\ (forall r r',
        In r l -> ~ In r (firstn limit (sort_by (highest_first score) l)) ->
        In r' (firstn limit (sort_by (highest_first score) l)) ->
        (score r <= score r')%Q)
  /\ (length l <= limit -> forall r, In r l ->
      In r (firstn limit (sort_by (highest_first score) l))).
Proof.
  destruct (@top_rows A (highest_first score)
              (@highest_first_total A score) (@highest_first_trans A score)
              limit l) as (H1 & H2 & H3 & H4 & H5).
  repeat split; auto.
  - eapply sorted_weaken; [| exact H3].
    intros a b Hab. unfold highest_first in Hab. now apply Qle_bool_iff.
  - intros r r' Hr Hn Hr'. specialize (H4 r r' Hr Hn Hr').
    unfold highest_first in H4. now apply Qle_bool_iff.
Qed.

(** The rows of a table picked out by the newest-first order. *)
Lemma newest_rows A (created_at : A -> option nat) limit (l : list A) :
  length (firstn limit (sort_by (newest_first created_at) l)) <= limit
  /\ (forall r, In r (firstn limit (sort_by (newest_first created_at) l)) ->
      In r l)
  /\ StronglySorted
       (fun a b => with_default 0 (created_at b) <= with_default 0 (created_at a))
       (firstn limit (sort_by (newest_first created_at) l))
  /\ (forall r r',
        In r l ->
        ~ In r (firstn limit (sort_by (newest_first created_at) l)) ->
        In r' (firstn limit (sort_by (newest_first created_at) l)) ->
        with_default 0 (created_at r) <= with_default 0 (created_at r'))
  /\ (length l <= limit -> forall r, In r l ->
      In r (firstn limit (sort_by (newest_first created_at) l))).
Proof.
  destruct (@top_rows A (newest_first created_at)
              (@newest_first_total A created_at)
              (@newest_first_trans A created_at)
              limit l) as (H1 & H2 & H3 & H4 & H5).
  repeat split; auto.
  - eapply sorted_weaken; [| exact H3].
    intros a b Hab. unfold newest_first in Hab. now apply Nat.leb_le.
  - intros r r' Hr Hn Hr'. specialize (H4 r r' Hr Hn Hr').
    unfold newest_first in H4. now apply Nat.leb_le.
Qed.

(** X1.  [get_opportunities] always returns: at most [limit] rows, all of
    them rows of the [opportunities] table that reach the threshold (a
    threshold of zero is no threshold), the best score first; a row of
    the table that reaches the threshold and was left out scores no
    higher than any row returned.  The table is left as it is, and the
    answer is empty when the store cannot be read. *)
Theorem X1_get_opportunities_returns_the_best_scored :
  forall (E : Ext) (min_score : option Q) (limit : nat) (w : World),
  exists rows w',
    get_opportunities E min_score limit w = (Ok rows, w')
    /\ store w' = store w
    /\ length rows <= limit
    /\ (forall r, In r rows -> In r (opportunities (store w)))
    /\ (forall m r, min_score = Some m -> ~ (m == 0)%Q -> In r rows ->
        (m <= op_score r)%Q)
    /\ StronglySorted (fun a b => (op_score b <= op_score a)%Q) rows
    /\ (store_ok E (db_ops w) (DbSelect "opportunities") = true ->
        forall r r',
          In r (opportunities (store w)) ->
          (forall m, min_score = Some m -> (m <= op_score r)%Q) ->
          ~ In r rows -> In r' rows -> (op_score r <= op_score r')%Q)
    /\ (store_ok E (db_ops w) (DbSelect "opportunities") = false -> rows = []).
Proof.
  intros E min_score limit w.
  unfold get_opportunities, bind, next_db_op, gets, ret. simpl.
  destruct (store_ok E (db_ops w) (DbSelect "opportunities")) eqn:Hok.
  - match goal with
    | |- context [sort_by _ ?l] => remember l as picked eqn:Hpicked
    end.
    assert (Hsound : forall r, In r picked ->
              In r (opportunities (store w))
              /\ (forall m, min_score = Some m -> ~ (m == 0)%Q ->
                  (m <= op_score r)%Q)).
    { intros r Hr. subst picked. destruct min_score as [m |].
      - destruct (Qeq_bool m 0) eqn:Hm.
        + split; [exact Hr |]. intros m' [= <-] Hne.
          apply Qeq_bool_iff in Hm. contradiction.
        + apply filter_In in Hr. destruct Hr as [Hin Hle].
          split; [exact Hin |]. intros m' [= <-] _.
          now apply Qle_bool_iff.
      - split; [exact Hr |]. intros m' [=]. }
    assert (Hcomplete : forall r, In r (opportunities (store w)) ->
              (forall m, min_score = Some m -> (m <= op_score r)%Q) ->
              In r picked).
    { intros r Hr Hq. subst picked. destruct min_score as [m |]; [| exact Hr].
      destruct (Qeq_bool m 0); [exact Hr |].
      apply filter_In. split; [exact Hr |].
      apply Qle_bool_iff. now apply Hq. }
    destruct (best_rows op_score limit picked) as (H1 & H2 & H3 & H4 & _).
    eexists. eexists. split; [reflexivity |]. simpl.
    repeat split.
    + exact H1.
    + intros r Hr. now apply Hsound, H2.
    + intros m r Hm Hne Hr. apply H2, Hsound in Hr.
      destruct Hr as [_ Hr]. now apply Hr.
    + exact H3.
    + intros _ r r' Hr Hq Hn Hr'. apply H4; auto.
    + discriminate.
  - eexists. eexists. split; [reflexivity |]. simpl.
    repeat split; try (intros; contradiction); try discriminate.
    + lia.
    + constructor.
Qed.

(** X2.  [get_market_findings] always returns: at most [limit] rows of
    the [market_findings] table, each of the category asked for (an empty
    category is no filter) and dated on or after [start_date], the
    newest first.  A matching row that was left out is no newer than any
    row returned, and no matching row is left out when the table has at
    most [limit] rows.  The answer is empty when the store cannot be
    read. *)
Theorem X2_get_market_findings_returns_the_newest :
  forall (E : Ext) (limit : nat) (category : option string)
         (start_date : option Z) (w : World),
  exists rows w',
    get_market_findings E limit category start_date w = (Ok rows, w')
    /\ store w' = store w
    /\ length rows <= limit
    /\ (forall r, In r rows -> In r (market_findings (store w)))
    /\ (forall c r, category = Some c -> c <> "" -> In r rows ->
        Category_value (mf_category r) = c)
    /\ (forall d r, start_date = Some d -> In r rows -> (d <= mf_date r)%Z)
    /\ StronglySorted
         (fun a b => with_default 0 (mf_created_at b)
                     <= with_default 0 (mf_created_at a)) rows
    /\ (store_ok E (db_ops w) (DbSelect "market_findings") = true ->
        forall r,
          In r (market_findings (store w)) ->
          (forall c, category = Some c -> Category_value (mf_category r) = c) ->
          (forall d, start_date = Some d -> (d <= mf_date r)%Z) ->
          (forall r', ~ In r rows -> In r' rows ->
             with_default 0 (mf_created_at r)
             <= with_default 0 (mf_created_at r'))
          /\ (length (market_findings (store w)) <= limit -> In r rows))
    /\ (store_ok E (db_ops w) (DbSelect "market_findings") = false ->
        rows = []).
Proof.
  intros E limit category start_date w.
  unfold get_market_findings, bind, next_db_op, gets, ret. simpl.
  destruct (store_ok E (db_ops w) (DbSelect "market_findings")) eqn:Hok.
  - match goal with
    | |- context [sort_by _ ?l] => remember l as picked eqn:Hpicked
    end.
    assert (Hsound : forall r, In r picked ->
              In r (market_findings (store w))
              /\ (forall c, category = Some c -> c <> "" ->
                  Category_value (mf_category r) = c)
              /\ (forall d, start_date = Some d -> (d <= mf_date r)%Z)).
    { intros r Hr. subst picked.
      assert (Hcat : In r (match category with
                           | Some c =>
                               if String.eqb c "" then market_findings (store w)
                               else filter
                                      (fun r => String.eqb
                                                  (Category_value (mf_category r)) c)
                                      (market_findings (store w))
                           | None => market_findings (store w)
                           end)
                     /\ (forall d, start_date = Some d -> (d <= mf_date r)%Z)).
      { destruct start_date as [d |].
        - apply filter_In in Hr. destruct Hr as [Hin Hd].
          split; [exact Hin |]. intros d' [= <-]. now apply Z.leb_le.
        - split; [exact Hr |]. intros d' [=]. }
      destruct Hcat as [Hin Hdate]. split; [| split; [| exact Hdate]].
      - destruct category as [c |]; [| exact Hin].
        destruct (String.eqb c ""); [exact Hin |].
        apply filter_In in Hin. tauto.
      - intros c -> Hne. apply String.eqb_neq in Hne. rewrite Hne in Hin.
        apply filter_In in Hin. destruct Hin as [_ Hin].
        now apply String.eqb_eq in Hin. }
    assert (Hcomplete : forall r, In r (market_findings (store w)) ->
              (forall c, category = Some c -> Category_value (mf_category r) = c) ->
              (forall d, start_date = Some d -> (d <= mf_date r)%Z) ->
              In r picked).
    { intros r Hr Hc Hd. subst picked.
      assert (Hcat : In r (match category with
                           | Some c =>
                               if String.eqb c "" then market_findings (store w)
                               else filter
                                      (fun r => String.eqb
                                                  (Category_value (mf_category r)) c)
                                      (market_findings (store w))
                           | None => market_findings (store w)
                           end)).
      { destruct category as [c |]; [| exact Hr].
        destruct (String.eqb c ""); [exact Hr |].
        apply filter_In. split; [exact Hr |].
        apply String.eqb_eq. now apply Hc. }
      destruct start_date as [d |]; [| exact Hcat].
      apply filter_In. split; [exact Hcat |].
      apply Z.leb_le. now apply Hd. }
    assert (Hshort : length picked <= length (market_findings (store w))).
    { subst picked.
      destruct start_date, category as [c |]; try destruct (String.eqb c "");
        repeat (etransitivity; [apply filter_length_le |]); auto. }
    destruct (newest_rows mf_created_at limit picked)
      as (H1 & H2 & H3 & H4 & H5).
    eexists. eexists. split; [reflexivity |]. simpl.
    repeat split.
    + exact H1.
    + intros r Hr. now apply Hsound, H2.
    + intros c r Hc Hne Hr. apply H2, Hsound in Hr.
      destruct Hr as (_ & Hr & _). now apply Hr.
    + intros d r Hd Hr. apply H2, Hsound in Hr.
      destruct Hr as (_ & _ & Hr). now apply Hr.
    + exact H3.
    + intros r' Hn Hr'. apply H4; auto.
    + intros Hlen. apply H5; [lia | auto].
    + discriminate.
  - eexists. eexists. split; [reflexivity |]. simpl.
    repeat split; try (intros; contradiction); try discriminate.
    + lia.
    + constructor.
Qed.

(** X3.  [get_trends] and [get_competitor_updates] always return at most
    [limit] rows of their table that pass the filters given (an empty
    text and a threshold of zero are no filter): trends with the highest
    momentum first, competitor updates with the newest first; the answer
    is empty when the store cannot be read. *)
Theorem X3_get_trends_and_updates_respect_filters_and_order :
  forall (E : Ext) (limit : nat) (w : World),
    (forall (category : option string) (min_momentum : option Q),
     exists rows w',
       get_trends E category min_momentum limit w = (Ok rows, w')
       /\ store w' = store w
       /\ length rows <= limit
       /\ (forall r, In r rows -> In r (trends (store w)))
       /\ (forall c r, category = Some c -> c <> "" -> In r rows ->
           Category_value (tr_category r) = c)
       /\ (forall m r, min_momentum = Some m -> ~ (m == 0)%Q -> In r rows ->
           (m <= tr_momentum_score r)%Q)
       /\ StronglySorted
            (fun a b => (tr_momentum_score b <= tr_momentum_score a)%Q) rows
       /\ (store_ok E (db_ops w) (DbSelect "trends") = false -> rows = []))
    /\ (forall (company_name : option string),
        exists rows w',
          get_competitor_updates E company_name limit w = (Ok rows, w')
          /\ store w' = store w
          /\ length rows <= limit
          /\ (forall r, In r rows -> In r (competitor_updates (store w)))
          /\ (forall c r, company_name = Some c -> c <> "" -> In r rows ->
              cu_company_name r = c)
          /\ StronglySorted
               (fun a b => with_default 0 (cu_created_at b)
                           <= with_default 0 (cu_created_at a)) rows
          /\ (store_ok E (db_ops w) (DbSelect "competitor_updates") = false ->
              rows = [])).
Proof.
  intros E limit w. split.
  - intros category min_momentum.
    unfold get_trends, bind, next_db_op, gets, ret. simpl.
    destruct (store_ok E (db_ops w) (DbSelect "trends")) eqn:Hok.
    + match goal with
      | |- context [sort_by _ ?l] => remember l as picked eqn:Hpicked
      end.
      assert (Hsound : forall r, In r picked ->
                In r (trends (store w))
                /\ (forall c, category = Some c -> c <> "" ->
                    Category_value (tr_category r) = c)
                /\ (forall m, min_momentum = Some m -> ~ (m == 0)%Q ->
                    (m <= tr_momentum_score r)%Q)).
      { intros r Hr. subst picked.
        assert (Hcat : In r (match category with
                             | Some c =>
                                 if String.eqb c "" then trends (store w)
                                 else filter
                                        (fun r => String.eqb
                                                    (Category_value (tr_category r)) c)
                                        (trends (store w))
                             | None => trends (store w)
                             end)
                       /\ (forall m, min_momentum = Some m -> ~ (m == 0)%Q ->
                           (m <= tr_momentum_score r)%Q)).
        { destruct min_momentum as [m |].
          - destruct (Qeq_bool m 0) eqn:Hm.
            + split; [exact Hr |]. intros m' [= <-] Hne.
              apply Qeq_bool_iff in Hm. contradiction.
            + apply filter_In in Hr. destruct Hr as [Hin Hle].
              split; [exact Hin |]. intros m' [= <-] _.
              now apply Qle_bool_iff.
          - split; [exact Hr |]. intros m' [=]. }
        destruct Hcat as [Hin Hscore]. split; [| split; [| exact Hscore]].
        - destruct category as [c |]; [| exact Hin].
          destruct (String.eqb c ""); [exact Hin |].
          apply filter_In in Hin. tauto.
        - intros c -> Hne. apply String.eqb_neq in Hne. rewrite Hne in Hin.
          apply filter_In in Hin. destruct Hin as [_ Hin].
          now apply String.eqb_eq in Hin. }
      destruct (best_rows tr_momentum_score limit picked)
        as (H1 & H2 & H3 & _ & _).
      eexists. eexists. split; [reflexivity |]. simpl.
      repeat split.
      * exact H1.
      * intros r Hr. now apply Hsound, H2.
      * intros c r Hc Hne Hr. apply H2, Hsound in Hr.
        destruct Hr as (_ & Hr & _). now apply Hr.
      * intros m r Hm Hne Hr. apply H2, Hsound in Hr.
        destruct Hr as (_ & _ & Hr). now apply Hr.
      * exact H3.
      * discriminate.
    + eexists. eexists. split; [reflexivity |]. simpl.
      repeat split; try (intros; contradiction); try discriminate.
      * lia.
      * constructor.
  - intros company_name.
    unfold get_competitor_updates, bind, next_db_op, gets, ret. simpl.
    destruct (store_ok E (db_ops w) (DbSelect "competitor_updates")) eqn:Hok.
    + match goal with
      | |- context [sort_by _ ?l] => remember l as picked eqn:Hpicked
      end.
      assert (Hsound : forall r, In r picked ->
                In r (competitor_updates (store w))
                /\ (forall c, company_name = Some c -> c <> "" ->
                    cu_company_name r = c)).
      { intros r Hr. subst picked. destruct company_name as [c |].
        - destruct (String.eqb c "") eqn:Hc.
          + split; [exact Hr |]. intros c' [= <-] Hne.
            apply String.eqb_eq in Hc. contradiction.
          + apply filter_In in Hr. destruct Hr as [Hin Heq].
            split; [exact Hin |]. intros c' [= <-] _.
            now apply String.eqb_eq in Heq.
        - split; [exact Hr |]. intros c' [=]. }
      destruct (newest_rows cu_created_at limit picked)
        as (H1 & H2 & H3 & _ & _).
      eexists. eexists. split; [reflexivity |]. simpl.
      repeat split.
      * exact H1.
      * intros r Hr. now apply Hsound, H2.
      * intros c r Hc Hne Hr. apply H2, Hsound in Hr.
        destruct Hr as [_ Hr]. now apply Hr.
      * exact H3.
      * discriminate.
    + eexists. eexists. split; [reflexivity |]. simpl.
      repeat split; try (intros; contradiction); try discriminate.
      * lia.
      * constructor.
Qed.

(** X4.  [get_high_momentum_trends] has no limit: it returns every trend
    of the table whose momentum reaches [min_momentum], and nothing
    else, the highest momentum first.  Unlike [get_trends] it applies
    the threshold whatever its value. *)
Theorem X4_get_high_momentum_trends_returns_all_above_threshold :
  forall (E : Ext) (min_momentum : Q) (w : World),
  exists rows w',
    get_high_momentum_trends E min_momentum w = (Ok rows, w')
    /\ store w' = store w
    /\ StronglySorted
         (fun a b => (tr_momentum_score b <= tr_momentum_score a)%Q) rows
    /\ (store_ok E (db_ops w) (DbSelect "trends") = true ->
        (forall r, In r rows <->
                   In r (trends (store w))
                   /\ (min_momentum <= tr_momentum_score r)%Q)
        /\ length rows
           = length (filter (fun r => Qle_bool min_momentum (tr_momentum_score r))
                       (trends (store w))))
    /\ (store_ok E (db_ops w) (DbSelect "trends") = false -> rows = []).
Proof.
  intros E min_momentum w.
  unfold get_high_momentum_trends, bind, next_db_op, gets, ret. simpl.
  destruct (store_ok E (db_ops w) (DbSelect "trends")) eqn:Hok.
  - eexists. eexists. split; [reflexivity |]. simpl.
    split; [reflexivity |]. split; [| split].
    + eapply sorted_weaken;
        [| apply sort_by_sorted;
           [apply highest_first_total | apply highest_first_trans]].
      intros a b Hab. unfold highest_first in Hab. now apply Qle_bool_iff.
    + intros _. split.
      * intros r. rewrite In_sort_by, filter_In, Qle_bool_iff. reflexivity.
      * apply length_sort_by.
    + discriminate.
  - eexists. eexists. split; [reflexivity |]. simpl.
    split; [reflexivity |]. split; [constructor |].
    split; [discriminate | reflexivity].
Qed.

Lemma critical_levels (p : Priority) :
  str_in (Priority_value p) ["high"; "critical"] = true <->
  p = HIGH \/ p = CRITICAL.
Proof.
  destruct p; simpl; split; intros H; try discriminate; auto;
    destruct H as [H | H]; discriminate.
Qed.

(** X5.  [get_critical_competitor_updates] returns at most 20 competitor
    updates of the table, the newest first, each of impact level high or
    critical; every one of them is a threat for
    [identify_critical_threats]. *)
Theorem X5_get_critical_competitor_updates_are_threats :
  forall (E : Ext) (w : World),
  exists rows w',
    get_critical_competitor_updates E w = (Ok rows, w')
    /\ store w' = store w
    /\ length rows <= 20
    /\ (forall r, In r rows ->
        In r (competitor_updates (store w))
        /\ (cu_impact_level r = HIGH \/ cu_impact_level r = CRITICAL))
    /\ StronglySorted
         (fun a b => with_default 0 (cu_created_at b)
                     <= with_default 0 (cu_created_at a)) rows
    /\ length (identify_critical_threats rows) = length rows.
Proof.
  intros E w.
  unfold get_critical_competitor_updates, bind, next_db_op, gets, ret. simpl.
  destruct (store_ok E (db_ops w) (DbSelect "competitor_updates")) eqn:Hok.
  - match goal with
    | |- context [sort_by _ ?l] => remember l as picked eqn:Hpicked
    end.
    destruct (newest_rows cu_created_at 20 picked) as (H1 & H2 & H3 & _ & _).
    assert (Hsound : forall r,
              In r (firstn 20 (sort_by (newest_first cu_created_at) picked)) ->
              In r (competitor_updates (store w))
              /\ str_in (Priority_value (cu_impact_level r))
                   ["high"; "critical"] = true).
    { intros r Hr. apply H2 in Hr. subst picked. now apply filter_In in Hr. }
    eexists. eexists. split; [reflexivity |]. simpl.
    repeat split.
    + exact H1.
    + now apply Hsound.
    + apply critical_levels. now apply Hsound.
    + exact H3.
    + unfold identify_critical_threats. rewrite length_map.
      f_equal. apply forallb_filter_id. apply forallb_forall.
      intros r Hr. now apply Hsound.
  - eexists. eexists. split; [reflexivity |]. simpl.
    repeat split; try (intros; contradiction).
    + lia.
    + constructor.
Qed.
(** ** Writing a row and reading it back *)

Lemma insert_opportunity_inv E opportunity w row w1 :
  insert_opportunity E opportunity w = (Ok (Some row), w1) ->
  row = stored_opportunity E (db_ops w) opportunity
  /\ opportunities (store w1) = opportunities (store w) ++ [row]
  /\ db_ops w1 = S (db_ops w).
Proof.
  unfold insert_opportunity, bind, next_db_op, modify, ret. simpl.
  destruct (store_ok E (db_ops w) (DbInsert (RowOpportunity opportunity)));
    [destruct (store_replies E (db_ops w)
                 (DbInsert (RowOpportunity opportunity))) |];
    intros H; inversion H; subst; simpl; auto.
Qed.

Lemma insert_analysis_run_inv E run w row w1 :
  insert_analysis_run E run w = (Ok (Some row), w1) ->
  row = stored_run E (db_ops w) run
  /\ analysis_runs (store w1) = analysis_runs (store w) ++ [row]
  /\ db_ops w1 = S (db_ops w).
Proof.
  unfold insert_analysis_run, bind, next_db_op, modify, ret. simpl.
  destruct (store_ok E (db_ops w) (DbInsert (RowRun run)));
    [destruct (store_replies E (db_ops w) (DbInsert (RowRun run))) |];
    intros H; inversion H; subst; simpl; auto.
Qed.

(** X6.  The row that [insert_opportunity] returns is returned by the
    next [get_opportunities], provided the store answers, [limit]
    exceeds the number of rows that were there before, and the
    threshold, if any, is at most the score as the store holds it.  The
    row is the opportunity given with the [id] and [created_at] the
    store assigned and with the score its column gives back, which need
    not be the score that was written. *)
Theorem X6_stored_opportunity_is_read_back :
  forall (E : Ext) (opportunity : Opportunity) (w : World)
         (row : Opportunity) (w1 : World) (limit : nat)
         (min_score : option Q),
    insert_opportunity E opportunity w = (Ok (Some row), w1) ->
    store_ok E (db_ops w1) (DbSelect "opportunities") = true ->
    length (opportunities (store w)) < limit ->
    (forall m, min_score = Some m ->
               (m <= numeric_3_2 E (op_score opportunity))%Q) ->
    exists rows w2,
      get_opportunities E min_score limit w1 = (Ok rows, w2)
      /\ In row rows
      /\ row = stored_opportunity E (db_ops w) opportunity
      /\ op_score row = numeric_3_2 E (op_score opportunity)
      /\ store w2 = store w1.
Proof.
  intros E opportunity w row w1 limit min_score Hins Hok Hlimit Hmin.
  apply insert_opportunity_inv in Hins. destruct Hins as (Hrow & Htable & Hops).
  unfold get_opportunities, bind, next_db_op, gets, ret. simpl.
  rewrite Hok.
  match goal with
  | |- context [sort_by _ ?l] => remember l as picked eqn:Hpicked
  end.
  assert (Hr : In row (opportunities (store w1))).
  { rewrite Htable. apply in_or_app. right. now left. }
  assert (Hin : In row picked).
  { subst picked. destruct min_score as [m |]; [| exact Hr].
    destruct (Qeq_bool m 0); [exact Hr |].
    apply filter_In. split; [exact Hr |].
    apply Qle_bool_iff. rewrite Hrow. simpl. now apply Hmin. }
  assert (Hshort : length picked <= limit).
  { assert (Hlen : length picked <= length (opportunities (store w1))).
    { subst picked. destruct min_score as [m |]; [| auto].
      destruct (Qeq_bool m 0); [auto | apply filter_length_le]. }
    rewrite Htable, length_app in Hlen. simpl in Hlen. lia. }
  destruct (best_rows op_score limit picked) as (_ & _ & _ & _ & H5).
  eexists. eexists. split; [reflexivity |]. simpl.
  split; [apply H5; assumption |].
  split; [exact Hrow |].
  split; [rewrite Hrow; reflexivity | reflexivity].
Qed.

(** An opportunity of score 0.95 proposed to a store that holds an
    earlier one is read back with the best scores, next to the earlier
    row. *)
Lemma X6_witness :
  exists rows w2,
    get_opportunities (working_ext [] []) (Some (7 # 10)%Q) 5
      (snd (insert_opportunity (working_ext [] []) proposed_opportunity
              (initial_world store_with_earlier_opportunity)))
    = (Ok rows, w2)
    /\ In (stored_opportunity (working_ext [] []) 0 proposed_opportunity) rows
    /\ length rows = 2
    /\ store w2
       = store (snd (insert_opportunity (working_ext [] [])
                       proposed_opportunity
                       (initial_world store_with_earlier_opportunity))).
Proof.
  destruct (@X6_stored_opportunity_is_read_back (working_ext [] [])
              proposed_opportunity
              (initial_world store_with_earlier_opportunity)
              (stored_opportunity (working_ext [] []) 0 proposed_opportunity)
              (snd (insert_opportunity (working_ext [] [])
                      proposed_opportunity
                      (initial_world store_with_earlier_opportunity)))
              5 (Some (7 # 10)%Q))
    as (rows & w2 & Hget & Hin & _ & _ & Hst).
  - reflexivity.
  - reflexivity.
  - simpl. lia.
  - intros m [= <-]. vm_compute. discriminate.
  - exists rows, w2. split; [exact Hget |]. split; [exact Hin |].
    split; [| exact Hst].
    vm_compute in Hget. inversion Hget. reflexivity.
Defined.

(** X7.  A run record that [insert_analysis_run] has stored is returned
    by the next [get_analysis_runs], provided the store answers and
    [limit] exceeds the number of records that were there before; no
    call of [get_analysis_runs] changes the store or returns more than
    [limit] records. *)
Theorem X7_stored_run_is_read_back :
  forall (E : Ext) (limit : nat) (w1 : World),
  exists rows w2,
    get_analysis_runs E limit w1 = (Ok rows, w2)
    /\ store w2 = store w1
    /\ length rows <= limit
    /\ (forall r, In r rows -> In r (analysis_runs (store w1)))
    /\ (forall run w row,
          insert_analysis_run E run w = (Ok (Some row), w1) ->
          store_ok E (db_ops w1) (DbSelect "analysis_runs") = true ->
          length (analysis_runs (store w)) < limit ->
          In row rows /\ row = stored_run E (db_ops w) run).
Proof.
  intros E limit w1.
  unfold get_analysis_runs, bind, next_db_op, gets, ret. simpl.
  destruct (newest_rows ar_created_at limit (analysis_runs (store w1)))
    as (H1 & H2 & _ & _ & H5).
  destruct (store_ok E (db_ops w1) (DbSelect "analysis_runs")) eqn:Hok.
  - eexists. eexists. split; [reflexivity |]. simpl.
    split; [reflexivity |]. split; [exact H1 |]. split; [exact H2 |].
    intros run w row Hins _ Hlimit.
    apply insert_analysis_run_inv in Hins.
    destruct Hins as (Hrow & Htable & _).
    split; [| exact Hrow].
    apply H5.
    + rewrite Htable, length_app. simpl. lia.
    + rewrite Htable. apply in_or_app. right. now left.
  - eexists. eexists. split; [reflexivity |]. simpl.
    split; [reflexivity |]. split; [lia |].
    split; [intros r [] |].
    intros run w row _ Hok' _. congruence.
Qed.

(** X8.  The read helpers agree with the general queries.  A threshold
    of zero is no threshold ([if min_score:] is false for 0.0):
    [get_opportunities] with it returns what [get_top_opportunities]
    returns.  With a threshold other than zero and a limit that covers
    the table, [get_trends] without a category returns what
    [get_high_momentum_trends] returns, which has no limit. *)
Theorem X8_read_helpers_agree_with_the_queries :
  forall (E : Ext) (w : World),
    (forall (m : Q) limit,
       (m == 0)%Q ->
       get_opportunities E (Some m) limit w = get_top_opportunities E limit w)
    /\ (forall (m : Q) limit,
          ~ (m == 0)%Q ->
          length (trends (store w)) <= limit ->
          get_trends E None (Some m) limit w = get_high_momentum_trends E m w).
Proof.
  intros E w. split.
  - intros m limit Hm.
    unfold get_opportunities, get_top_opportunities, bind, next_db_op, gets,
      ret.
    simpl.
    destruct (store_ok E (db_ops w) (DbSelect "opportunities"));
      [| reflexivity].
    rewrite (proj2 (Qeq_bool_iff m 0) Hm). reflexivity.
  - intros m limit Hm Hlen.
    unfold get_trends, get_high_momentum_trends, bind, next_db_op, gets, ret.
    simpl.
    destruct (store_ok E (db_ops w) (DbSelect "trends")); [| reflexivity].
    destruct (Qeq_bool m 0) eqn:Hz.
    + apply Qeq_bool_iff in Hz. contradiction.
    + rewrite firstn_all2; [reflexivity |].
      rewrite length_sort_by.
      etransitivity; [apply filter_length_le | exact Hlen].
Qed.

(** ** The category breakdown and the analysis summary *)

Lemma total_count_dict_set k counts :
  total_count (dict_set k (with_default 0 (assoc k counts) + 1) counts)
  = total_count counts + 1.
Proof.
  unfold total_count. induction counts as [| [k' n] counts IH]; simpl.
  - reflexivity.
  - destruct (String.eqb k k'); simpl; [lia |]. rewrite IH. lia.
Qed.

Lemma In_keys_dict_set V k (v : V) k0 d :
  In k0 (map fst (dict_set k v d)) <-> k0 = k \/ In k0 (map fst d).
Proof.
  induction d as [| [k' v'] d IH]; simpl.
  - intuition auto.
  - destruct (String.eqb k k') eqn:Hk; simpl.
    + apply String.eqb_eq in Hk. subst k'. intuition auto.
    + rewrite IH. intuition auto.
Qed.

Lemma NoDup_keys_dict_set V k (v : V) d :
  NoDup (map fst d) -> NoDup (map fst (dict_set k v d)).
Proof.
  induction d as [| [k' v'] d IH]; simpl; intros Hnd.
  - constructor; [intros [] | constructor].
  - inversion Hnd as [| ? ? Hnotin Hrest]; subst.
    destruct (String.eqb k k') eqn:Hk; simpl.
    + apply String.eqb_eq in Hk. subst k'. now constructor.
    + constructor; [| now apply IH].
      rewrite In_keys_dict_set. intros [-> | Hin]; [| contradiction].
      rewrite String.eqb_refl in Hk. discriminate.
Qed.

Lemma assoc_dict_set V k (v : V) k0 d :
  assoc k0 (dict_set k v d) = if String.eqb k0 k then Some v else assoc k0 d.
Proof.
  destruct (String.eqb k0 k) eqn:Hk.
  - apply String.eqb_eq in Hk. subst k0. apply assoc_dict_set_same.
  - now apply assoc_dict_set_other.
Qed.

Lemma count_categories_fold findings :
  forall counts,
    (forall c,
       with_default 0
         (assoc c
            (fold_left
               (fun counts finding =>
               dict_set (Category_value (mf_category finding))
                 (with_default 0
                    (assoc (Category_value (mf_category finding)) counts) + 1)
                 counts)
               findings counts))
       = with_default 0 (assoc c counts) + findings_in_category c findings)
    /\ total_count
         (fold_left
            (fun counts finding =>
               dict_set (Category_value (mf_category finding))
                 (with_default 0
                    (assoc (Category_value (mf_category finding)) counts) + 1)
                 counts)
            findings counts)
       = total_count counts + length findings
    /\ (NoDup (map fst counts) ->
        NoDup (map fst
                 (fold_left
                    (fun counts finding =>
               dict_set (Category_value (mf_category finding))
                 (with_default 0
                    (assoc (Category_value (mf_category finding)) counts) + 1)
                 counts)
                    findings counts)))
    /\ ((forall c n, assoc c counts = Some n -> 0 < n) ->
        forall c n,
          assoc c
            (fold_left
               (fun counts finding =>
               dict_set (Category_value (mf_category finding))
                 (with_default 0
                    (assoc (Category_value (mf_category finding)) counts) + 1)
                 counts)
               findings counts) = Some n ->
          0 < n).
Proof.
  induction findings as [| f findings IH]; intros counts; simpl.
  - unfold findings_in_category. simpl. repeat split; auto; lia.
  - destruct (IH (dict_set (Category_value (mf_category f))
                    (with_default 0
                       (assoc (Category_value (mf_category f)) counts) + 1)
                    counts)) as (Hc & Ht & Hn & Hp).
    split; [| split; [| split]].
    + intros c. rewrite Hc, assoc_dict_set.
      unfold findings_in_category. simpl.
      rewrite (String.eqb_sym c).
      destruct (String.eqb (Category_value (mf_category f)) c) eqn:Heq; simpl.
      * apply String.eqb_eq in Heq. rewrite Heq.
        unfold findings_in_category. lia.
      * reflexivity.
    + rewrite Ht, total_count_dict_set. lia.
    + intros Hnd. apply Hn. now apply NoDup_keys_dict_set.
    + intros Hpos. apply Hp. intros c n. rewrite assoc_dict_set.
      destruct (String.eqb c (Category_value (mf_category f))).
      * intros [= <-]. lia.
      * apply Hpos.
Qed.

(** X9.  The category breakdown counts every finding once: the count
    under a category value is the number of findings of that category,
    a category without a finding has no entry, no category has two
    entries, and the counts add up to the number of findings. *)
Theorem X9_count_categories_counts_each_finding_once :
  forall findings : list MarketFinding,
    (forall c,
       with_default 0 (assoc c (count_categories findings))
       = findings_in_category c findings)
    /\ (forall c n, assoc c (count_categories findings) = Some n -> 0 < n)
    /\ NoDup (map fst (count_categories findings))
    /\ total_count (count_categories findings) = length findings.
Proof.
  intros findings. unfold count_categories.
  destruct (count_categories_fold findings []) as (Hc & Ht & Hn & Hp).
  repeat split.
  - intros c. exact (Hc c).
  - apply Hp. intros c n. discriminate.
  - apply Hn. constructor.
  - exact Ht.
Qed.

Lemma get_market_findings_run E limit category start_date w :
  exists rows w1,
    get_market_findings E limit category start_date w = (Ok rows, w1)
    /\ store w1 = store w /\ outbox w1 = outbox w
    /\ db_ops w1 = S (db_ops w)
    /\ length rows <= limit
    /\ (store_unreachable E -> rows = []).
Proof.
  unfold get_market_findings, bind, next_db_op, gets, ret. simpl.
  destruct (store_ok E (db_ops w) (DbSelect "market_findings")) eqn:Hok.
  - eexists. eexists. split; [reflexivity |]. simpl.
    repeat split; [apply firstn_le_length |].
    intros Hdown. rewrite Hdown in Hok. discriminate.
  - eexists. eexists. split; [reflexivity |]. simpl.
    repeat split; auto; lia.
Qed.

Lemma get_opportunities_run E min_score limit w :
  exists rows w1,
    get_opportunities E min_score limit w = (Ok rows, w1)
    /\ store w1 = store w /\ outbox w1 = outbox w
    /\ db_ops w1 = S (db_ops w)
    /\ length rows <= limit
    /\ (store_unreachable E -> rows = []).
Proof.
  unfold get_opportunities, bind, next_db_op, gets, ret. simpl.
  destruct (store_ok E (db_ops w) (DbSelect "opportunities")) eqn:Hok.
  - eexists. eexists. split; [reflexivity |]. simpl.
    repeat split; [apply firstn_le_length |].
    intros Hdown. rewrite Hdown in Hok. discriminate.
  - eexists. eexists. split; [reflexivity |]. simpl.
    repeat split; auto; lia.
Qed.

Lemma get_trends_run E category min_momentum limit w :
  exists rows w1,
    get_trends E category min_momentum limit w = (Ok rows, w1)
    /\ store w1 = store w /\ outbox w1 = outbox w
    /\ db_ops w1 = S (db_ops w)
    /\ length rows <= limit
    /\ (store_unreachable E -> rows = []).
Proof.
  unfold get_trends, bind, next_db_op, gets, ret. simpl.
  destruct (store_ok E (db_ops w) (DbSelect "trends")) eqn:Hok.
  - eexists. eexists. split; [reflexivity |]. simpl.
    repeat split; [apply firstn_le_length |].
    intros Hdown. rewrite Hdown in Hok. discriminate.
  - eexists. eexists. split; [reflexivity |]. simpl.
    repeat split; auto; lia.
Qed.

Lemma get_competitor_updates_run E company_name limit w :
  exists rows w1,
    get_competitor_updates E company_name limit w = (Ok rows, w1)
    /\ store w1 = store w /\ outbox w1 = outbox w
    /\ db_ops w1 = S (db_ops w)
    /\ length rows <= limit
    /\ (store_unreachable E -> rows = []).
Proof.
  unfold get_competitor_updates, bind, next_db_op, gets, ret. simpl.
  destruct (store_ok E (db_ops w) (DbSelect "competitor_updates")) eqn:Hok.
  - eexists. eexists. split; [reflexivity |]. simpl.
    repeat split; [apply firstn_le_length |].
    intros Hdown. rewrite Hdown in Hok. discriminate.
  - eexists. eexists. split; [reflexivity |]. simpl.
    repeat split; auto; lia.
Qed.

Lemma get_latest_findings_by_category_run E w :
  exists counts w1,
    get_latest_findings_by_category E w = (Ok counts, w1)
    /\ store w1 = store w /\ outbox w1 = outbox w
    /\ db_ops w1 = S (db_ops w)
    /\ total_count counts <= 1000
    /\ (store_unreachable E -> counts = []).
Proof.
  unfold get_latest_findings_by_category, try_except.
  destruct (get_market_findings_run E 1000 None (Some (today E - 7)%Z) w)
    as (rows & w1 & Hrun & Hst & Hout & Hops & Hlen & Hdown).
  erewrite bind_Ok_run by exact Hrun. unfold ret.
  exists (count_categories rows), w1. split; [reflexivity |].
  repeat split; auto.
  - destruct (count_categories_fold rows []) as (_ & Ht & _).
    unfold count_categories.
    etransitivity; [apply Nat.eq_le_incl; exact Ht | exact Hlen].
  - intros Hd. rewrite (Hdown Hd). reflexivity.
Qed.

Lemma filter_length_bound A (p : A -> bool) (l : list A) :
  length (filter p l) <= length l.
Proof. apply filter_length_le. Qed.

Lemma days_before_cases E days :
  (days_in_range E days
   /\ days_before (today E) days = Ok (today E - days)%Z)
  \/ (~ days_in_range E days
      /\ days_before (today E) days = Raise OverflowError).
Proof.
  unfold days_in_range, days_before.
  destruct (Z.abs days <=? 999999999)%Z eqn:H1;
    destruct (date_min <=? today E - days)%Z eqn:H2;
    destruct (today E - days <=? date_max)%Z eqn:H3; simpl;
    rewrite ?Z.leb_le, ?Z.leb_gt in H1, H2, H3;
    first [left; split; [repeat split; assumption | reflexivity]
          | right; split; [intros (? & ? & ?); lia | reflexivity]].
Qed.

(** X10.  [get_analysis_summary] always returns a dictionary and writes
    nothing.  When the date [days] days before today exists, it is not
    the error dictionary: each query contains its own failure; five
    requests go to the store, every count is at most 1000, the three
    derived counts are bounded by the counts they are taken from, and
    when the store cannot be reached every count is zero and the
    breakdown empty.  When that date does not exist, the subtraction
    raises before any request is sent and the error dictionary is
    returned. *)
Theorem X10_analysis_summary_reports_an_error_only_for_unreachable_days :
  forall (E : Ext) (days : Z) (w : World),
  exists s w',
    get_analysis_summary E days w = (Ok s, w')
    /\ store w' = store w /\ outbox w' = outbox w
    /\ as_period_days s = days
    /\ (days_in_range E days ->
        db_ops w' = db_ops w + 5
        /\ as_error s = None
        /\ as_start_date s = Some (today E - days)%Z
        /\ exists f o t u hv hm cu counts,
             as_market_findings s = Some f
             /\ as_opportunities s = Some o
             /\ as_trends s = Some t
             /\ as_competitor_updates s = Some u
             /\ as_high_value_opportunities s = Some hv
             /\ as_high_momentum_trends s = Some hm
             /\ as_critical_competitor_updates s = Some cu
             /\ as_category_breakdown s = Some counts
             /\ f <= 1000 /\ o <= 1000 /\ t <= 1000 /\ u <= 1000
             /\ hv <= o /\ hm <= t /\ cu <= u
             /\ (store_unreachable E ->
                 f = 0 /\ o = 0 /\ t = 0 /\ u = 0 /\ counts = []))
    /\ (~ days_in_range E days ->
        w' = w
        /\ as_error s = Some OverflowError
        /\ as_start_date s = None
        /\ as_market_findings s = None
        /\ as_category_breakdown s = None).
Proof.
  intros E days w. unfold get_analysis_summary, try_except.
  destruct (days_before_cases E days) as [[Hin Hd] | [Hout Hd]].
  - unfold bind at 1, lift. rewrite Hd.
    destruct (get_market_findings_run E 1000 None (Some (today E - days)%Z) w)
      as (fs & w1 & Hrun1 & Hst1 & Hout1 & Hops1 & Hlen1 & Hdown1).
    erewrite bind_Ok_run by exact Hrun1.
    destruct (get_opportunities_run E None 1000 w1)
      as (os & w2 & Hrun2 & Hst2 & Hout2 & Hops2 & Hlen2 & Hdown2).
    erewrite bind_Ok_run by exact Hrun2.
    destruct (get_trends_run E None None 1000 w2)
      as (ts & w3 & Hrun3 & Hst3 & Hout3 & Hops3 & Hlen3 & Hdown3).
    erewrite bind_Ok_run by exact Hrun3.
    destruct (get_competitor_updates_run E None 1000 w3)
      as (us & w4 & Hrun4 & Hst4 & Hout4 & Hops4 & Hlen4 & Hdown4).
    erewrite bind_Ok_run by exact Hrun4.
    destruct (get_latest_findings_by_category_run E w4)
      as (counts & w5 & Hrun5 & Hst5 & Hout5 & Hops5 & _ & Hdown5).
    erewrite bind_Ok_run by exact Hrun5.
    unfold ret. eexists. exists w5. split; [reflexivity |]. simpl.
    split; [congruence |]. split; [congruence |]. split; [reflexivity |].
    split; [| intros Hno; contradiction].
    intros _. split; [lia |].
    split; [reflexivity |]. split; [reflexivity |].
    do 8 eexists. repeat (split; [reflexivity |]).
    repeat (split; [first [assumption | apply filter_length_bound] |]).
    intros Hdown.
    rewrite (Hdown1 Hdown), (Hdown2 Hdown), (Hdown3 Hdown), (Hdown4 Hdown),
      (Hdown5 Hdown).
    repeat split; reflexivity.
  - unfold bind at 1, lift. rewrite Hd. unfold ret.
    eexists. exists w. split; [reflexivity |]. simpl.
    split; [reflexivity |]. split; [reflexivity |]. split; [reflexivity |].
    split; [intros Hin; contradiction |].
    intros _. repeat split; reflexivity.
Qed.

(** ** The notifier *)

Lemma send_loop E email_type body recipients :
  forall count w,
  exists sent acked w',
    for_each recipients count
      (fun count recipient =>
         if String.eqb (strip recipient) "" then ret count
         else
           sent <- send_email E (strip recipient) email_type body ;;
           ret (if sent : bool then S count else count)) w
    = (Ok (count + acked), w')
    /\ outbox w' = outbox w ++ sent
    /\ store w' = store w
    /\ acked <= length sent
    /\ ((forall n m, smtp_quit_ok E n m = true) -> acked = length sent)
    /\ length sent <= length recipients
    /\ Forall (fun m => em_type m = email_type /\ em_body m = body
                        /\ em_to m <> ""
                        /\ exists recipient,
                             In recipient recipients
                             /\ em_to m = strip recipient) sent.
Proof.
  induction recipients as [| r recipients IH]; intros count w.
  - exists [], 0, w. simpl. unfold ret. rewrite Nat.add_0_r, app_nil_r.
    repeat split; auto.
  - cbn [for_each]. destruct (String.eqb (strip r) "") eqn:Hblank.
    + destruct (IH count w)
        as (sent & acked & w' & Hrun & Hout & Hst & Hack & Hquit & Hlen & Hall).
      exists sent, acked, w'. unfold bind at 1. unfold ret at 1. rewrite Hrun.
      repeat split; auto.
      * simpl. lia.
      * eapply Forall_impl; [| exact Hall].
        intros m (H1 & H2 & H3 & r' & Hin & Hto).
        repeat split; auto. exists r'. split; [now right | exact Hto].
    + unfold bind at 1. unfold bind at 1. unfold send_email at 1.
      set (msg := {| em_to := strip r; em_type := email_type;
                     em_body := body |}).
      destruct (smtp_ok E (smtp_ops w) msg) eqn:Hsmtp;
        [destruct (smtp_quit_ok E (smtp_ops w) msg) eqn:Hq |];
        cbn [andb]; unfold ret at 1.
      * match goal with
        | |- context [for_each recipients (S count) _ ?w1] =>
            destruct (IH (S count) w1)
              as (sent & acked & w' & Hrun & Hout & Hst & Hack & Hquit & Hlen
                  & Hall)
        end.
        exists (msg :: sent), (S acked), w'.
        rewrite Hrun. simpl in *. rewrite Hout, <- app_assoc. simpl.
        split; [f_equal; f_equal; lia |].
        split; [reflexivity |]. split; [exact Hst |]. split; [lia |].
        split; [intros Hall_quit; rewrite (Hquit Hall_quit); reflexivity |].
        split; [lia |].
        constructor.
        -- simpl. repeat split; auto.
           ++ intros Heq. rewrite Heq in Hblank. discriminate.
           ++ exists r. split; [now left | reflexivity].
        -- eapply Forall_impl; [| exact Hall].
           intros m (H1 & H2 & H3 & r' & Hin & Hto).
           repeat split; auto. exists r'. split; [now right | exact Hto].
      * match goal with
        | |- context [for_each recipients count _ ?w1] =>
            destruct (IH count w1)
              as (sent & acked & w' & Hrun & Hout & Hst & Hack & Hquit & Hlen
                  & Hall)
        end.
        exists (msg :: sent), acked, w'.
        rewrite Hrun. simpl in *. rewrite Hout, <- app_assoc. simpl.
        split; [reflexivity |].
        split; [reflexivity |]. split; [exact Hst |]. split; [lia |].
        split; [intros Hall_quit; rewrite Hall_quit in Hq; discriminate |].
        split; [lia |].
        constructor.
        -- simpl. repeat split; auto.
           ++ intros Heq. rewrite Heq in Hblank. discriminate.
           ++ exists r. split; [now left | reflexivity].
        -- eapply Forall_impl; [| exact Hall].
           intros m (H1 & H2 & H3 & r' & Hin & Hto).
           repeat split; auto. exists r'. split; [now right | exact Hto].
      * match goal with
        | |- context [for_each recipients count _ ?w1] =>
            destruct (IH count w1)
              as (sent & acked & w' & Hrun & Hout & Hst & Hack & Hquit & Hlen
                  & Hall)
        end.
        exists sent, acked, w'. rewrite Hrun. simpl in *.
        repeat split; auto.
        eapply Forall_impl; [| exact Hall].
        intros m (H1 & H2 & H3 & r' & Hin & Hto).
        repeat split; auto. exists r'. split; [now right | exact Hto].
Qed.

Lemma send_to_recipients_run E email_type body w :
  exists ok w' sent,
    send_to_recipients E email_type body w = (Ok ok, w')
    /\ outbox w' = outbox w ++ sent
    /\ store w' = store w
    /\ ((ok = true -> sent <> [])
        /\ ((forall n m, smtp_quit_ok E n m = true) ->
            sent <> [] -> ok = true))
    /\ Forall (addressed_to E email_type body) sent
    /\ length sent <= length (notification_recipients E)
    /\ (gmail_enabled E = false \/ renders E body = false ->
        sent = [] /\ smtp_ops w' = smtp_ops w).
Proof.
  unfold send_to_recipients.
  destruct (negb (gmail_enabled E)
            || Nat.eqb (length (notification_recipients E)) 0) eqn:Hoff.
  - exists false, w, []. unfold ret. rewrite app_nil_r.
    split; [reflexivity |]. split; [reflexivity |]. split; [reflexivity |].
    split; [split; [discriminate | intros _ Hne; contradiction] |].
    split; [constructor |]. split; [simpl; lia |].
    intros _. split; reflexivity.
  - apply orb_false_iff in Hoff. destruct Hoff as [Hon _].
    apply negb_false_iff in Hon.
    unfold try_except. destruct (renders E body) eqn:Hrenders.
    + destruct (send_loop E email_type body (notification_recipients E) 0 w)
        as (sent & acked & w' & Hrun & Hout & Hst & Hack & Hquit & Hlen & Hall).
      erewrite bind_Ok_run by exact Hrun. unfold ret.
      exists (Nat.ltb 0 (0 + acked)), w', sent.
      split; [reflexivity |]. split; [exact Hout |]. split; [exact Hst |].
      split; [split |].
      * intros Hok Hnil. subst sent. simpl in Hack.
        assert (acked = 0) by lia. subst acked. discriminate Hok.
      * intros Hall_quit Hne. rewrite (Hquit Hall_quit).
        destruct sent; [contradiction | reflexivity].
      * split; [exact Hall |]. split; [exact Hlen |].
        intros [H | H]; congruence.
    + exists false, w, []. unfold raise, ret. rewrite app_nil_r.
      split; [reflexivity |]. split; [reflexivity |]. split; [reflexivity |].
      split; [split; [discriminate | intros _ Hne; contradiction] |].
      split; [constructor |]. split; [simpl; lia |].
      intros _. split; reflexivity.
Qed.

(** X11.  The three send operations of the notifier share one body.  It
    always returns.  When it returns true it has handed at least one
    message to the mail server; a message can have been handed over and
    the result still be false, because the [quit] that follows
    [sendmail] can fail: when no [quit] fails, the result is true
    exactly when a message was handed over.  Every message it adds to
    the outbox has the type and body given and goes to a configured
    recipient, stripped and not blank; at most one message goes to each
    recipient.  When the notifier is disabled or the body cannot be
    rendered, it contacts no mail server at all. *)
Theorem X11_send_returns_true_only_if_a_message_was_handed_over :
  forall (E : Ext) (email_type : string) (body : EmailBody) (w : World),
  exists ok w' sent,
    send_to_recipients E email_type body w = (Ok ok, w')
    /\ outbox w' = outbox w ++ sent
    /\ store w' = store w
    /\ ((ok = true -> sent <> [])
        /\ ((forall n m, smtp_quit_ok E n m = true) ->
            sent <> [] -> ok = true))
    /\ Forall (addressed_to E email_type body) sent
    /\ length sent <= length (notification_recipients E)
    /\ (gmail_enabled E = false \/ renders E body = false ->
        sent = [] /\ smtp_ops w' = smtp_ops w).
Proof. intros E email_type body w. apply send_to_recipients_run. Qed.

Lemma alert_loop E alerts :
  forall w,
  exists w' mails,
    for_each alerts tt
      (fun _ alert => _ <- send_critical_alert E alert ;; ret tt) w
    = (Ok tt, w')
    /\ outbox w' = outbox w ++ mails
    /\ store w' = store w
    /\ Forall (fun m => em_type m = "critical_alert"
                        /\ exists alert,
                             In alert alerts
                             /\ em_body m = CriticalAlertBody alert) mails
    /\ length mails <= length alerts * length (notification_recipients E).
Proof.
  induction alerts as [| alert alerts IH]; intros w.
  - exists w, []. simpl. unfold ret. rewrite app_nil_r. repeat split; auto.
  - cbn [for_each].
    destruct (send_to_recipients_run E "critical_alert"
                (CriticalAlertBody alert) w)
      as (ok & w1 & sent & Hrun & Hout & Hst & _ & Hall & Hlen & _).
    destruct (IH w1) as (w' & mails & Hrun' & Hout' & Hst' & Hall' & Hlen').
    exists w', (sent ++ mails).
    assert (Hbody : (send_critical_alert E alert ;;; ret tt) w = (Ok tt, w1)).
    { unfold send_critical_alert. erewrite bind_Ok_run by exact Hrun.
      reflexivity. }
    erewrite bind_Ok_run by exact Hbody.
    rewrite Hrun'. split; [reflexivity |].
    split; [rewrite Hout', Hout, app_assoc; reflexivity |].
    split; [congruence |]. split.
    + apply Forall_app. split.
      * eapply Forall_impl; [| exact Hall].
        intros m (Ht & Hb & _). split; [exact Ht |].
        exists alert. split; [now left | exact Hb].
      * eapply Forall_impl; [| exact Hall'].
        intros m (Ht & a & Hin & Hb). split; [exact Ht |].
        exists a. split; [now right | exact Hb].
    + rewrite length_app. simpl. lia.
Qed.

(** X12.  [_send_daily_notifications] always returns and leaves the store
    as it is.  What it adds to the outbox is, in this order, the alert
    messages (one alert of [_identify_critical_alerts] each, at most one
    per alert and recipient) and then the daily report messages (at most
    one per recipient); the report carries the list of alerts exactly
    when there is at least one.  Results without a summary, as the error
    result of the run, send nothing. *)
Theorem X12_alerts_are_mailed_before_the_daily_report :
  forall (E : Ext) (results : Results) (w : World),
  exists w' alert_mails report_mails,
    send_daily_notifications E results w = (Ok tt, w')
    /\ store w' = store w
    /\ outbox w' = outbox w ++ alert_mails ++ report_mails
    /\ Forall (fun m => em_type m = "critical_alert"
                        /\ exists alert,
                             In alert (identify_critical_alerts results)
                             /\ em_body m = CriticalAlertBody alert)
         alert_mails
    /\ Forall (fun m => em_type m = "daily_report"
                        /\ exists report_data,
                             em_body m = DailyReportBody report_data
                             /\ rd_critical_alerts report_data
                                = match identify_critical_alerts results with
                                  | [] => None
                                  | alerts => Some alerts
                                  end)
         report_mails
    /\ length alert_mails
       <= length (identify_critical_alerts results)
          * length (notification_recipients E)
    /\ length report_mails <= length (notification_recipients E)
    /\ (rs_summary results = None -> alert_mails = [] /\ report_mails = []).
Proof.
  intros E results w. unfold send_daily_notifications, try_except.
  unfold build_report_data.
  destruct (rs_summary results) as [summary |] eqn:Hsummary.
  - unfold lift at 1. unfold bind at 1.
    destruct (identify_critical_alerts results) as [| alert alerts] eqn:Halerts.
    + unfold bind at 1. unfold ret at 1. unfold send_daily_report.
      match goal with
      | |- context [send_to_recipients E "daily_report" ?b] =>
          destruct (send_to_recipients_run E "daily_report" b w)
            as (ok & w1 & sent & Hrun & Hout & Hst & _ & Hall & Hlen & _)
      end.
      erewrite bind_Ok_run by exact Hrun. unfold ret.
      exists w1, [], sent. split; [reflexivity |].
      repeat split; auto; try discriminate.
      eapply Forall_impl; [| exact Hall].
      intros m (Ht & Hb & _). split; [exact Ht |].
      eexists. split; [exact Hb | reflexivity].
    + destruct (alert_loop E (alert :: alerts) w)
        as (w1 & mails & Hrun1 & Hout1 & Hst1 & Hall1 & Hlen1).
      unfold bind at 1.
      erewrite bind_Ok_run by exact Hrun1.
      unfold ret at 1. unfold send_daily_report.
      match goal with
      | |- context [send_to_recipients E "daily_report" ?b] =>
          destruct (send_to_recipients_run E "daily_report" b w1)
            as (ok & w2 & sent & Hrun & Hout & Hst & _ & Hall & Hlen & _)
      end.
      erewrite bind_Ok_run by exact Hrun. unfold ret.
      exists w2, mails, sent. split; [reflexivity |].
      split; [congruence |].
      split; [rewrite Hout, Hout1, app_assoc; reflexivity |].
      split; [exact Hall1 |]. split.
      * eapply Forall_impl; [| exact Hall].
        intros m (Ht & Hb & _). split; [exact Ht |].
        eexists. split; [exact Hb | reflexivity].
      * split; [exact Hlen1 |]. split; [exact Hlen | discriminate].
  - unfold lift at 1. unfold bind at 1. unfold ret.
    exists w, [], []. rewrite app_nil_r. simpl.
    repeat split; auto; lia.
Qed.

(** ** What a run writes and what it sends *)

Lemma outbox_local (w w' : World) :
  store w = store w' -> outbox w = outbox w' -> outbox w = outbox w'.
Proof. auto. Qed.

Lemma findings_local (w w' : World) :
  store w = store w' -> outbox w = outbox w' -> findings_of w = findings_of w'.
Proof. unfold findings_of. intros H _. rewrite H. reflexivity. Qed.

Lemma trends_local (w w' : World) :
  store w = store w' -> outbox w = outbox w' -> trends_of w = trends_of w'.
Proof. unfold trends_of. intros H _. rewrite H. reflexivity. Qed.

Lemma preserves_store_findings A (m : M A) :
  preserves store m -> preserves findings_of m.
Proof. intros H w. unfold findings_of. rewrite H. reflexivity. Qed.

Lemma preserves_store_trends A (m : M A) :
  preserves store m -> preserves trends_of m.
Proof. intros H w. unfold trends_of. rewrite H. reflexivity. Qed.

#[local] Hint Extern 1 (preserves outbox next_db_op) =>
  exact (@preserves_next_db_op _ outbox outbox_local) : frame.
#[local] Hint Extern 1 (preserves findings_of next_db_op) =>
  exact (@preserves_next_db_op _ findings_of findings_local) : frame.
#[local] Hint Extern 1 (preserves trends_of next_db_op) =>
  exact (@preserves_next_db_op _ trends_of trends_local) : frame.
#[local] Hint Extern 1 (preserves outbox (llm_invoke _ _)) =>
  apply (@preserves_llm_invoke _ outbox outbox_local) : frame.
#[local] Hint Extern 1 (preserves findings_of (llm_invoke _ _)) =>
  apply (@preserves_llm_invoke _ findings_of findings_local) : frame.
#[local] Hint Extern 1 (preserves trends_of (llm_invoke _ _)) =>
  apply (@preserves_llm_invoke _ trends_of trends_local) : frame.

Ltac insert_frame :=
  let w := fresh "w" in
  intros w;
  unfold insert_market_finding, insert_competitor_update, insert_opportunity,
    insert_trend, insert_analysis_run, bind, next_db_op;
  match goal with
  | |- context [store_ok ?E ?n ?r] =>
      destruct (store_ok E n r); [destruct (store_replies E n r) |]
  end; reflexivity.

Lemma preserves_outbox_insert_market_finding E x :
  preserves outbox (insert_market_finding E x).
Proof. insert_frame. Qed.

Lemma preserves_outbox_insert_competitor_update E x :
  preserves outbox (insert_competitor_update E x).
Proof. insert_frame. Qed.

Lemma preserves_outbox_insert_opportunity E x :
  preserves outbox (insert_opportunity E x).
Proof. insert_frame. Qed.

Lemma preserves_outbox_insert_trend E x :
  preserves outbox (insert_trend E x).
Proof. insert_frame. Qed.

Lemma preserves_outbox_insert_analysis_run E x :
  preserves outbox (insert_analysis_run E x).
Proof. insert_frame. Qed.

Lemma preserves_findings_insert_competitor_update E x :
  preserves findings_of (insert_competitor_update E x).
Proof. insert_frame. Qed.

Lemma preserves_findings_insert_opportunity E x :
  preserves findings_of (insert_opportunity E x).
Proof. insert_frame. Qed.

Lemma preserves_findings_insert_trend E x :
  preserves findings_of (insert_trend E x).
Proof. insert_frame. Qed.

Lemma preserves_findings_insert_analysis_run E x :
  preserves findings_of (insert_analysis_run E x).
Proof. insert_frame. Qed.

Lemma preserves_trends_insert_competitor_update E x :
  preserves trends_of (insert_competitor_update E x).
Proof. insert_frame. Qed.

Lemma preserves_trends_insert_opportunity E x :
  preserves trends_of (insert_opportunity E x).
Proof. insert_frame. Qed.

Lemma preserves_trends_insert_analysis_run E x :
  preserves trends_of (insert_analysis_run E x).
Proof. insert_frame. Qed.

Lemma preserves_outbox_get_market_findings E limit category start_date :
  preserves outbox (get_market_findings E limit category start_date).
Proof. unfold get_market_findings. frame. Qed.

Lemma preserves_outbox_get_competitor_updates E company_name limit :
  preserves outbox (get_competitor_updates E company_name limit).
Proof. unfold get_competitor_updates. frame. Qed.

Lemma preserves_outbox_get_opportunities E min_score limit :
  preserves outbox (get_opportunities E min_score limit).
Proof. unfold get_opportunities. frame. Qed.

Lemma preserves_outbox_get_trends E category min_momentum limit :
  preserves outbox (get_trends E category min_momentum limit).
Proof. unfold get_trends. frame. Qed.

#[local] Hint Resolve preserves_outbox_insert_market_finding
  preserves_outbox_insert_competitor_update preserves_outbox_insert_opportunity
  preserves_outbox_insert_trend preserves_outbox_insert_analysis_run
  preserves_findings_insert_competitor_update
  preserves_findings_insert_opportunity preserves_findings_insert_trend
  preserves_findings_insert_analysis_run
  preserves_trends_insert_competitor_update
  preserves_trends_insert_opportunity preserves_trends_insert_analysis_run
  preserves_outbox_get_market_findings preserves_outbox_get_competitor_updates
  preserves_outbox_get_opportunities preserves_outbox_get_trends : frame.

#[local] Hint Extern 2 (preserves findings_of (get_market_findings _ _ _ _)) =>
  apply preserves_store_findings; apply preserves_get_market_findings : frame.
#[local] Hint Extern 2 (preserves findings_of (get_competitor_updates _ _ _)) =>
  apply preserves_store_findings; apply preserves_get_competitor_updates : frame.
#[local] Hint Extern 2 (preserves findings_of (get_opportunities _ _ _)) =>
  apply preserves_store_findings; apply preserves_get_opportunities : frame.
#[local] Hint Extern 2 (preserves findings_of (get_trends _ _ _ _)) =>
  apply preserves_store_findings; apply preserves_get_trends : frame.
#[local] Hint Extern 2 (preserves trends_of (get_market_findings _ _ _ _)) =>
  apply preserves_store_trends; apply preserves_get_market_findings : frame.
#[local] Hint Extern 2 (preserves trends_of (get_competitor_updates _ _ _)) =>
  apply preserves_store_trends; apply preserves_get_competitor_updates : frame.
#[local] Hint Extern 2 (preserves trends_of (get_opportunities _ _ _)) =>
  apply preserves_store_trends; apply preserves_get_opportunities : frame.
#[local] Hint Extern 2 (preserves trends_of (get_trends _ _ _ _)) =>
  apply preserves_store_trends; apply preserves_get_trends : frame.

(** *** The stages send no mail *)

Lemma preserves_outbox_market E :
  preserves outbox (gather_market_intelligence E).
Proof. unfold gather_market_intelligence, store_finding. frame. Qed.

Lemma preserves_outbox_competitor E :
  preserves outbox (monitor_competitors E).
Proof.
  unfold monitor_competitors, monitor_one, store_update,
    analyze_competitor_updates, analyze_competitive_landscape.
  frame.
Qed.

Lemma preserves_outbox_trend E :
  preserves outbox (analyze_market_trends E).
Proof.
  unfold analyze_market_trends, store_trend, analyze_trend_patterns. frame.
Qed.

Lemma preserves_outbox_synthesis E :
  preserves outbox (generate_strategic_analysis E).
Proof.
  unfold generate_strategic_analysis, store_opportunity,
    synthesize_intelligence, identify_opportunities.
  frame.
Qed.

Lemma preserves_outbox_store_analysis_run E results :
  preserves outbox (store_analysis_run E results).
Proof. unfold store_analysis_run. frame. Qed.

Lemma preserves_outbox_analyze_specific_topic E topic context :
  preserves outbox (analyze_specific_topic E topic context).
Proof. unfold analyze_specific_topic. frame. Qed.

Lemma preserves_outbox_analyze_trend_convergence E :
  preserves outbox (analyze_trend_convergence E).
Proof. unfold analyze_trend_convergence. frame. Qed.

Lemma preserves_store_analyze_specific_topic E topic context :
  preserves store (analyze_specific_topic E topic context).
Proof. unfold analyze_specific_topic. frame. Qed.

Lemma preserves_store_analyze_trend_convergence E :
  preserves store (analyze_trend_convergence E).
Proof. unfold analyze_trend_convergence. frame. Qed.

Lemma analyze_specific_topic_run E topic context w :
  exists analysis w',
    analyze_specific_topic E topic context w = (Ok analysis, w')
    /\ ta_topic analysis = topic
    /\ llm_calls w' = S (llm_calls w)
    /\ db_ops w' = db_ops w.
Proof.
  unfold analyze_specific_topic, try_except, bind, llm_invoke, ret. cbv zeta.
  match goal with
  | |- context [llm E (llm_calls w) ?p] => destruct (llm E (llm_calls w) p)
  end; eexists; eexists; (split; [reflexivity |]); simpl; auto.
Qed.

Lemma analyze_trend_convergence_run E w :
  exists convergence w',
    analyze_trend_convergence E w = (Ok convergence, w')
    /\ llm_calls w' = S (llm_calls w)
    /\ db_ops w' = S (db_ops w).
Proof.
  unfold analyze_trend_convergence, try_except.
  unfold get_trends, bind, next_db_op, gets, llm_invoke, ret. simpl.
  destruct (store_ok E (db_ops w) (DbSelect "trends")); simpl;
    match goal with
    | |- context [llm E (llm_calls w) ?p] => destruct (llm E (llm_calls w) p)
    end; eexists; eexists; (split; [reflexivity |]); simpl; auto.
Qed.

(** X13.  [run_quick_analysis] never returns its error dictionary and
    never changes the store or the outbox: it always returns the two
    analyses for the topic given, after exactly two calls to the
    completion service and one read of the store. *)
Theorem X13_quick_analysis_only_reads :
  forall (E : Ext) (topic : string) (w : World),
  exists market_analysis trend_convergence w',
    run_quick_analysis E topic w
    = (Ok (QuickAnalysis topic market_analysis trend_convergence (now_iso E)),
       w')
    /\ ta_topic market_analysis = topic
    /\ store w' = store w
    /\ outbox w' = outbox w
    /\ llm_calls w' = llm_calls w + 2
    /\ db_ops w' = db_ops w + 1.
Proof.
  intros E topic w. unfold run_quick_analysis, try_except.
  destruct (analyze_specific_topic_run E topic "" w)
    as (ma & w1 & Hrun1 & Htopic & Hllm1 & Hdb1).
  destruct (analyze_trend_convergence_run E w1)
    as (tc & w2 & Hrun2 & Hllm2 & Hdb2).
  erewrite bind_Ok_run by exact Hrun1.
  erewrite bind_Ok_run by exact Hrun2.
  exists ma, tc, w2. split; [reflexivity |]. split; [exact Htopic |].
  pose proof (preserves_store_analyze_specific_topic E topic "" w) as Hs1.
  pose proof (preserves_store_analyze_trend_convergence E w1) as Hs2.
  pose proof (preserves_outbox_analyze_specific_topic E topic "" w) as Ho1.
  pose proof (preserves_outbox_analyze_trend_convergence E w1) as Ho2.
  rewrite Hrun1 in Hs1, Ho1. rewrite Hrun2 in Hs2, Ho2. simpl in *.
  repeat split; try congruence; lia.
Qed.

(** *** What each run reports against what it wrote *)

Lemma preserves_trends_insert_market_finding E x :
  preserves trends_of (insert_market_finding E x).
Proof. insert_frame. Qed.

#[local] Hint Resolve preserves_trends_insert_market_finding : frame.

Lemma preserves_trends_market E :
  preserves trends_of (gather_market_intelligence E).
Proof. unfold gather_market_intelligence, store_finding. frame. Qed.

Lemma preserves_findings_competitor E :
  preserves findings_of (monitor_competitors E).
Proof.
  unfold monitor_competitors, monitor_one, store_update,
    analyze_competitor_updates, analyze_competitive_landscape.
  frame.
Qed.

Lemma preserves_trends_competitor E :
  preserves trends_of (monitor_competitors E).
Proof.
  unfold monitor_competitors, monitor_one, store_update,
    analyze_competitor_updates, analyze_competitive_landscape.
  frame.
Qed.

Lemma preserves_findings_trend E :
  preserves findings_of (analyze_market_trends E).
Proof.
  unfold analyze_market_trends, store_trend, analyze_trend_patterns. frame.
Qed.

Lemma preserves_findings_synthesis E :
  preserves findings_of (generate_strategic_analysis E).
Proof.
  unfold generate_strategic_analysis, store_opportunity,
    synthesize_intelligence, identify_opportunities.
  frame.
Qed.

Lemma preserves_trends_synthesis E :
  preserves trends_of (generate_strategic_analysis E).
Proof.
  unfold generate_strategic_analysis, store_opportunity,
    synthesize_intelligence, identify_opportunities.
  frame.
Qed.

Lemma preserves_findings_store_analysis_run E results :
  preserves findings_of (store_analysis_run E results).
Proof. unfold store_analysis_run. frame. Qed.

Lemma preserves_trends_store_analysis_run E results :
  preserves trends_of (store_analysis_run E results).
Proof. unfold store_analysis_run. frame. Qed.

Lemma market_stage_counts E w :
  exists res w' rows written,
    gather_market_intelligence E w = (Ok res, w')
    /\ findings_of w' = findings_of w ++ written
    /\ mr_findings_count res = length rows
    /\ length rows <= length written
    /\ (replies_arrive E -> rows = written)
    /\ (mr_error res = None -> mr_findings res = Some rows).
Proof.
  unfold gather_market_intelligence, try_except, findings_of. cbv zeta.
  match goal with
  | |- context [llm_invoke E ?p] =>
      destruct (llm E (llm_calls w) p) as [e | content [v |]] eqn:Hreply
  end.
  - destruct (llm_invoke_raises E _ w Hreply) as (w1 & Hcall & Hst & _).
    erewrite bind_Raise_run by exact Hcall.
    eexists _, w1, [], []. rewrite Hst, app_nil_r.
    split; [reflexivity |]. simpl. repeat split; auto; discriminate.
  - destruct (llm_invoke_content E _ w Hreply) as (w1 & Hcall & Hst & _).
    erewrite bind_Ok_run by exact Hcall.
    cbn [bind lift json_loads snd].
    destruct v as [| b | z | f | s | l | d];
      try (cbn [get]; eexists _, w1, [], []; rewrite Hst, app_nil_r;
           split; [reflexivity |]; simpl; repeat split; auto; discriminate).
    cbn [get].
    destruct (iter (with_default (PList []) (assoc "findings" d)))
      as [items | e] eqn:Hiter.
    + cbn [bind lift].
      destruct (item_loop (build_market_finding E) (insert_market_finding E)
                  (stored_finding E) (fun w => market_findings (store w))
                  (insert_market_finding_spec E) items [] w1)
        as (rows & written & w' & Hrun & Htab & _ & _ & Hlen & _ & _ & Hquiet).
      rewrite store_finding_shape.
      erewrite bind_Ok_run by exact Hrun.
      cbn [bind lift get ret app].
      eexists _, w', rows, written. split; [reflexivity |]. simpl.
      rewrite Htab, Hst. repeat split; auto.
      intros Hrep. apply Hquiet. apply insert_market_finding_quiet. exact Hrep.
    + eexists _, w1, [], []. rewrite Hst, app_nil_r.
      split; [reflexivity |]. simpl. repeat split; auto; discriminate.
  - destruct (llm_invoke_content E _ w Hreply) as (w1 & Hcall & Hst & _).
    erewrite bind_Ok_run by exact Hcall.
    cbn [bind lift json_loads snd].
    eexists _, w1, [], []. rewrite Hst, app_nil_r.
    split; [reflexivity |]. simpl. repeat split; auto; discriminate.
Qed.

Lemma preserves_store_analyze_trend_patterns E fs os ct :
  preserves store (analyze_trend_patterns E fs os ct).
Proof. unfold analyze_trend_patterns. frame. Qed.

Lemma analyze_trend_patterns_run E fs os ct w :
  exists v w1,
    analyze_trend_patterns E fs os ct w = (Ok v, w1) /\ store w1 = store w.
Proof.
  pose proof (preserves_store_analyze_trend_patterns E fs os ct w) as Hst.
  unfold analyze_trend_patterns in *. cbv zeta in *.
  match goal with
  | |- context [try_except ?b (fun _ => ret ?fb)] =>
      destruct (@try_except_total _ b (fun _ => fb) w) as (v & w1 & Hrun)
  end.
  exists v, w1. rewrite Hrun in Hst. split; [exact Hrun | exact Hst].
Qed.

Lemma trend_stage_counts E w :
  exists res w' rows written,
    analyze_market_trends E w = (Ok res, w')
    /\ trends_of w' = trends_of w ++ written
    /\ tres_trends_identified res = length rows
    /\ length rows <= length written
    /\ (replies_arrive E -> rows = written)
    /\ (tres_error res = None -> tres_key_trends res = Some rows).
Proof.
  unfold analyze_market_trends, try_except, trends_of. cbv zeta.
  run_read (get_market_findings_reads E 100 None (Some (today E - 180)%Z)).
  run_read (get_opportunities_reads E None 50).
  destruct (analyze_trend_patterns_run E rows rows0 (search_current_trends E) w1)
    as (v & w2 & Hrun2 & Hst2).
  erewrite bind_Ok_run by exact Hrun2.
  assert (Hw2 : trends (store w2) = trends (store w)) by congruence.
  destruct v as [| b | z | f | s | l | d];
    try (cbn [bind lift get]; eexists _, w2, [], []; rewrite Hw2, app_nil_r;
         split; [reflexivity |]; simpl; repeat split; auto; discriminate).
  cbn [bind lift get].
  destruct (iter (with_default (PList []) (assoc "trends" d)))
    as [items | e] eqn:Hiter.
  - cbn [bind lift].
    destruct (item_loop (build_trend E) (insert_trend E)
                (stored_trend E) (fun w => trends (store w))
                (insert_trend_spec E) items [] w2)
      as (new & written & w' & Hloop & Htab & _ & _ & Hlen & _ & _ & Hquiet).
    rewrite store_trend_shape.
    erewrite bind_Ok_run by exact Hloop.
    cbn [bind lift get ret app].
    eexists _, w', new, written. split; [reflexivity |]. simpl.
    rewrite Htab, Hw2. repeat split; auto.
    intros Hrep. apply Hquiet. apply insert_trend_quiet. exact Hrep.
  - eexists _, w2, [], []. rewrite Hw2, app_nil_r.
    split; [reflexivity |]. simpl. repeat split; auto; discriminate.
Qed.

Lemma daily_run_steps E w :
  exists mr w1 cr w2 tr w3 sr w4 w5 w6 results,
    gather_market_intelligence E w = (Ok mr, w1)
    /\ monitor_competitors E w1 = (Ok cr, w2)
    /\ analyze_market_trends E w2 = (Ok tr, w3)
    /\ generate_strategic_analysis E w3 = (Ok sr, w4)
    /\ store_analysis_run E results w4 = (Ok tt, w5)
    /\ send_daily_notifications E results w5 = (Ok tt, w6)
    /\ run_daily_analysis E w = (Ok results, w6)
    /\ rs_status results = "completed"
    /\ rs_error results = None
    /\ rs_market_intelligence results = Some mr
    /\ rs_competitor_intelligence results = Some cr
    /\ rs_trend_analysis results = Some tr
    /\ rs_strategic_synthesis results = Some sr
    /\ rs_summary results
       = Some {| sm_findings_count := mr_findings_count mr;
                 sm_competitor_updates :=
                   length (with_default [] (cr_competitor_analyses cr));
                 sm_trends_identified := tres_trends_identified tr;
                 sm_opportunities_count := sr_new_opportunities sr |}
    /\ rs_execution_time results = elapsed E.
Proof.
  destruct (gather_market_intelligence_total E w) as (mr & w1 & Hm).
  destruct (monitor_competitors_total E w1) as (cr & w2 & Hc).
  destruct (analyze_market_trends_total E w2) as (tr & w3 & Ht).
  destruct (generate_strategic_analysis_total E w3) as (sr & w4 & Hs).
  pose proof (gather3_Ok _ _ _ _ Hm Hc Ht) as Hgather.
  unfold run_daily_analysis, run_daily_analysis_with, try_except.
  erewrite bind_Ok_run by exact Hgather. cbv beta iota zeta.
  erewrite bind_Ok_run by exact Hs.
  match goal with
  | |- context [store_analysis_run E ?r] => set (results := r)
  end.
  destruct (store_analysis_run_total E results w4) as ([] & w5 & Hstore).
  erewrite bind_Ok_run by exact Hstore.
  destruct (send_daily_notifications_total E results w5) as ([] & w6 & Hsend).
  erewrite bind_Ok_run by exact Hsend.
  exists mr, w1, cr, w2, tr, w3, sr, w4, w5, w6, results.
  repeat split; assumption.
Qed.

(** X14.  With the four stages of the repository, [run_daily_analysis]
    never reports an error: whatever the completion service, the search,
    the store and the mail server do, it returns the result with status
    "completed", the four stage results and the summary counters taken
    from them.  The counter named [competitor_updates] is the number of
    competitors analysed, not the number of updates found. *)
Theorem X14_daily_run_always_reports_completed :
  forall (E : Ext) (w : World),
  exists results w' mr cr tr sr summary,
    run_daily_analysis E w = (Ok results, w')
    /\ rs_status results = "completed"
    /\ rs_error results = None
    /\ rs_market_intelligence results = Some mr
    /\ rs_competitor_intelligence results = Some cr
    /\ rs_trend_analysis results = Some tr
    /\ rs_strategic_synthesis results = Some sr
    /\ rs_summary results = Some summary
    /\ sm_findings_count summary = mr_findings_count mr
    /\ sm_trends_identified summary = tres_trends_identified tr
    /\ sm_opportunities_count summary = sr_new_opportunities sr
    /\ sm_competitor_updates summary
       = length (with_default [] (cr_competitor_analyses cr)).
Proof.
  intros E w.
  destruct (daily_run_steps E w)
    as (mr & w1 & cr & w2 & tr & w3 & sr & w4 & w5 & w6 & results
        & _ & _ & _ & _ & _ & _ & Hrun & Hstatus & Herr & Hmr & Hcr & Htr
        & Hsr & Hsum & _).
  exists results, w6, mr, cr, tr, sr. eexists.
  split; [exact Hrun |]. repeat (split; [assumption |]).
  split; [exact Hsum |]. repeat split.
Qed.

(** X15.  The summary of a daily run counts the rows the store returned
    to the stages, which are among the rows the run wrote: the rows the
    run added to the [market_findings] table are at least as many as
    its [findings_count], and the rows it added to the [trends] table
    at least as many as its [trends_identified]; a row that was written
    and whose reply was lost is not counted.  When every reply of the
    store arrives, the counts are the numbers of rows added.  Both
    tables keep the rows they had, in every outcome of the services. *)
Theorem X15_daily_summary_counts_at_most_the_rows_written :
  forall (E : Ext) (w : World),
  exists results w' summary new_findings new_trends,
    run_daily_analysis E w = (Ok results, w')
    /\ rs_summary results = Some summary
    /\ findings_of w' = findings_of w ++ new_findings
    /\ sm_findings_count summary <= length new_findings
    /\ trends_of w' = trends_of w ++ new_trends
    /\ sm_trends_identified summary <= length new_trends
    /\ (replies_arrive E ->
        sm_findings_count summary = length new_findings
        /\ sm_trends_identified summary = length new_trends).
Proof.
  intros E w.
  destruct (daily_run_steps E w)
    as (mr & w1 & cr & w2 & tr & w3 & sr & w4 & w5 & w6 & results
        & Hm & Hc & Ht & Hs & Hstore & Hsend & Hrun & _ & _ & _ & _ & _
        & _ & Hsum & _).
  destruct (market_stage_counts E w)
    as (mr' & w1' & got_findings & new_findings & Hm' & Hfind & Hcount
        & Hflen & Hfsame & _).
  rewrite Hm in Hm'. inversion Hm'; subst mr' w1'; clear Hm'.
  destruct (trend_stage_counts E w2)
    as (tr' & w3' & got_trends & new_trends & Ht' & Htrend & Htcount
        & Htlen & Htsame & _).
  rewrite Ht in Ht'. inversion Ht'; subst tr' w3'; clear Ht'.
  exists results, w6. eexists. exists new_findings, new_trends.
  split; [exact Hrun |]. split; [exact Hsum |].
  pose proof (preserves_findings_competitor E w1) as F2.
  pose proof (preserves_findings_trend E w2) as F3.
  pose proof (preserves_findings_synthesis E w3) as F4.
  pose proof (preserves_findings_store_analysis_run E results w4) as F5.
  pose proof (preserves_store_findings
                (preserves_store_send_daily_notifications E results) w5) as F6.
  pose proof (preserves_trends_market E w) as T1.
  pose proof (preserves_trends_competitor E w1) as T2.
  pose proof (preserves_trends_synthesis E w3) as T4.
  pose proof (preserves_trends_store_analysis_run E results w4) as T5.
  pose proof (preserves_store_trends
                (preserves_store_send_daily_notifications E results) w5) as T6.
  rewrite Hm in T1. rewrite Hc in F2, T2. rewrite Ht in F3.
  rewrite Hs in F4, T4. rewrite Hstore in F5, T5. rewrite Hsend in F6, T6.
  simpl in *.
  split; [congruence |]. split; [rewrite Hcount; exact Hflen |].
  split; [congruence |]. split; [rewrite Htcount; exact Htlen |].
  intros Hrep. rewrite Hcount, Htcount, (Hfsame Hrep), (Htsame Hrep).
  split; reflexivity.
Qed.

(** *** Nothing is sent when the notifier is off *)

Lemma preserves_outbox_run_daily_when (E : Ext) :
  (forall email_type body,
     preserves outbox (send_to_recipients E email_type body)) ->
  preserves outbox (run_daily_analysis E).
Proof.
  intros Hsend w.
  destruct (daily_run_steps E w)
    as (mr & w1 & cr & w2 & tr & w3 & sr & w4 & w5 & w6 & results
        & Hm & Hc & Ht & Hs & Hstore & Hnotify & Hrun & _).
  assert (Hnotes : preserves outbox (send_daily_notifications E results)).
  { unfold send_daily_notifications, send_critical_alert, send_daily_report.
    frame. destruct (identify_critical_alerts results); frame. }
  pose proof (preserves_outbox_market E w) as O1.
  pose proof (preserves_outbox_competitor E w1) as O2.
  pose proof (preserves_outbox_trend E w2) as O3.
  pose proof (preserves_outbox_synthesis E w3) as O4.
  pose proof (preserves_outbox_store_analysis_run E results w4) as O5.
  pose proof (Hnotes w5) as O6.
  rewrite Hm in O1. rewrite Hc in O2. rewrite Ht in O3. rewrite Hs in O4.
  rewrite Hstore in O5. rewrite Hnotify in O6. rewrite Hrun.
  simpl in *. congruence.
Qed.

Section NotifierOff.
Variable E : Ext.
Hypothesis off : notifier_off E.

Lemma preserves_outbox_send_off email_type body :
  preserves outbox (send_to_recipients E email_type body).
Proof.
  unfold send_to_recipients.
  destruct off as [Hoff | Hnone].
  - rewrite Hoff. simpl. apply preserves_ret.
  - rewrite Hnone. simpl. rewrite orb_true_r. apply preserves_ret.
Qed.

Lemma preserves_outbox_get_analysis_summary days :
  preserves outbox (get_analysis_summary E days).
Proof.
  unfold get_analysis_summary, get_latest_findings_by_category. frame.
Qed.

Lemma preserves_outbox_run_daily_off : preserves outbox (run_daily_analysis E).
Proof.
  apply preserves_outbox_run_daily_when. apply preserves_outbox_send_off.
Qed.

Lemma preserves_outbox_run_weekly_off :
  preserves outbox (run_weekly_summary E).
Proof.
  pose proof preserves_outbox_send_off as Hsend.
  pose proof preserves_outbox_get_analysis_summary as Hsummary.
  unfold run_weekly_summary, send_weekly_summary, generate_executive_briefing,
    assess_opportunity_portfolio.
  frame.
Qed.

Lemma preserves_outbox_run_quick topic :
  preserves outbox (run_quick_analysis E topic).
Proof.
  pose proof preserves_outbox_analyze_specific_topic as H1.
  pose proof preserves_outbox_analyze_trend_convergence as H2.
  unfold run_quick_analysis. frame.
Qed.

Lemma preserves_outbox_main_off argv : preserves outbox (main E argv).
Proof.
  pose proof preserves_outbox_run_daily_off as Hd.
  pose proof preserves_outbox_run_weekly_off as Hw.
  pose proof preserves_outbox_run_quick as Hq.
  pose proof preserves_outbox_get_analysis_summary as Hs.
  unfold main, main_with, main_command, main_run_daily_analysis,
    main_run_weekly_summary, main_run_quick_analysis.
  destruct argv as [| program [| command rest]]; frame.
Qed.

End NotifierOff.

(** X16.  When the notifier is switched off or has no recipient, no
    command of the entry point sends a message: whatever the arguments
    and the other services, [main] leaves the outbox as it was. *)
Theorem X16_nothing_is_sent_when_the_notifier_is_off :
  forall (E : Ext) (argv : list string) (w : World),
    notifier_off E ->
    outbox (snd (main E argv w)) = outbox w.
Proof.
  intros E argv w Hoff. exact (preserves_outbox_main_off Hoff argv w).
Qed.

Lemma X16_witness :
  outbox (snd (main silent_ext ["main.py"; "daily"]
                 (initial_world empty_store)))
  = outbox (initial_world empty_store).
Proof.
  apply X16_nothing_is_sent_when_the_notifier_is_off.
  left. reflexivity.
Defined.

(** ** The competitors the stage analyses *)

Lemma monitor_one_keys E acc competitor w acc1 w1 :
  monitor_one E acc competitor w = (Ok acc1, w1) ->
  (String.eqb (strip competitor) "" = true /\ snd acc1 = snd acc)
  \/ (String.eqb (strip competitor) "" = false
      /\ exists analysis,
           snd acc1 = dict_set (strip competitor) analysis (snd acc)).
Proof.
  unfold monitor_one. cbv zeta.
  destruct (String.eqb (strip competitor) "") eqn:Hblank.
  - intros H. apply ret_inv in H. destruct H; subst. left. auto.
  - intros H. right. split; [reflexivity |].
    apply bind_Ok_inv in H. destruct H as (analysis & wa & Ha & H).
    apply bind_Ok_inv in H. destruct H as (updates_v & wb & Hb & H).
    apply bind_Ok_inv in H. destruct H as (items & wc & Hc & H).
    apply bind_Ok_inv in H. destruct H as (all_updates & wd & Hloop & H).
    apply ret_inv in H. destruct H as [<- <-].
    exists analysis. reflexivity.
Qed.

Lemma monitor_loop_keys E names :
  forall acc w acc1 w1,
    for_each names acc (monitor_one E) w = (Ok acc1, w1) ->
    (forall name,
       In name (map fst (snd acc1)) <->
       In name (map fst (snd acc))
       \/ In name (filter (fun name => negb (String.eqb name ""))
                     (map strip names)))
    /\ (NoDup (map fst (snd acc)) -> NoDup (map fst (snd acc1))).
Proof.
  induction names as [| competitor names IH]; intros acc w acc1 w1 H.
  - apply ret_inv in H. destruct H as [<- _]. simpl. split; [| auto].
    intros name. tauto.
  - cbn [for_each] in H. apply bind_Ok_inv in H.
    destruct H as (acc0 & w0 & Hone & Hrest).
    apply IH in Hrest. destruct Hrest as [Hkeys Hnodup].
    apply monitor_one_keys in Hone.
    destruct Hone as [[Hblank Hsame] | [Hblank (analysis & Hset)]].
    + rewrite Hsame in *. split; [| exact Hnodup].
      intros name. rewrite Hkeys. cbn [map filter]. rewrite Hblank. simpl.
      reflexivity.
    + rewrite Hset in *. split.
      * intros name. rewrite Hkeys, In_keys_dict_set.
        cbn [map filter]. rewrite Hblank. simpl. intuition auto.
      * intros Hnd. apply Hnodup. now apply NoDup_keys_dict_set.
Qed.

(** X17.  The Competitor stage always returns.  When it reports no error
    its [competitor_analyses] holds exactly one analysis for each
    distinct configured name, stripped, the blank ones left out, while
    [competitors_monitored] is the number of configured entries, blank
    and repeated ones included.  When it reports an error there are no
    analyses and the update count is zero. *)
Theorem X17_one_analysis_per_distinct_competitor :
  forall (E : Ext) (w : World),
  exists res w',
    monitor_competitors E w = (Ok res, w')
    /\ (cr_error res = None ->
        exists analyses,
          cr_competitor_analyses res = Some analyses
          /\ NoDup (map fst analyses)
          /\ (forall name,
                In name (map fst analyses) <-> In name (monitored_names E))
          /\ length analyses <= length (monitored_names E)
          /\ cr_competitors_monitored res = Some (length (competitors E)))
    /\ (forall e,
          cr_error res = Some e ->
          cr_competitor_analyses res = None /\ cr_updates_found res = 0).
Proof.
  intros E w.
  destruct (monitor_competitors_total E w) as (res & w' & Hrun).
  exists res, w'. split; [exact Hrun |].
  unfold monitor_competitors in Hrun. apply try_except_inv in Hrun.
  destruct Hrun as [(res0 & Hbody & Hres) | (e & w1 & _ & Hhandler)].
  - inversion Hres; subst res0; clear Hres.
    apply bind_Ok_inv in Hbody. destruct Hbody as (acc & w1 & Hloop & H).
    cbv zeta in H.
    apply bind_Ok_inv in H. destruct H as (landscape & w2 & Hland & H).
    apply bind_Ok_inv in H. destruct H as (recs & w3 & Hget & H).
    apply ret_inv in H. destruct H as [<- <-].
    apply monitor_loop_keys in Hloop. destruct Hloop as [Hkeys Hnodup].
    simpl in Hkeys, Hnodup. split; [| discriminate].
    intros _. exists (snd acc). simpl.
    assert (Hnd : NoDup (map fst (snd acc))) by (apply Hnodup; constructor).
    assert (Hiff : forall name,
              In name (map fst (snd acc)) <-> In name (monitored_names E)).
    { intros name. rewrite Hkeys. unfold monitored_names. tauto. }
    repeat split; auto.
    + apply Hiff.
    + apply Hiff.
    + rewrite <- (length_map fst (snd acc)).
      apply NoDup_incl_length; [exact Hnd |].
      intros name Hin. now apply Hiff.
  - apply ret_inv in Hhandler. destruct Hhandler as [<- _]. simpl.
    split; [discriminate |]. intros e0 _. split; reflexivity.
Qed.

(** ** The command line and the scheduled jobs *)

Lemma lower_ascii_idempotent c : lower_ascii (lower_ascii c) = lower_ascii c.
Proof.
  destruct c as [[] [] [] [] [] [] [] []]; reflexivity.
Qed.

Lemma lower_idempotent s : lower (lower s) = lower s.
Proof.
  induction s as [| c s IH]; simpl; [reflexivity |].
  now rewrite lower_ascii_idempotent, IH.
Qed.

(** X18.  [main] starts nothing when the command line is too short, names
    a command other than daily, weekly and quick (letter case apart), or
    names quick without a topic: it returns normally and the world is
    the one it started in. *)
Theorem X18_main_runs_nothing_on_a_bad_command_line :
  forall (E : Ext) (argv : list string) (w : World),
    (length argv < 2
     \/ (exists program command rest,
           argv = program :: command :: rest
           /\ lower command <> "daily" /\ lower command <> "weekly"
           /\ lower command <> "quick")
     \/ (exists program command,
           argv = [program; command] /\ lower command = "quick")) ->
    main E argv w = (Ok tt, w).
Proof.
  intros E argv w [Hshort | [(program & command & rest & -> & Hd & Hw & Hq)
                            | (program & command & -> & Hq)]].
  - destruct argv as [| program [| command rest]]; try reflexivity.
    simpl in Hshort. lia.
  - unfold main, main_with, main_command.
    apply String.eqb_neq in Hd, Hw, Hq. rewrite Hd, Hw, Hq. reflexivity.
  - unfold main, main_with, main_command. rewrite Hq. reflexivity.
Qed.

Lemma X18_witness :
  main (working_ext [] []) ["main.py"; "Monthly"] (initial_world empty_store)
  = (Ok tt, initial_world empty_store).
Proof.
  apply X18_main_runs_nothing_on_a_bad_command_line.
  right. left. exists "main.py", "Monthly", [].
  repeat split; discriminate.
Defined.

(** X19.  [main] reads its command without regard to letter case and
    ignores the program name: a command line and the one with the
    command in lower case under any program name do the same. *)
Theorem X19_main_command_is_case_insensitive :
  forall (E : Ext) (program program' command : string) (rest : list string)
         (w : World),
    main E (program :: command :: rest) w
    = main E (program' :: lower command :: rest) w.
Proof.
  intros E program program' command rest w.
  unfold main, main_with, main_command.
  rewrite lower_idempotent. reflexivity.
Qed.

Lemma get_analysis_summary_returns E days w :
  exists s w1,
    get_analysis_summary E days w = (Ok s, w1)
    /\ store w1 = store w /\ outbox w1 = outbox w.
Proof.
  pose proof (preserves_get_analysis_summary E days w) as Hst.
  pose proof (@preserves_outbox_get_analysis_summary E days w) as Hout.
  unfold get_analysis_summary in *.
  match goal with
  | |- context [try_except ?b (fun e => ret (@?r e))] =>
      destruct (@try_except_total _ b r w) as (s & w1 & Hrun)
  end.
  exists s, w1. rewrite Hrun in Hst, Hout. auto.
Qed.

(** X20.  The connection test at the head of the daily command cannot
    stop it: whatever the store answers, [get_analysis_summary] returns,
    the store and the outbox are as before, and the daily run of the
    crew is started; the command returns the result of that run, or the
    wrapper's error result when an exception escapes from it. *)
Theorem X20_connection_test_never_stops_the_daily_command :
  forall (E : Ext) (crew_daily : M Results) (w : World),
  exists w1,
    store w1 = store w
    /\ outbox w1 = outbox w
    /\ main_run_daily_analysis E crew_daily w
       = match crew_daily w1 with
         | (Ok results, w2) => (Ok (DailyResult results), w2)
         | (Raise e, w2) => (Ok (WrapperError e), w2)
         end.
Proof.
  intros E crew_daily w.
  destruct (get_analysis_summary_returns E 1 w) as (s & w1 & Hrun & Hst & Hout).
  exists w1. split; [exact Hst |]. split; [exact Hout |].
  unfold main_run_daily_analysis, try_except.
  erewrite bind_Ok_run by exact Hrun.
  unfold bind, ret. destruct (crew_daily w1) as [[results | e] w2]; reflexivity.
Qed.

(** X21.  The health check of the scheduler cannot fail: whatever the
    store answers, and also when it cannot be reached, the only record
    it logs is "Health check passed"; it changes neither the store nor
    the outbox. *)
Theorem X21_health_check_always_passes :
  forall (E : Ext) (w : World),
  exists w',
    health_check E w = (Ok [(INFO, HealthCheckPassed)], w')
    /\ store w' = store w
    /\ outbox w' = outbox w.
Proof.
  intros E w.
  destruct (get_analysis_summary_returns E 1 w) as (s & w1 & Hrun & Hst & Hout).
  exists w1. unfold health_check, try_except.
  erewrite bind_Ok_run by exact Hrun. unfold ret. auto.
Qed.

Lemma run_weekly_summary_returns E w :
  exists summary briefing portfolio w',
    run_weekly_summary E w
    = (Ok (WeeklySummary "weekly" summary briefing portfolio (now_iso E)), w').
Proof.
  unfold run_weekly_summary, try_except.
  destruct (get_analysis_summary_returns E 7 w) as (s & w1 & Hrun1 & _).
  erewrite bind_Ok_run by exact Hrun1.
  assert (Hb : never_raises (generate_executive_briefing E))
    by (unfold generate_executive_briefing; apply try_except_total).
  destruct (Hb w1) as (b & w2 & Hrun2).
  erewrite bind_Ok_run by exact Hrun2.
  assert (Hp : never_raises (assess_opportunity_portfolio E))
    by (unfold assess_opportunity_portfolio; apply try_except_total).
  destruct (Hp w2) as (p & w3 & Hrun3).
  erewrite bind_Ok_run by exact Hrun3.
  cbv zeta. unfold send_weekly_summary.
  match goal with
  | |- context [send_to_recipients E "weekly_summary" ?body] =>
      destruct (send_to_recipients_run E "weekly_summary" body w3)
        as (ok & w4 & sent & Hrun4 & _)
  end.
  erewrite bind_Ok_run by exact Hrun4.
  exists s, b, p, w4. reflexivity.
Qed.

Lemma preserves_store_run_weekly_summary E :
  preserves store (run_weekly_summary E).
Proof. unfold run_weekly_summary, send_weekly_summary. frame. Qed.

(** X22.  With the crew of the repository the weekly job of the
    scheduler always logs "Weekly summary completed and sent" after its
    starting record, and never an error: [run_weekly_summary] never
    returns its error dictionary.  The store is unchanged, and when the
    notifier is off the record is logged although nothing was sent. *)
Theorem X22_weekly_job_always_logs_completed_and_sent :
  forall (E : Ext) (exn_text : exn -> string) (w : World),
  exists w',
    weekly_summary_job exn_text (run_weekly_summary E) w
    = (Ok [(INFO, StartingWeeklySummary); (INFO, WeeklySummaryCompleted)], w')
    /\ store w' = store w
    /\ (notifier_off E -> outbox w' = outbox w).
Proof.
  intros E exn_text w.
  destruct (run_weekly_summary_returns E w) as (s & b & p & w' & Hrun).
  exists w'. unfold weekly_summary_job, try_except.
  erewrite bind_Ok_run by exact Hrun. unfold ret.
  split; [reflexivity |]. split.
  - rewrite <- (preserves_store_run_weekly_summary E w). rewrite Hrun.
    reflexivity.
  - intros Hoff. rewrite <- (preserves_outbox_run_weekly_off Hoff w).
    rewrite Hrun. reflexivity.
Qed.

(** X23.  The daily job of the scheduler never raises and does nothing
    but run the crew and log: it logs a record of level ERROR exactly
    when the run of the crew raised or returned a status other than
    "completed".  With the crew of the repository it always logs the
    completion and the counters of the summary, never an error. *)
Theorem X23_daily_job_logs_the_outcome_of_the_run :
  (forall (crew_daily : M Results) (w : World),
   exists logs,
     daily_analysis_job crew_daily w = (Ok logs, snd (crew_daily w))
     /\ hd_error logs = Some (INFO, StartingDailyAnalysis)
     /\ ((exists results,
            fst (crew_daily w) = Ok results
            /\ rs_status results = "completed")
         <-> ~ In ERROR (map fst logs)))
  /\ (forall (E : Ext) (w : World),
      exists results summary w',
        run_daily_analysis E w = (Ok results, w')
        /\ rs_summary results = Some summary
        /\ daily_analysis_job (run_daily_analysis E) w
           = (Ok [(INFO, StartingDailyAnalysis);
                  (INFO, DailyAnalysisCompleted);
                  (INFO, LogMarketFindings (sm_findings_count summary));
                  (INFO, LogOpportunities (sm_opportunities_count summary));
                  (INFO, LogTrends (sm_trends_identified summary));
                  (INFO, LogExecutionTime (elapsed E))], w')).
Proof.
  split.
  - intros crew_daily w. unfold daily_analysis_job, try_except, bind, ret.
    destruct (crew_daily w) as [[results | e] w1]; simpl.
    + destruct (String.eqb (rs_status results) "completed") eqn:Hstatus.
      * eexists. split; [reflexivity |]. split; [reflexivity |].
        apply String.eqb_eq in Hstatus. split.
        -- intros _. simpl. intros [H | [H | [H | [H | [H | [H | []]]]]]];
             discriminate.
        -- intros _. exists results. auto.
      * eexists. split; [reflexivity |]. split; [reflexivity |].
        apply String.eqb_neq in Hstatus. split.
        -- intros (r & [= <-] & Hr). contradiction.
        -- intros Hnot. exfalso. apply Hnot. simpl. auto.
    + eexists. split; [reflexivity |]. split; [reflexivity |]. split.
      * intros (r & Hr & _). discriminate.
      * intros Hnot. exfalso. apply Hnot. simpl. auto.
  - intros E w.
    destruct (daily_run_steps E w)
      as (mr & w1 & cr & w2 & tr & w3 & sr & w4 & w5 & w6 & results
          & _ & _ & _ & _ & _ & _ & Hrun & Hstatus & _ & _ & _ & _ & _
          & Hsum & Htime).
    exists results. eexists. exists w6.
    split; [exact Hrun |]. split; [exact Hsum |].
    unfold daily_analysis_job, try_except.
    erewrite bind_Ok_run by exact Hrun.
    rewrite Hstatus, Hsum, Htime. reflexivity.
Qed.

(** X24.  [run_once] never raises, whatever the crew does: it first logs
    which job it runs, then what the job logs.  The job type is compared
    as it is written; for a type other than daily, weekly and health it
    logs an error and runs nothing. *)
Theorem X24_run_once_never_raises :
  forall (E : Ext) (exn_text : exn -> string) (crew_daily : M Results)
         (crew_weekly : M WeeklyResult) (job_type : string) (w : World),
  exists logs w',
    run_once E exn_text crew_daily crew_weekly job_type w = (Ok logs, w')
    /\ hd_error logs = Some (INFO, RunningSingleJob job_type)
    /\ (job_type <> "daily" -> job_type <> "weekly" -> job_type <> "health" ->
        w' = w
        /\ logs = [(INFO, RunningSingleJob job_type);
                   (ERROR, UnknownJobType job_type)]).
Proof.
  intros E exn_text crew_daily crew_weekly job_type w. unfold run_once.
  destruct (String.eqb job_type "daily") eqn:Hd;
    [| destruct (String.eqb job_type "weekly") eqn:Hw;
       [| destruct (String.eqb job_type "health") eqn:Hh]].
  - apply String.eqb_eq in Hd.
    assert (Hjob : never_raises (daily_analysis_job crew_daily))
      by (unfold daily_analysis_job; apply try_except_total).
    destruct (Hjob w) as (logged & w' & Hrun).
    erewrite bind_Ok_run by exact Hrun.
    eexists. exists w'. split; [reflexivity |]. split; [reflexivity |].
    intros Hne. contradiction.
  - apply String.eqb_eq in Hw.
    assert (Hjob : never_raises (weekly_summary_job exn_text crew_weekly))
      by (unfold weekly_summary_job; apply try_except_total).
    destruct (Hjob w) as (logged & w' & Hrun).
    erewrite bind_Ok_run by exact Hrun.
    eexists. exists w'. split; [reflexivity |]. split; [reflexivity |].
    intros _ Hne. contradiction.
  - apply String.eqb_eq in Hh.
    assert (Hjob : never_raises (health_check E))
      by (unfold health_check; apply try_except_total).
    destruct (Hjob w) as (logged & w' & Hrun).
    erewrite bind_Ok_run by exact Hrun.
    eexists. exists w'. split; [reflexivity |]. split; [reflexivity |].
    intros _ _ Hne. contradiction.
  - eexists. exists w. unfold ret. split; [reflexivity |].
    split; [reflexivity |]. auto.
Qed.

(** ** Housekeeping: [cleanup_old_data] *)

Lemma kept_and_deleted A (p : A -> bool) (l : list A) :
  length l = length (filter (fun r => negb (p r)) l) + length (filter p l).
Proof.
  induction l as [| x l IH]; simpl; [reflexivity |].
  destruct (p x); simpl; lia.
Qed.

Lemma kept_twice A (p : A -> bool) (l : list A) :
  filter (fun r => negb (p r)) (filter (fun r => negb (p r)) l)
  = filter (fun r => negb (p r)) l
  /\ filter p (filter (fun r => negb (p r)) l) = [].
Proof.
  induction l as [| x l [IH1 IH2]]; simpl; [auto |].
  destruct (p x) eqn:Hp; simpl; [auto |].
  rewrite Hp. simpl. rewrite IH1. auto.
Qed.

Lemma days_before_in_range E days :
  days_in_range E days ->
  days_before (today E) days = Ok (today E - days)%Z.
Proof.
  intros (H1 & H2 & H3). unfold days_before.
  rewrite (proj2 (Z.leb_le _ _) H1), (proj2 (Z.leb_le _ _) H2),
    (proj2 (Z.leb_le _ _) H3).
  reflexivity.
Qed.

(** The store after a cleanup whose three deletions are carried out. *)
Lemma cleanup_carried_out E fault days w :
  days_in_range E days ->
  (forall n table cutoff, fault n table cutoff = None) ->
  cleanup_old_data E fault days w
  = (Ok (CleanupCounts
           (length (filter (fun r => Z.ltb (mf_date r) (today E - days))
                      (market_findings (store w))))
           (length (filter (fun r => Z.ltb (cu_detected_date r) (today E - days))
                      (competitor_updates (store w))))
           (length (filter (fun r => Z.ltb (ar_run_date r) (today E - days))
                      (analysis_runs (store w))))
           (today E - days)%Z),
     {| store :=
          {| market_findings :=
               filter (fun r => negb (Z.ltb (mf_date r) (today E - days)))
                 (market_findings (store w));
             competitor_updates :=
               filter (fun r => negb (Z.ltb (cu_detected_date r) (today E - days)))
                 (competitor_updates (store w));
             opportunities := opportunities (store w);
             trends := trends (store w);
             analysis_runs :=
               filter (fun r => negb (Z.ltb (ar_run_date r) (today E - days)))
                 (analysis_runs (store w)) |};
        outbox := outbox w;
        db_ops := S (S (S (db_ops w)));
        llm_calls := llm_calls w;
        smtp_ops := smtp_ops w |}).
Proof.
  intros Hdays Hfault.
  unfold cleanup_old_data, try_except, delete_before, bind, next_db_op, gets,
    modify, ret, lift. cbv zeta.
  rewrite (days_before_in_range Hdays).
  rewrite !Hfault. reflexivity.
Qed.

(** X25.  When the cutoff date exists and the store carries out its
    three deletions, [cleanup_old_data] keeps in [market_findings], [competitor_updates]
    and [analysis_runs] exactly the rows dated on or after the cutoff
    (today minus [days_to_keep]), in their order, and the three counts
    it returns are the numbers of rows removed.  The [opportunities] and
    [trends] tables are never cleaned. *)
Theorem X25_cleanup_keeps_exactly_the_rows_from_the_cutoff_on :
  forall (E : Ext) (fault : nat -> string -> Z -> option exn) (days : Z)
         (w : World),
    days_in_range E days ->
    (forall n table cutoff, fault n table cutoff = None) ->
    exists findings_deleted updates_deleted runs_deleted w',
      cleanup_old_data E fault days w
      = (Ok (CleanupCounts findings_deleted updates_deleted runs_deleted
               (today E - days)%Z), w')
      /\ market_findings (store w')
         = filter (fun r => Z.leb (today E - days) (mf_date r))
             (market_findings (store w))
      /\ competitor_updates (store w')
         = filter (fun r => Z.leb (today E - days) (cu_detected_date r))
             (competitor_updates (store w))
      /\ analysis_runs (store w')
         = filter (fun r => Z.leb (today E - days) (ar_run_date r))
             (analysis_runs (store w))
      /\ opportunities (store w') = opportunities (store w)
      /\ trends (store w') = trends (store w)
      /\ length (market_findings (store w))
         = length (market_findings (store w')) + findings_deleted
      /\ length (competitor_updates (store w))
         = length (competitor_updates (store w')) + updates_deleted
      /\ length (analysis_runs (store w))
         = length (analysis_runs (store w')) + runs_deleted.
Proof.
  intros E fault days w Hdays Hfault.
  rewrite (@cleanup_carried_out E fault days w Hdays Hfault).
  do 4 eexists. split; [reflexivity |]. simpl.
  repeat split;
    try (apply filter_ext; intros r; symmetry; apply Z.leb_antisym);
    apply kept_and_deleted.
Qed.

Lemma X25_witness :
  exists findings_deleted updates_deleted runs_deleted w',
    cleanup_old_data (working_ext [] []) every_delete 0
      (initial_world store_with_earlier_finding)
    = (Ok (CleanupCounts findings_deleted updates_deleted runs_deleted
             (today (working_ext [] []) - 0)%Z), w')
    /\ market_findings (store w')
       = filter (fun r => Z.leb (today (working_ext [] []) - 0) (mf_date r))
           (market_findings (store (initial_world store_with_earlier_finding)))
    /\ competitor_updates (store w')
       = filter (fun r => Z.leb (today (working_ext [] []) - 0)
                            (cu_detected_date r))
           (competitor_updates
              (store (initial_world store_with_earlier_finding)))
    /\ analysis_runs (store w')
       = filter (fun r => Z.leb (today (working_ext [] []) - 0) (ar_run_date r))
           (analysis_runs (store (initial_world store_with_earlier_finding)))
    /\ opportunities (store w')
       = opportunities (store (initial_world store_with_earlier_finding))
    /\ trends (store w')
       = trends (store (initial_world store_with_earlier_finding))
    /\ length (market_findings
                 (store (initial_world store_with_earlier_finding)))
       = length (market_findings (store w')) + findings_deleted
    /\ length (competitor_updates
                 (store (initial_world store_with_earlier_finding)))
       = length (competitor_updates (store w')) + updates_deleted
    /\ length (analysis_runs
                 (store (initial_world store_with_earlier_finding)))
       = length (analysis_runs (store w')) + runs_deleted.
Proof.
  apply (@X25_cleanup_keeps_exactly_the_rows_from_the_cutoff_on
           (working_ext [] []) every_delete 0%Z
           (initial_world store_with_earlier_finding)).
  - unfold days_in_range, date_min, date_max. simpl. lia.
  - reflexivity.
Defined.

(** X26.  [cleanup_old_data] always returns, and whatever the store
    answers to its deletions it never touches the [opportunities] and
    [trends] tables or the outbox, never adds a row, and never removes a
    row dated on or after the cutoff. *)
Theorem X26_cleanup_never_removes_a_recent_row :
  forall (E : Ext) (fault : nat -> string -> Z -> option exn) (days : Z)
         (w : World),
  exists r w',
    cleanup_old_data E fault days w = (Ok r, w')
    /\ opportunities (store w') = opportunities (store w)
    /\ trends (store w') = trends (store w)
    /\ outbox w' = outbox w
    /\ (forall x, In x (market_findings (store w')) ->
                  In x (market_findings (store w)))
    /\ (forall x, In x (competitor_updates (store w')) ->
                  In x (competitor_updates (store w)))
    /\ (forall x, In x (analysis_runs (store w')) ->
                  In x (analysis_runs (store w)))
    /\ (forall x, In x (market_findings (store w)) ->
                  (today E - days <= mf_date x)%Z ->
                  In x (market_findings (store w')))
    /\ (forall x, In x (competitor_updates (store w)) ->
                  (today E - days <= cu_detected_date x)%Z ->
                  In x (competitor_updates (store w')))
    /\ (forall x, In x (analysis_runs (store w)) ->
                  (today E - days <= ar_run_date x)%Z ->
                  In x (analysis_runs (store w'))).
Proof.
  intros E fault days w.
  assert (Hkeep : forall A (date_of : A -> Z) (l : list A) x,
            In x (filter (fun r => negb (Z.ltb (date_of r) (today E - days))) l)
            <-> In x l /\ (today E - days <= date_of x)%Z).
  { intros A date_of l x. rewrite filter_In, negb_true_iff, Z.ltb_ge.
    reflexivity. }
  unfold cleanup_old_data, try_except, delete_before, bind, next_db_op, gets,
    modify, raise, ret, lift. cbv zeta.
  destruct (days_before_cases E days) as [[_ Hd] | [_ Hd]]; rewrite Hd;
    [| eexists; eexists; split; [reflexivity |]; simpl; repeat split; auto].
  simpl.
  destruct (fault (db_ops w) "market_findings" (today E - days)%Z);
    [eexists; eexists; split; [reflexivity |]; simpl; repeat split; auto |].
  simpl.
  destruct (fault (S (db_ops w)) "competitor_updates" (today E - days)%Z);
    [eexists; eexists; split; [reflexivity |]; simpl; repeat split; auto;
     intros x; rewrite Hkeep; tauto |].
  simpl.
  destruct (fault (S (S (db_ops w))) "analysis_runs" (today E - days)%Z);
    eexists; eexists; (split; [reflexivity |]); simpl; repeat split; auto;
    intros x; rewrite ?Hkeep; tauto.
Qed.

(** X27.  [cleanup_old_data] is not atomic: when the store carries out
    the deletion on [market_findings] and fails on the next one, the
    call returns the error dictionary, yet the old findings are gone
    while the other tables are as they were.  (When the cutoff date
    does not exist, no deletion is requested: the call returns the
    error dictionary of the date computation and the world is as it
    was.) *)
Theorem X27_cleanup_stops_half_way_on_failure :
  forall (E : Ext) (fault : nat -> string -> Z -> option exn) (days : Z)
         (w : World) (e : exn),
    fault (db_ops w) "market_findings" (today E - days)%Z = None ->
    fault (S (db_ops w)) "competitor_updates" (today E - days)%Z = Some e ->
    (days_in_range E days ->
     exists w',
       cleanup_old_data E fault days w = (Ok (CleanupError e), w')
       /\ market_findings (store w')
          = filter (fun r => Z.leb (today E - days) (mf_date r))
              (market_findings (store w))
       /\ competitor_updates (store w') = competitor_updates (store w)
       /\ analysis_runs (store w') = analysis_runs (store w))
    /\ (~ days_in_range E days ->
        cleanup_old_data E fault days w
        = (Ok (CleanupError OverflowError), w)).
Proof.
  intros E fault days w e Hfirst Hsecond. split.
  - intros Hdays.
    unfold cleanup_old_data, try_except, delete_before, bind, next_db_op,
      gets, modify, raise, ret, lift. cbv zeta.
    rewrite (days_before_in_range Hdays). simpl.
    rewrite Hfirst. simpl. rewrite Hsecond.
    eexists. split; [reflexivity |]. simpl. repeat split.
    apply filter_ext. intros r. symmetry. apply Z.leb_antisym.
  - intros Hout.
    destruct (days_before_cases E days) as [[Hin _] | [_ Hd]];
      [contradiction |].
    unfold cleanup_old_data, try_except, bind, lift, ret. rewrite Hd.
    reflexivity.
Qed.

Lemma X27_witness :
  exists w',
    cleanup_old_data (working_ext [] []) only_first_delete 0
      (initial_world store_with_earlier_finding)
    = (Ok (CleanupError (ServiceError "connection lost")), w')
    /\ market_findings (store w')
       = filter (fun r => Z.leb (today (working_ext [] []) - 0) (mf_date r))
           (market_findings (store (initial_world store_with_earlier_finding)))
    /\ competitor_updates (store w')
       = competitor_updates (store (initial_world store_with_earlier_finding))
    /\ analysis_runs (store w')
       = analysis_runs (store (initial_world store_with_earlier_finding)).
Proof.
  apply (proj1 (@X27_cleanup_stops_half_way_on_failure
                  (working_ext [] []) only_first_delete 0%Z
                  (initial_world store_with_earlier_finding)
                  (ServiceError "connection lost") eq_refl eq_refl)).
  unfold days_in_range, date_min, date_max. simpl. lia.
Defined.

(** X28.  A cleanup that was carried out (the cutoff date exists and
    the store carries out the deletions) leaves nothing for a second one
    with the same cutoff: run again, it deletes no row, returns three
    zero counts and leaves the five tables as the first cleanup left
    them. *)
Theorem X28_second_cleanup_deletes_nothing :
  forall (E : Ext) (fault : nat -> string -> Z -> option exn) (days : Z)
         (w : World),
    days_in_range E days ->
    (forall n table cutoff, fault n table cutoff = None) ->
    exists first w1 w2,
      cleanup_old_data E fault days w = (Ok first, w1)
      /\ cleanup_old_data E fault days w1
         = (Ok (CleanupCounts 0 0 0 (today E - days)%Z), w2)
      /\ store w2 = store w1.
Proof.
  intros E fault days w Hdays Hfault.
  rewrite (@cleanup_carried_out E fault days w Hdays Hfault).
  eexists. eexists. eexists. split; [reflexivity |].
  rewrite (@cleanup_carried_out E fault days _ Hdays Hfault). simpl.
  destruct (kept_twice (fun r => Z.ltb (mf_date r) (today E - days))
              (market_findings (store w))) as [F1 F2].
  destruct (kept_twice (fun r => Z.ltb (cu_detected_date r) (today E - days))
              (competitor_updates (store w))) as [U1 U2].
  destruct (kept_twice (fun r => Z.ltb (ar_run_date r) (today E - days))
              (analysis_runs (store w))) as [R1 R2].
  rewrite F1, F2, U1, U2, R1, R2. simpl. split; reflexivity.
Qed.

Lemma X28_witness :
  exists first w1 w2,
    cleanup_old_data (working_ext [] []) every_delete 0
      (initial_world store_with_earlier_finding) = (Ok first, w1)
    /\ cleanup_old_data (working_ext [] []) every_delete 0 w1
       = (Ok (CleanupCounts 0 0 0 (today (working_ext [] []) - 0)%Z), w2)
    /\ store w2 = store w1.
Proof.
  apply (@X28_second_cleanup_deletes_nothing
           (working_ext [] []) every_delete 0%Z
           (initial_world store_with_earlier_finding)).
  - unfold days_in_range, date_min, date_max. simpl. lia.
  - reflexivity.
Defined.

(** ** Enumerations and alerts *)

Lemma enum_of_exact E (members : list E) (value_of : E -> string) v m :
  enum_of members value_of v = Ok m -> v = PStr (value_of m).
Proof.
  unfold enum_of. destruct v as [| b | z | f | s | l | d]; try discriminate.
  destruct (find (fun m0 => String.eqb (value_of m0) s) members) as [m0 |] eqn:Hfind;
    [| discriminate].
  intros [= <-]. apply find_some in Hfind. destruct Hfind as [_ Heq].
  apply String.eqb_eq in Heq. now rewrite Heq.
Qed.

(** X29.  The lookup of a priority or of a category by its value is the
    exact inverse of taking the value: the value of a member is looked
    up as that member, and a lookup succeeds on nothing but the text that
    is the value of the member it returns; a text in another letter
    case, or anything that is not a text, is refused. *)
Theorem X29_enum_lookup_is_the_inverse_of_value :
  (forall p, Priority_of (PStr (Priority_value p)) = Ok p)
  /\ (forall c, Category_of (PStr (Category_value c)) = Ok c)
  /\ (forall v p, Priority_of v = Ok p -> v = PStr (Priority_value p))
  /\ (forall v c, Category_of v = Ok c -> v = PStr (Category_value c)).
Proof.
  repeat split.
  - intros p. destruct p; reflexivity.
  - intros c. destruct c; reflexivity.
  - intros v p. apply enum_of_exact.
  - intros v c. apply enum_of_exact.
Qed.

(** X30.  The alerts of a run are the threat alerts followed by the
    opportunity alerts.  Every threat alert has the impact level of its
    threat, which is high or critical, and every opportunity alert has
    impact level high; there are no more opportunity alerts than top
    opportunities in the result of the Synthesis stage. *)
Theorem X30_every_alert_is_of_high_or_critical_impact :
  forall results : Results,
  exists threat_alerts opportunity_alerts,
    identify_critical_alerts results = threat_alerts ++ opportunity_alerts
    /\ Forall (fun alert =>
                 al_source alert = "Competitive Intelligence"
                 /\ (al_impact_level alert = "high"
                     \/ al_impact_level alert = "critical")) threat_alerts
    /\ Forall (fun alert =>
                 al_source alert = "Strategic Analysis"
                 /\ al_impact_level alert = "high") opportunity_alerts
    /\ length opportunity_alerts
       <= length (synthesis_get results sr_top_opportunities []).
Proof.
  intros results. unfold identify_critical_alerts, synthesis_get.
  eexists. eexists. split; [reflexivity |]. split; [| split].
  - apply Forall_forall. intros alert Hin.
    apply in_map_iff in Hin. destruct Hin as (threat & <- & Hin).
    apply filter_In in Hin. destruct Hin as [_ Hcrit].
    apply threat_is_critical_spec in Hcrit. simpl. split; [reflexivity |].
    destruct Hcrit as [-> | ->]; auto.
  - apply Forall_forall. intros alert Hin.
    apply in_map_iff in Hin. destruct Hin as (opp & <- & _).
    split; reflexivity.
  - rewrite length_map.
    destruct (rs_strategic_synthesis results); apply filter_length_le.
Qed.
